(** * The halo power-spectrum engine of chomp ([halo.py])

    A shallow embedding of the classes [Halo], [HaloExclusion] and [HaloFit]
    and a verification of their cache discipline, integration limits,
    integrands and combination rules.

    Conventions.
    - A Python/NumPy float is a real number ([R]): [numpy.log] is [ln],
      [numpy.exp] is [exp], [x**y] and [numpy.power] with a real exponent are
      [Rpower], [numpy.fabs] is [Rabs].  Rounding, infinities and NaN are
      outside this idealisation.
    - The public methods accept NumPy arrays and act elementwise; they are
      embedded at one wavenumber.
    - A Python object is a record of its attributes; a method is a
      computation in a state-and-exception monad over that record.
    - The SciPy routines the engine calls are embedded as follows:
      [integrate.romberg] by its algorithm, the special functions and the
      spline evaluator as an interface ([SciPy]).
    - The modules [cosmology], [mass_function], [hod] and [defaults] are
      collaborators of the engine; their objects are records of what the
      engine reads, their constructors an interface ([Collaborators]).
    - Of [covariance.py], which calls the engine, the angular bins and the
      constructor of [Covariance] are embedded; the loop of that
      constructor need not end, so it carries a bound on its iterations.
    - A division of Python floats raises ZeroDivisionError on a zero
      divisor.  [set_cosmology], whose redshift is an argument, carries the
      test; the constructor and [set_halo] are embedded at the redshifts at
      which they return (all but -1).
    - A spline is the record of the data it was fitted to.  The library
      fits only more points than the degree of the spline; the engine is
      embedded on grids on which it does.  [spline.derivatives] raises at a
      point outside the knots, and is embedded with that test. *)

From Stdlib Require Import Reals Lra List String Bool Arith Lia.
Import ListNotations.
Open Scope R_scope.

(** ** Numbers and arrays *)

Definition Rltb (a b : R) : bool := if Rlt_dec a b then true else false.
Definition Rleb (a b : R) : bool := if Rle_dec a b then true else false.

(** [numpy.sum] over an array. *)
Definition numpy_sum (xs : list R) : R := fold_right Rplus 0 xs.

(** [numpy.linspace(start, stop, num)]. *)
Definition linspace (start stop : R) (num : nat) : list R :=
  match num with
  | O => []
  | S O => [start]
  | S n => map (fun i => start + INR i * ((stop - start) / INR n)) (seq 0 num)
  end.

(** A dictionary of floats. *)
Definition dict := list (string * R).

(** ** SciPy *)

(** [scipy.interpolate.InterpolatedUnivariateSpline(x, y, k=3)]: the object
    keeps the data it was fitted to; evaluation belongs to the library. *)
Record Spline := InterpolatedUnivariateSpline {
  sp_x : list R;
  sp_y : list R;
  sp_k : nat
}.

Class SciPy := {
  (** [special.sici(x)] returns the pair (Si x, Ci x) *)
  sici : R -> R * R;
  (** [special.hyp2f1(a, b, c, z)] *)
  hyp2f1 : R -> R -> R -> R -> R;
  (** [spline(x)] *)
  spline_call : Spline -> R -> R;
  (** [spline.derivatives(x)], the array of derivatives by order *)
  spline_derivatives : Spline -> R -> nat -> R
}.

(** [spline.derivatives(x)]: FITPACK evaluates the derivatives of a spline
    between its first and its last knot, which for an interpolating spline
    are the ends of the data; at a point outside them the call raises. *)
Definition within_knots (s : Spline) (x : R) : bool :=
  Rleb (hd 0 (sp_x s)) x && Rleb x (last (sp_x s) 0).

Definition derivatives {scipy : SciPy} (s : Spline) (x : R) : option (nat -> R) :=
  if within_knots s x then Some (spline_derivatives s x) else None.

Module integrate.

(** What a run of [romberg] produces: the value it returns and whether it
    left the refinement loop through the [else] branch, where it issues
    [AccuracyWarning] ("divmax exceeded"). *)
Record RombergRun := {
  value : R;
  accuracy_warning : bool
}.

(** [_difftrap(function, interval, numtraps)].  [romberg] calls it with
    [numtraps] a power of two, so the guard for [numtraps <= 0] is never
    taken; the integrand is vectorised ([vec_func=True]). *)
Definition _difftrap (function : R -> R) (interval : R * R) (numtraps : nat) : R :=
  match numtraps with
  | S O => 0.5 * (function (fst interval) + function (snd interval))
  | _ =>
      let numtosum := Nat.div numtraps 2 in
      let h := (snd interval - fst interval) / INR numtosum in
      let lox := fst interval + 0.5 * h in
      let points := map (fun i => lox + h * INR i) (seq 0 numtosum) in
      numpy_sum (map function points)
  end.

(** [_romberg_diff(b, c, k)] *)
Definition _romberg_diff (b c : R) (k : nat) : R :=
  let tmp := 4 ^ k in
  (tmp * c - b) / (tmp - 1).

(** The row of the Romberg table built from the previous row: the inner
    loop [for k in range(i): row.append(_romberg_diff(last_row[k], row[k], k+1))],
    started with the new trapezoid estimate [c]. *)
Fixpoint romberg_row (last_row : list R) (c : R) (k : nat) : list R :=
  match last_row with
  | [] => [c]
  | b :: rest => c :: romberg_row rest (_romberg_diff b c (S k)) (S k)
  end.

(** The loop [for i in range(1, divmax+1)], [remaining] iterations left. *)
Fixpoint romberg_loop (vfunc : R -> R) (interval : R * R) (intrange tol rtol : R)
    (remaining : nat) (n : nat) (ordsum : R) (last_row : list R) (result : R) : RombergRun :=
  match remaining with
  | O => {| value := result; accuracy_warning := true |}
  | S remaining' =>
      let n := (n * 2)%nat in
      let ordsum := ordsum + _difftrap vfunc interval n in
      let row := romberg_row last_row (intrange * ordsum / INR n) 0 in
      let result := last row 0 in
      let lastresult := last last_row 0 in
      let err := Rabs (result - lastresult) in
      if Rltb err tol || Rltb err (rtol * Rabs result)
      then {| value := result; accuracy_warning := false |}
      else romberg_loop vfunc interval intrange tol rtol remaining' n ordsum row result
  end.

Definition romberg_run (function : R -> R) (a b tol rtol : R) (divmax : nat) : RombergRun :=
  let n := 1%nat in
  let interval := (a, b) in
  let intrange := b - a in
  let ordsum := _difftrap function interval n in
  let result := intrange * ordsum in
  romberg_loop function interval intrange tol rtol divmax n ordsum [result] result.

(** [integrate.romberg(function, a, b, args, tol, rtol, divmax, vec_func=True)]:
    the caller receives the value only. *)
Definition romberg (function : R -> R) (a b tol rtol : R) (divmax : nat) : R :=
  value (romberg_run function a b tol rtol divmax).

End integrate.

(** ** Collaborators *)

Module cosmology.
(** What the engine reads of a [cosmology.SingleEpoch] object. *)
Record SingleEpoch := {
  _h : R;
  cosmo_dict : dict;
  delta_v : R;
  rho_bar : R;
  omega_m : R;
  omega_l : R;
  w : R -> R;
  linear_power : R -> R;
  delta_k : R -> R
}.
End cosmology.

Module mass_function.
(** What the engine reads of a [mass_function.MassFunction] object.  The
    parallel arrays [_nu_array] and [_ln_mass_array] are kept as one list of
    pairs (nu, ln mass). *)
Record MassFunction := {
  nu_min : R;
  nu_max : R;
  ln_mass_min : R;
  m_star : R;
  _nu_ln_mass_array : list (R * R);
  nu : R -> R;
  mass : R -> R;
  f_nu : R -> R;
  bias_nu : R -> R
}.
End mass_function.

Module hod.
(** What the engine reads of an HOD object. *)
Record HOD := {
  first_moment_zero : R;
  second_moment_zero : R;
  first_moment : R -> R;
  second_moment : R -> R
}.
End hod.

(** A halo dictionary: the two entries the engine reads, and the rest. *)
Record HaloDict := {
  dict_c0 : R;
  dict_beta : R;
  dict_rest : dict
}.

Module defaults.
(** The entries of [defaults.default_precision] the engine reads. *)
Record Precision := {
  halo_npoints : nat;
  halo_precision : R;
  global_precision : R;
  divmax : nat
}.
End defaults.

Class Collaborators := {
  (** [cosmology.SingleEpoch(redshift, cosmo_dict)] *)
  cosmology_SingleEpoch : R -> option dict -> cosmology.SingleEpoch;
  (** [mass_function.MassFunction(redshift, cosmo, halo_dict)] *)
  mass_function_MassFunction :
    R -> cosmology.SingleEpoch -> HaloDict -> mass_function.MassFunction;
  (** [mass.set_cosmology_object(cosmo)] *)
  set_cosmology_object :
    mass_function.MassFunction -> cosmology.SingleEpoch -> mass_function.MassFunction;
  (** [mass.set_halo(halo_dict)] *)
  mass_set_halo : mass_function.MassFunction -> HaloDict -> mass_function.MassFunction;
  (** [hod.HODZheng()] *)
  hod_HODZheng : hod.HOD;
  default_halo_dict : HaloDict;
  default_precision : defaults.Precision
}.

(** ** The object *)

Inductive HaloClass := Halo_cls | HaloExclusion_cls | HaloFit_cls.

(** The caches an object keeps; [built] below records, in order, each
    construction of one of them. *)
Inductive Cache :=
  | N_BAR | GEOMETRY | H_M | H_G | PP_MM | PP_GM | PP_GG | SIGMA.

(** The attributes [HaloFit._initialize_sigma_spline] assigns before it
    takes the derivatives of the fitted variance. *)
Record SigmaScale := {
  _ln_R_array : list R;
  _ln_sigma2_array : list R;
  _k_s : R
}.

(** The attributes it assigns after them. *)
Record SigmaAttrs := {
  _n_eff : R;
  _C : R;
  _a_n : R;
  _b_n : R;
  _c_n : R;
  _gamma_n : R;
  _alpha_n : R;
  _beta_n : R;
  _mu_n : R;
  _nu_n : R
}.

(** The attributes only a [HaloFit] object has. *)
Record FitAttrs := {
  _f_1 : R;
  _f_2 : R;
  _f_3 : R;
  _omega_l : R;
  _w : R;
  _initialized_sigma_spline : bool;
  scale : option SigmaScale;
  sigma : option SigmaAttrs
}.

(** The attributes of a constructed object.  The five term splines do not
    exist until their first construction ([None]).  [built] is the history
    of cache constructions on the object, kept for the statements about
    laziness; the source has no such attribute. *)
Record HaloObj := Build_HaloObj {
  cls : HaloClass;
  _k_min : R;
  _k_max : R;
  _ln_k_max : R;
  _ln_k_min : R;
  _ln_k_array : list R;
  _redshift : R;
  cosmo : cosmology.SingleEpoch;
  cosmo_dict : option dict;
  halo_dict : HaloDict;
  mass : mass_function.MassFunction;
  c0 : R;
  beta : R;
  alpha : R;
  delta_v : R;
  rho_bar : R;
  _h : R;
  local_hod : hod.HOD;
  n_bar_over_rho_bar : R;
  n_bar : R;
  _ln_r_v_spline : Spline;
  _ln_concen_spline : Spline;
  _ln_halo_norm_spline : Spline;
  _initialized_h_m : bool;
  _initialized_h_g : bool;
  _initialized_pp_mm : bool;
  _initialized_pp_gm : bool;
  _initialized_pp_gg : bool;
  _h_m_spline : option Spline;
  _h_g_spline : option Spline;
  _pp_mm_spline : option Spline;
  _pp_gm_spline : option Spline;
  _pp_gg_spline : option Spline;
  fit : option FitAttrs;
  built : list Cache
}.

Definition with_redshift (v : R) (o : HaloObj) : HaloObj :=
  Build_HaloObj (cls o) (_k_min o) (_k_max o) (_ln_k_max o) (_ln_k_min o) (_ln_k_array o) v
    (cosmo o) (cosmo_dict o) (halo_dict o) (mass o) (c0 o) (beta o) (alpha o) (delta_v o)
    (rho_bar o) (_h o) (local_hod o) (n_bar_over_rho_bar o) (n_bar o) (_ln_r_v_spline o)
    (_ln_concen_spline o) (_ln_halo_norm_spline o) (_initialized_h_m o) (_initialized_h_g o)
    (_initialized_pp_mm o) (_initialized_pp_gm o) (_initialized_pp_gg o) (_h_m_spline o)
    (_h_g_spline o) (_pp_mm_spline o) (_pp_gm_spline o) (_pp_gg_spline o) (fit o) (built o).

Definition with_cosmo (v : cosmology.SingleEpoch) (o : HaloObj) : HaloObj :=
  Build_HaloObj (cls o) (_k_min o) (_k_max o) (_ln_k_max o) (_ln_k_min o) (_ln_k_array o)
    (_redshift o) v (cosmo_dict o) (halo_dict o) (mass o) (c0 o) (beta o) (alpha o) (delta_v o)
    (rho_bar o) (_h o) (local_hod o) (n_bar_over_rho_bar o) (n_bar o) (_ln_r_v_spline o)
    (_ln_concen_spline o) (_ln_halo_norm_spline o) (_initialized_h_m o) (_initialized_h_g o)
    (_initialized_pp_mm o) (_initialized_pp_gm o) (_initialized_pp_gg o) (_h_m_spline o)
    (_h_g_spline o) (_pp_mm_spline o) (_pp_gm_spline o) (_pp_gg_spline o) (fit o) (built o).

Definition with_cosmo_dict (v : option dict) (o : HaloObj) : HaloObj :=
  Build_HaloObj (cls o) (_k_min o) (_k_max o) (_ln_k_max o) (_ln_k_min o) (_ln_k_array o)
    (_redshift o) (cosmo o) v (halo_dict o) (mass o) (c0 o) (beta o) (alpha o) (delta_v o)
    (rho_bar o) (_h o) (local_hod o) (n_bar_over_rho_bar o) (n_bar o) (_ln_r_v_spline o)
    (_ln_concen_spline o) (_ln_halo_norm_spline o) (_initialized_h_m o) (_initialized_h_g o)
    (_initialized_pp_mm o) (_initialized_pp_gm o) (_initialized_pp_gg o) (_h_m_spline o)
    (_h_g_spline o) (_pp_mm_spline o) (_pp_gm_spline o) (_pp_gg_spline o) (fit o) (built o).

Definition with_mass (v : mass_function.MassFunction) (o : HaloObj) : HaloObj :=
  Build_HaloObj (cls o) (_k_min o) (_k_max o) (_ln_k_max o) (_ln_k_min o) (_ln_k_array o)
    (_redshift o) (cosmo o) (cosmo_dict o) (halo_dict o) v (c0 o) (beta o) (alpha o) (delta_v o)
    (rho_bar o) (_h o) (local_hod o) (n_bar_over_rho_bar o) (n_bar o) (_ln_r_v_spline o)
    (_ln_concen_spline o) (_ln_halo_norm_spline o) (_initialized_h_m o) (_initialized_h_g o)
    (_initialized_pp_mm o) (_initialized_pp_gm o) (_initialized_pp_gg o) (_h_m_spline o)
    (_h_g_spline o) (_pp_mm_spline o) (_pp_gm_spline o) (_pp_gg_spline o) (fit o) (built o).

Definition with_c0 (v : R) (o : HaloObj) : HaloObj :=
  Build_HaloObj (cls o) (_k_min o) (_k_max o) (_ln_k_max o) (_ln_k_min o) (_ln_k_array o)
    (_redshift o) (cosmo o) (cosmo_dict o) (halo_dict o) (mass o) v (beta o) (alpha o)
    (delta_v o) (rho_bar o) (_h o) (local_hod o) (n_bar_over_rho_bar o) (n_bar o)
    (_ln_r_v_spline o) (_ln_concen_spline o) (_ln_halo_norm_spline o) (_initialized_h_m o)
    (_initialized_h_g o) (_initialized_pp_mm o) (_initialized_pp_gm o) (_initialized_pp_gg o)
    (_h_m_spline o) (_h_g_spline o) (_pp_mm_spline o) (_pp_gm_spline o) (_pp_gg_spline o)
    (fit o) (built o).

Definition with_beta (v : R) (o : HaloObj) : HaloObj :=
  Build_HaloObj (cls o) (_k_min o) (_k_max o) (_ln_k_max o) (_ln_k_min o) (_ln_k_array o)
    (_redshift o) (cosmo o) (cosmo_dict o) (halo_dict o) (mass o) (c0 o) v (alpha o) (delta_v o)
    (rho_bar o) (_h o) (local_hod o) (n_bar_over_rho_bar o) (n_bar o) (_ln_r_v_spline o)
    (_ln_concen_spline o) (_ln_halo_norm_spline o) (_initialized_h_m o) (_initialized_h_g o)
    (_initialized_pp_mm o) (_initialized_pp_gm o) (_initialized_pp_gg o) (_h_m_spline o)
    (_h_g_spline o) (_pp_mm_spline o) (_pp_gm_spline o) (_pp_gg_spline o) (fit o) (built o).

Definition with_alpha (v : R) (o : HaloObj) : HaloObj :=
  Build_HaloObj (cls o) (_k_min o) (_k_max o) (_ln_k_max o) (_ln_k_min o) (_ln_k_array o)
    (_redshift o) (cosmo o) (cosmo_dict o) (halo_dict o) (mass o) (c0 o) (beta o) v (delta_v o)
    (rho_bar o) (_h o) (local_hod o) (n_bar_over_rho_bar o) (n_bar o) (_ln_r_v_spline o)
    (_ln_concen_spline o) (_ln_halo_norm_spline o) (_initialized_h_m o) (_initialized_h_g o)
    (_initialized_pp_mm o) (_initialized_pp_gm o) (_initialized_pp_gg o) (_h_m_spline o)
    (_h_g_spline o) (_pp_mm_spline o) (_pp_gm_spline o) (_pp_gg_spline o) (fit o) (built o).

Definition with_delta_v (v : R) (o : HaloObj) : HaloObj :=
  Build_HaloObj (cls o) (_k_min o) (_k_max o) (_ln_k_max o) (_ln_k_min o) (_ln_k_array o)
    (_redshift o) (cosmo o) (cosmo_dict o) (halo_dict o) (mass o) (c0 o) (beta o) (alpha o) v
    (rho_bar o) (_h o) (local_hod o) (n_bar_over_rho_bar o) (n_bar o) (_ln_r_v_spline o)
    (_ln_concen_spline o) (_ln_halo_norm_spline o) (_initialized_h_m o) (_initialized_h_g o)
    (_initialized_pp_mm o) (_initialized_pp_gm o) (_initialized_pp_gg o) (_h_m_spline o)
    (_h_g_spline o) (_pp_mm_spline o) (_pp_gm_spline o) (_pp_gg_spline o) (fit o) (built o).

Definition with_rho_bar (v : R) (o : HaloObj) : HaloObj :=
  Build_HaloObj (cls o) (_k_min o) (_k_max o) (_ln_k_max o) (_ln_k_min o) (_ln_k_array o)
    (_redshift o) (cosmo o) (cosmo_dict o) (halo_dict o) (mass o) (c0 o) (beta o) (alpha o)
    (delta_v o) v (_h o) (local_hod o) (n_bar_over_rho_bar o) (n_bar o) (_ln_r_v_spline o)
    (_ln_concen_spline o) (_ln_halo_norm_spline o) (_initialized_h_m o) (_initialized_h_g o)
    (_initialized_pp_mm o) (_initialized_pp_gm o) (_initialized_pp_gg o) (_h_m_spline o)
    (_h_g_spline o) (_pp_mm_spline o) (_pp_gm_spline o) (_pp_gg_spline o) (fit o) (built o).

Definition with_h (v : R) (o : HaloObj) : HaloObj :=
  Build_HaloObj (cls o) (_k_min o) (_k_max o) (_ln_k_max o) (_ln_k_min o) (_ln_k_array o)
    (_redshift o) (cosmo o) (cosmo_dict o) (halo_dict o) (mass o) (c0 o) (beta o) (alpha o)
    (delta_v o) (rho_bar o) v (local_hod o) (n_bar_over_rho_bar o) (n_bar o) (_ln_r_v_spline o)
    (_ln_concen_spline o) (_ln_halo_norm_spline o) (_initialized_h_m o) (_initialized_h_g o)
    (_initialized_pp_mm o) (_initialized_pp_gm o) (_initialized_pp_gg o) (_h_m_spline o)
    (_h_g_spline o) (_pp_mm_spline o) (_pp_gm_spline o) (_pp_gg_spline o) (fit o) (built o).

Definition with_local_hod (v : hod.HOD) (o : HaloObj) : HaloObj :=
  Build_HaloObj (cls o) (_k_min o) (_k_max o) (_ln_k_max o) (_ln_k_min o) (_ln_k_array o)
    (_redshift o) (cosmo o) (cosmo_dict o) (halo_dict o) (mass o) (c0 o) (beta o) (alpha o)
    (delta_v o) (rho_bar o) (_h o) v (n_bar_over_rho_bar o) (n_bar o) (_ln_r_v_spline o)
    (_ln_concen_spline o) (_ln_halo_norm_spline o) (_initialized_h_m o) (_initialized_h_g o)
    (_initialized_pp_mm o) (_initialized_pp_gm o) (_initialized_pp_gg o) (_h_m_spline o)
    (_h_g_spline o) (_pp_mm_spline o) (_pp_gm_spline o) (_pp_gg_spline o) (fit o) (built o).

Definition with_n_bar_over_rho_bar (v : R) (o : HaloObj) : HaloObj :=
  Build_HaloObj (cls o) (_k_min o) (_k_max o) (_ln_k_max o) (_ln_k_min o) (_ln_k_array o)
    (_redshift o) (cosmo o) (cosmo_dict o) (halo_dict o) (mass o) (c0 o) (beta o) (alpha o)
    (delta_v o) (rho_bar o) (_h o) (local_hod o) v (n_bar o) (_ln_r_v_spline o)
    (_ln_concen_spline o) (_ln_halo_norm_spline o) (_initialized_h_m o) (_initialized_h_g o)
    (_initialized_pp_mm o) (_initialized_pp_gm o) (_initialized_pp_gg o) (_h_m_spline o)
    (_h_g_spline o) (_pp_mm_spline o) (_pp_gm_spline o) (_pp_gg_spline o) (fit o) (built o).

Definition with_n_bar (v : R) (o : HaloObj) : HaloObj :=
  Build_HaloObj (cls o) (_k_min o) (_k_max o) (_ln_k_max o) (_ln_k_min o) (_ln_k_array o)
    (_redshift o) (cosmo o) (cosmo_dict o) (halo_dict o) (mass o) (c0 o) (beta o) (alpha o)
    (delta_v o) (rho_bar o) (_h o) (local_hod o) (n_bar_over_rho_bar o) v (_ln_r_v_spline o)
    (_ln_concen_spline o) (_ln_halo_norm_spline o) (_initialized_h_m o) (_initialized_h_g o)
    (_initialized_pp_mm o) (_initialized_pp_gm o) (_initialized_pp_gg o) (_h_m_spline o)
    (_h_g_spline o) (_pp_mm_spline o) (_pp_gm_spline o) (_pp_gg_spline o) (fit o) (built o).

Definition with_ln_r_v_spline (v : Spline) (o : HaloObj) : HaloObj :=
  Build_HaloObj (cls o) (_k_min o) (_k_max o) (_ln_k_max o) (_ln_k_min o) (_ln_k_array o)
    (_redshift o) (cosmo o) (cosmo_dict o) (halo_dict o) (mass o) (c0 o) (beta o) (alpha o)
    (delta_v o) (rho_bar o) (_h o) (local_hod o) (n_bar_over_rho_bar o) (n_bar o) v
    (_ln_concen_spline o) (_ln_halo_norm_spline o) (_initialized_h_m o) (_initialized_h_g o)
    (_initialized_pp_mm o) (_initialized_pp_gm o) (_initialized_pp_gg o) (_h_m_spline o)
    (_h_g_spline o) (_pp_mm_spline o) (_pp_gm_spline o) (_pp_gg_spline o) (fit o) (built o).

Definition with_ln_concen_spline (v : Spline) (o : HaloObj) : HaloObj :=
  Build_HaloObj (cls o) (_k_min o) (_k_max o) (_ln_k_max o) (_ln_k_min o) (_ln_k_array o)
    (_redshift o) (cosmo o) (cosmo_dict o) (halo_dict o) (mass o) (c0 o) (beta o) (alpha o)
    (delta_v o) (rho_bar o) (_h o) (local_hod o) (n_bar_over_rho_bar o) (n_bar o)
    (_ln_r_v_spline o) v (_ln_halo_norm_spline o) (_initialized_h_m o) (_initialized_h_g o)
    (_initialized_pp_mm o) (_initialized_pp_gm o) (_initialized_pp_gg o) (_h_m_spline o)
    (_h_g_spline o) (_pp_mm_spline o) (_pp_gm_spline o) (_pp_gg_spline o) (fit o) (built o).

Definition with_ln_halo_norm_spline (v : Spline) (o : HaloObj) : HaloObj :=
  Build_HaloObj (cls o) (_k_min o) (_k_max o) (_ln_k_max o) (_ln_k_min o) (_ln_k_array o)
    (_redshift o) (cosmo o) (cosmo_dict o) (halo_dict o) (mass o) (c0 o) (beta o) (alpha o)
    (delta_v o) (rho_bar o) (_h o) (local_hod o) (n_bar_over_rho_bar o) (n_bar o)
    (_ln_r_v_spline o) (_ln_concen_spline o) v (_initialized_h_m o) (_initialized_h_g o)
    (_initialized_pp_mm o) (_initialized_pp_gm o) (_initialized_pp_gg o) (_h_m_spline o)
    (_h_g_spline o) (_pp_mm_spline o) (_pp_gm_spline o) (_pp_gg_spline o) (fit o) (built o).

Definition with_initialized_h_m (v : bool) (o : HaloObj) : HaloObj :=
  Build_HaloObj (cls o) (_k_min o) (_k_max o) (_ln_k_max o) (_ln_k_min o) (_ln_k_array o)
    (_redshift o) (cosmo o) (cosmo_dict o) (halo_dict o) (mass o) (c0 o) (beta o) (alpha o)
    (delta_v o) (rho_bar o) (_h o) (local_hod o) (n_bar_over_rho_bar o) (n_bar o)
    (_ln_r_v_spline o) (_ln_concen_spline o) (_ln_halo_norm_spline o) v (_initialized_h_g o)
    (_initialized_pp_mm o) (_initialized_pp_gm o) (_initialized_pp_gg o) (_h_m_spline o)
    (_h_g_spline o) (_pp_mm_spline o) (_pp_gm_spline o) (_pp_gg_spline o) (fit o) (built o).

Definition with_initialized_h_g (v : bool) (o : HaloObj) : HaloObj :=
  Build_HaloObj (cls o) (_k_min o) (_k_max o) (_ln_k_max o) (_ln_k_min o) (_ln_k_array o)
    (_redshift o) (cosmo o) (cosmo_dict o) (halo_dict o) (mass o) (c0 o) (beta o) (alpha o)
    (delta_v o) (rho_bar o) (_h o) (local_hod o) (n_bar_over_rho_bar o) (n_bar o)
    (_ln_r_v_spline o) (_ln_concen_spline o) (_ln_halo_norm_spline o) (_initialized_h_m o) v
    (_initialized_pp_mm o) (_initialized_pp_gm o) (_initialized_pp_gg o) (_h_m_spline o)
    (_h_g_spline o) (_pp_mm_spline o) (_pp_gm_spline o) (_pp_gg_spline o) (fit o) (built o).

Definition with_initialized_pp_mm (v : bool) (o : HaloObj) : HaloObj :=
  Build_HaloObj (cls o) (_k_min o) (_k_max o) (_ln_k_max o) (_ln_k_min o) (_ln_k_array o)
    (_redshift o) (cosmo o) (cosmo_dict o) (halo_dict o) (mass o) (c0 o) (beta o) (alpha o)
    (delta_v o) (rho_bar o) (_h o) (local_hod o) (n_bar_over_rho_bar o) (n_bar o)
    (_ln_r_v_spline o) (_ln_concen_spline o) (_ln_halo_norm_spline o) (_initialized_h_m o)
    (_initialized_h_g o) v (_initialized_pp_gm o) (_initialized_pp_gg o) (_h_m_spline o)
    (_h_g_spline o) (_pp_mm_spline o) (_pp_gm_spline o) (_pp_gg_spline o) (fit o) (built o).

Definition with_initialized_pp_gm (v : bool) (o : HaloObj) : HaloObj :=
  Build_HaloObj (cls o) (_k_min o) (_k_max o) (_ln_k_max o) (_ln_k_min o) (_ln_k_array o)
    (_redshift o) (cosmo o) (cosmo_dict o) (halo_dict o) (mass o) (c0 o) (beta o) (alpha o)
    (delta_v o) (rho_bar o) (_h o) (local_hod o) (n_bar_over_rho_bar o) (n_bar o)
    (_ln_r_v_spline o) (_ln_concen_spline o) (_ln_halo_norm_spline o) (_initialized_h_m o)
    (_initialized_h_g o) (_initialized_pp_mm o) v (_initialized_pp_gg o) (_h_m_spline o)
    (_h_g_spline o) (_pp_mm_spline o) (_pp_gm_spline o) (_pp_gg_spline o) (fit o) (built o).

Definition with_initialized_pp_gg (v : bool) (o : HaloObj) : HaloObj :=
  Build_HaloObj (cls o) (_k_min o) (_k_max o) (_ln_k_max o) (_ln_k_min o) (_ln_k_array o)
    (_redshift o) (cosmo o) (cosmo_dict o) (halo_dict o) (mass o) (c0 o) (beta o) (alpha o)
    (delta_v o) (rho_bar o) (_h o) (local_hod o) (n_bar_over_rho_bar o) (n_bar o)
    (_ln_r_v_spline o) (_ln_concen_spline o) (_ln_halo_norm_spline o) (_initialized_h_m o)
    (_initialized_h_g o) (_initialized_pp_mm o) (_initialized_pp_gm o) v (_h_m_spline o)
    (_h_g_spline o) (_pp_mm_spline o) (_pp_gm_spline o) (_pp_gg_spline o) (fit o) (built o).

Definition with_h_m_spline (v : option Spline) (o : HaloObj) : HaloObj :=
  Build_HaloObj (cls o) (_k_min o) (_k_max o) (_ln_k_max o) (_ln_k_min o) (_ln_k_array o)
    (_redshift o) (cosmo o) (cosmo_dict o) (halo_dict o) (mass o) (c0 o) (beta o) (alpha o)
    (delta_v o) (rho_bar o) (_h o) (local_hod o) (n_bar_over_rho_bar o) (n_bar o)
    (_ln_r_v_spline o) (_ln_concen_spline o) (_ln_halo_norm_spline o) (_initialized_h_m o)
    (_initialized_h_g o) (_initialized_pp_mm o) (_initialized_pp_gm o) (_initialized_pp_gg o) v
    (_h_g_spline o) (_pp_mm_spline o) (_pp_gm_spline o) (_pp_gg_spline o) (fit o) (built o).

Definition with_h_g_spline (v : option Spline) (o : HaloObj) : HaloObj :=
  Build_HaloObj (cls o) (_k_min o) (_k_max o) (_ln_k_max o) (_ln_k_min o) (_ln_k_array o)
    (_redshift o) (cosmo o) (cosmo_dict o) (halo_dict o) (mass o) (c0 o) (beta o) (alpha o)
    (delta_v o) (rho_bar o) (_h o) (local_hod o) (n_bar_over_rho_bar o) (n_bar o)
    (_ln_r_v_spline o) (_ln_concen_spline o) (_ln_halo_norm_spline o) (_initialized_h_m o)
    (_initialized_h_g o) (_initialized_pp_mm o) (_initialized_pp_gm o) (_initialized_pp_gg o)
    (_h_m_spline o) v (_pp_mm_spline o) (_pp_gm_spline o) (_pp_gg_spline o) (fit o) (built o).

Definition with_pp_mm_spline (v : option Spline) (o : HaloObj) : HaloObj :=
  Build_HaloObj (cls o) (_k_min o) (_k_max o) (_ln_k_max o) (_ln_k_min o) (_ln_k_array o)
    (_redshift o) (cosmo o) (cosmo_dict o) (halo_dict o) (mass o) (c0 o) (beta o) (alpha o)
    (delta_v o) (rho_bar o) (_h o) (local_hod o) (n_bar_over_rho_bar o) (n_bar o)
    (_ln_r_v_spline o) (_ln_concen_spline o) (_ln_halo_norm_spline o) (_initialized_h_m o)
    (_initialized_h_g o) (_initialized_pp_mm o) (_initialized_pp_gm o) (_initialized_pp_gg o)
    (_h_m_spline o) (_h_g_spline o) v (_pp_gm_spline o) (_pp_gg_spline o) (fit o) (built o).

Definition with_pp_gm_spline (v : option Spline) (o : HaloObj) : HaloObj :=
  Build_HaloObj (cls o) (_k_min o) (_k_max o) (_ln_k_max o) (_ln_k_min o) (_ln_k_array o)
    (_redshift o) (cosmo o) (cosmo_dict o) (halo_dict o) (mass o) (c0 o) (beta o) (alpha o)
    (delta_v o) (rho_bar o) (_h o) (local_hod o) (n_bar_over_rho_bar o) (n_bar o)
    (_ln_r_v_spline o) (_ln_concen_spline o) (_ln_halo_norm_spline o) (_initialized_h_m o)
    (_initialized_h_g o) (_initialized_pp_mm o) (_initialized_pp_gm o) (_initialized_pp_gg o)
    (_h_m_spline o) (_h_g_spline o) (_pp_mm_spline o) v (_pp_gg_spline o) (fit o) (built o).

Definition with_pp_gg_spline (v : option Spline) (o : HaloObj) : HaloObj :=
  Build_HaloObj (cls o) (_k_min o) (_k_max o) (_ln_k_max o) (_ln_k_min o) (_ln_k_array o)
    (_redshift o) (cosmo o) (cosmo_dict o) (halo_dict o) (mass o) (c0 o) (beta o) (alpha o)
    (delta_v o) (rho_bar o) (_h o) (local_hod o) (n_bar_over_rho_bar o) (n_bar o)
    (_ln_r_v_spline o) (_ln_concen_spline o) (_ln_halo_norm_spline o) (_initialized_h_m o)
    (_initialized_h_g o) (_initialized_pp_mm o) (_initialized_pp_gm o) (_initialized_pp_gg o)
    (_h_m_spline o) (_h_g_spline o) (_pp_mm_spline o) (_pp_gm_spline o) v (fit o) (built o).

Definition with_fit (v : option FitAttrs) (o : HaloObj) : HaloObj :=
  Build_HaloObj (cls o) (_k_min o) (_k_max o) (_ln_k_max o) (_ln_k_min o) (_ln_k_array o)
    (_redshift o) (cosmo o) (cosmo_dict o) (halo_dict o) (mass o) (c0 o) (beta o) (alpha o)
    (delta_v o) (rho_bar o) (_h o) (local_hod o) (n_bar_over_rho_bar o) (n_bar o)
    (_ln_r_v_spline o) (_ln_concen_spline o) (_ln_halo_norm_spline o) (_initialized_h_m o)
    (_initialized_h_g o) (_initialized_pp_mm o) (_initialized_pp_gm o) (_initialized_pp_gg o)
    (_h_m_spline o) (_h_g_spline o) (_pp_mm_spline o) (_pp_gm_spline o) (_pp_gg_spline o) v
    (built o).

Definition with_built (v : list Cache) (o : HaloObj) : HaloObj :=
  Build_HaloObj (cls o) (_k_min o) (_k_max o) (_ln_k_max o) (_ln_k_min o) (_ln_k_array o)
    (_redshift o) (cosmo o) (cosmo_dict o) (halo_dict o) (mass o) (c0 o) (beta o) (alpha o)
    (delta_v o) (rho_bar o) (_h o) (local_hod o) (n_bar_over_rho_bar o) (n_bar o)
    (_ln_r_v_spline o) (_ln_concen_spline o) (_ln_halo_norm_spline o) (_initialized_h_m o)
    (_initialized_h_g o) (_initialized_pp_mm o) (_initialized_pp_gm o) (_initialized_pp_gg o)
    (_h_m_spline o) (_h_g_spline o) (_pp_mm_spline o) (_pp_gm_spline o) (_pp_gg_spline o)
    (fit o) v.
(** ** Exceptions and methods *)

Inductive exn :=
  | AttributeError (attr : string)
  | ZeroDivisionError
  | TypeError.

Inductive Result (A : Type) :=
  | Ok (a : A)
  | Raise (e : exn).
Arguments Ok {A} a.
Arguments Raise {A} e.

(** A method: it runs on the object, returns or raises, and leaves the
    object as it was at that point. *)
Definition M (A : Type) := HaloObj -> Result A * HaloObj.

Definition ret {A} (a : A) : M A := fun o => (Ok a, o).

Definition bind {A B} (m : M A) (f : A -> M B) : M B :=
  fun o =>
    match m o with
    | (Ok a, o') => f a o'
    | (Raise e, o') => (Raise e, o')
    end.

Definition raise {A} (e : exn) : M A := fun o => (Raise e, o).

(** Reading from [self]. *)
Definition self {A} (f : HaloObj -> A) : M A := fun o => (Ok (f o), o).

(** Assigning to an attribute of [self]. *)
Definition assign (f : HaloObj -> HaloObj) : M unit := fun o => (Ok tt, f o).

(** [if not flag: body] *)
Definition if_not (flag : bool) (body : M unit) : M unit :=
  if flag then ret tt else body.

(** Reading an attribute that may not exist yet. *)
Definition attribute {A} (name : string) (f : HaloObj -> option A) : M A :=
  fun o =>
    match f o with
    | Some a => (Ok a, o)
    | None => (Raise (AttributeError name), o)
    end.

Declare Scope method_scope.
Delimit Scope method_scope with method.
Notation "x <- m ;; k" := (bind m (fun x => k))
  (at level 61, m at next level, right associativity) : method_scope.
Notation "m ;; k" := (bind m (fun _ => k))
  (at level 61, right associativity) : method_scope.
Open Scope method_scope.

(** The object after a method has run, and what the method returned. *)
Definition after {A} (m : M A) (o : HaloObj) : HaloObj := snd (m o).
Definition returned {A} (m : M A) (o : HaloObj) : Result A := fst (m o).

Definition log (c : Cache) : M unit := assign (fun o => with_built (built o ++ [c]) o).

(** ** class Halo *)

Module Halo.
Section Methods.
Context {scipy : SciPy} {repo : Collaborators}.

(** Every quadrature of the engine passes the same three entries of
    [defaults.default_precision]: [tol = global_precision],
    [rtol = halo_precision] and [divmax]. *)
Definition romberg_run (function : R -> R) (a b : R) : integrate.RombergRun :=
  integrate.romberg_run function a b
    (defaults.global_precision default_precision)
    (defaults.halo_precision default_precision)
    (defaults.divmax default_precision).

Definition romberg (function : R -> R) (a b : R) : R :=
  integrate.value (romberg_run function a b).

Definition linear_power (o : HaloObj) (k : R) : R :=
  cosmology.linear_power (cosmo o) k.

Definition virial_radius (o : HaloObj) (mass' : R) : R :=
  exp (spline_call (_ln_r_v_spline o) (ln mass')).

Definition concentration (o : HaloObj) (mass' : R) : R :=
  exp (spline_call (_ln_concen_spline o) (ln mass')).

Definition halo_normalization (o : HaloObj) (mass' : R) : R :=
  exp (spline_call (_ln_halo_norm_spline o) (ln mass')).

(** Fourier transform of the NFW profile. *)
Definition y (o : HaloObj) (ln_k mass' : R) : R :=
  let k := exp ln_k / _h o in
  let con := concentration o mass' in
  let con_plus := 1 + con in
  let z := k * virial_radius o mass' / con in
  let '(si_z, ci_z) := sici z in
  let '(si_cz, ci_cz) := sici (con_plus * z) in
  let rho_km := cos z * (ci_cz - ci_z) +
                sin z * (si_cz - si_z) -
                sin (con * z) / (con_plus * z) in
  let mass_k := ln con_plus - con / con_plus in
  rho_km / mass_k.

(** The accessors of the cached terms: [numpy.where] evaluates the spline
    before it selects, so the spline attribute is read at every [k]. *)
Definition term (name : string) (spline : HaloObj -> option Spline) (k : R) : M R :=
  o <- self (fun o => o) ;;
  s <- attribute name spline ;;
  ret (if Rleb (_k_min o) k && Rleb k (_k_max o) then spline_call s (ln k) else 0).

Definition _h_m : R -> M R := term "_h_m_spline" _h_m_spline.
Definition _pp_mm : R -> M R := term "_pp_mm_spline" _pp_mm_spline.
Definition _pp_gm : R -> M R := term "_pp_gm_spline" _pp_gm_spline.
Definition _h_g : R -> M R := term "_h_g_spline" _h_g_spline.
Definition _pp_gg : R -> M R := term "_pp_gg_spline" _pp_gg_spline.

Definition _nbar_integrand (o : HaloObj) (ln_nu : R) : R :=
  let nu := exp ln_nu in
  let mass' := mass_function.mass (mass o) nu in
  nu * hod.first_moment (local_hod o) mass' * mass_function.f_nu (mass o) nu / mass'.

Definition _calculate_n_bar : M unit :=
  o <- self (fun o => o) ;;
  let nu_min := mass_function.nu_min (mass o) in
  let nu_min :=
    if Rltb (-1) (hod.first_moment_zero (local_hod o)) &&
       Rltb (exp (mass_function.ln_mass_min (mass o)))
            (hod.first_moment_zero (local_hod o))
    then mass_function.nu (mass o) (hod.first_moment_zero (local_hod o))
    else nu_min in
  let n_bar_over_rho_bar :=
    romberg (_nbar_integrand o) (ln nu_min) (ln (mass_function.nu_max (mass o))) in
  assign (with_n_bar_over_rho_bar n_bar_over_rho_bar) ;;
  assign (with_n_bar (n_bar_over_rho_bar * rho_bar o)) ;;
  log N_BAR.

Definition _concentration (o : HaloObj) (mass' : R) : R :=
  c0 o * Rpower (mass' / mass_function.m_star (mass o)) (beta o).

Definition _halo_normalization (o : HaloObj) (mass' : R) : R :=
  let con := _concentration o mass' in
  let rho_s := (rho_bar o * delta_v o * con * con * con) / 3 in
  let rho_norm :=
    (Rpower con (3 + alpha o) *
     hyp2f1 (3 + alpha o) (3 + alpha o) (4 + alpha o) (-1 * con)) / (3 + alpha o) in
  rho_s / rho_norm.

Definition _virial_radius (o : HaloObj) (mass' : R) : R :=
  let r3 := 3 * mass' / (4 * PI * delta_v o * rho_bar o) in
  Rpower r3 (1 / 3).

(** The loop runs over every index of the mass grid. *)
Definition _initialize_halo_splines : M unit :=
  o <- self (fun o => o) ;;
  let _ln_mass_array := map snd (mass_function._nu_ln_mass_array (mass o)) in
  let ln_r_v_array :=
    map (fun ln_mass => ln (_virial_radius o (exp ln_mass))) _ln_mass_array in
  let ln_concen_array :=
    map (fun ln_mass => ln (_concentration o (exp ln_mass))) _ln_mass_array in
  let ln_halo_norm_array :=
    map (fun ln_mass => ln (_halo_normalization o (exp ln_mass))) _ln_mass_array in
  assign (with_ln_r_v_spline
            (InterpolatedUnivariateSpline _ln_mass_array ln_r_v_array 3)) ;;
  assign (with_ln_concen_spline
            (InterpolatedUnivariateSpline _ln_mass_array ln_concen_array 3)) ;;
  assign (with_ln_halo_norm_spline
            (InterpolatedUnivariateSpline _ln_mass_array ln_halo_norm_array 3)) ;;
  log GEOMETRY.

Definition _h_m_integrand (o : HaloObj) (ln_nu ln_k : R) : R :=
  let nu := exp ln_nu in
  let mass' := mass_function.mass (mass o) nu in
  nu * mass_function.f_nu (mass o) nu * mass_function.bias_nu (mass o) nu *
  y o ln_k mass'.

Definition _initialize_h_m : M unit :=
  o <- self (fun o => o) ;;
  let h_m_array :=
    map (fun ln_k =>
           romberg (fun ln_nu => _h_m_integrand o ln_nu ln_k)
             (ln (mass_function.nu_min (mass o)))
             (ln (mass_function.nu_max (mass o))))
        (_ln_k_array o) in
  assign (with_h_m_spline
            (Some (InterpolatedUnivariateSpline (_ln_k_array o) h_m_array 3))) ;;
  assign (with_initialized_h_m true) ;;
  log H_M.

Definition _h_g_integrand (o : HaloObj) (ln_nu ln_k : R) : R :=
  let nu := exp ln_nu in
  let mass' := mass_function.mass (mass o) nu in
  nu * mass_function.f_nu (mass o) nu * mass_function.bias_nu (mass o) nu *
  y o ln_k mass' * hod.first_moment (local_hod o) mass' /
  (mass' * n_bar_over_rho_bar o).

(** [nu_min] is computed from the HOD as in the other galaxy terms; the
    call to [romberg] is given [self.mass.nu_min]. *)
Definition _initialize_h_g : M unit :=
  o <- self (fun o => o) ;;
  let nu_min := mass_function.nu_min (mass o) in
  let nu_min :=
    if Rltb (-1) (hod.first_moment_zero (local_hod o)) &&
       Rltb (exp (mass_function.ln_mass_min (mass o)))
            (hod.first_moment_zero (local_hod o))
    then mass_function.nu (mass o) (hod.first_moment_zero (local_hod o))
    else nu_min in
  let h_g_array :=
    map (fun ln_k =>
           romberg (fun ln_nu => _h_g_integrand o ln_nu ln_k)
             (ln (mass_function.nu_min (mass o)))
             (ln (mass_function.nu_max (mass o))))
        (_ln_k_array o) in
  assign (with_h_g_spline
            (Some (InterpolatedUnivariateSpline (_ln_k_array o) h_g_array 3))) ;;
  assign (with_initialized_h_g true) ;;
  log H_G.

Definition _pp_mm_integrand (o : HaloObj) (ln_nu ln_k : R) : R :=
  let nu := exp ln_nu in
  let mass' := mass_function.mass (mass o) nu in
  let y := y o ln_k mass' in
  nu * mass_function.f_nu (mass o) nu * mass' * y * y.

Definition _initialize_pp_mm : M unit :=
  o <- self (fun o => o) ;;
  let pp_mm_array :=
    map (fun ln_k =>
           romberg (fun ln_nu => _pp_mm_integrand o ln_nu ln_k)
             (ln (mass_function.nu_min (mass o)))
             (ln (mass_function.nu_max (mass o))) / rho_bar o)
        (_ln_k_array o) in
  assign (with_pp_mm_spline
            (Some (InterpolatedUnivariateSpline (_ln_k_array o) pp_mm_array 3))) ;;
  assign (with_initialized_pp_mm true) ;;
  log PP_MM.

Definition _pp_gg_integrand (o : HaloObj) (ln_nu ln_k : R) : R :=
  let nu := exp ln_nu in
  let mass' := mass_function.mass (mass o) nu in
  let y := y o ln_k mass' in
  let n_pair := hod.second_moment (local_hod o) mass' in
  if Rltb n_pair 1
  then nu * mass_function.f_nu (mass o) nu * n_pair * y / (mass' * n_bar o * n_bar o)
  else nu * mass_function.f_nu (mass o) nu * n_pair * y * y / (mass' * n_bar o * n_bar o).

Definition _initialize_pp_gg : M unit :=
  o <- self (fun o => o) ;;
  let nu_min := mass_function.nu_min (mass o) in
  let nu_min :=
    if Rltb (-1) (hod.second_moment_zero (local_hod o)) &&
       Rltb (exp (mass_function.ln_mass_min (mass o)))
            (hod.second_moment_zero (local_hod o))
    then mass_function.nu (mass o) (hod.second_moment_zero (local_hod o))
    else nu_min in
  let pp_gg_array :=
    map (fun ln_k =>
           romberg (fun ln_nu => _pp_gg_integrand o ln_nu ln_k)
             (ln nu_min)
             (ln (mass_function.nu_max (mass o))) * rho_bar o)
        (_ln_k_array o) in
  assign (with_pp_gg_spline
            (Some (InterpolatedUnivariateSpline (_ln_k_array o) pp_gg_array 3))) ;;
  assign (with_initialized_pp_gg true) ;;
  log PP_GG.

Definition _pp_gm_integrand (o : HaloObj) (ln_nu ln_k : R) : R :=
  let nu := exp ln_nu in
  let mass' := mass_function.mass (mass o) nu in
  let y := y o ln_k mass' in
  let n_exp := hod.first_moment (local_hod o) (mass_function.mass (mass o) nu) in
  if Rltb n_exp 1
  then nu * mass_function.f_nu (mass o) nu * n_exp * y
  else nu * mass_function.f_nu (mass o) nu * n_exp * y * y.

Definition _initialize_pp_gm : M unit :=
  o <- self (fun o => o) ;;
  let nu_min := mass_function.nu_min (mass o) in
  let nu_min :=
    if Rltb (-1) (hod.first_moment_zero (local_hod o)) &&
       Rltb (exp (mass_function.ln_mass_min (mass o)))
            (hod.first_moment_zero (local_hod o))
    then mass_function.nu (mass o) (hod.first_moment_zero (local_hod o))
    else nu_min in
  let pp_gm_array :=
    map (fun ln_k =>
           romberg (fun ln_nu => _pp_gm_integrand o ln_nu ln_k)
             (ln nu_min)
             (ln (mass_function.nu_max (mass o))) / n_bar o)
        (_ln_k_array o) in
  assign (with_pp_gm_spline
            (Some (InterpolatedUnivariateSpline (_ln_k_array o) pp_gm_array 3))) ;;
  assign (with_initialized_pp_gm true) ;;
  log PP_GM.

Definition power_mm (k : R) : M R :=
  initialized <- self _initialized_h_m ;;
  if_not initialized _initialize_h_m ;;
  initialized <- self _initialized_pp_mm ;;
  if_not initialized _initialize_pp_mm ;;
  o <- self (fun o => o) ;;
  h_m <- _h_m k ;;
  h_m' <- _h_m k ;;
  pp_mm <- _pp_mm k ;;
  ret (linear_power o k * h_m * h_m' + pp_mm).

Definition power_gm (k : R) : M R :=
  initialized <- self _initialized_h_m ;;
  if_not initialized _initialize_h_m ;;
  initialized <- self _initialized_h_g ;;
  if_not initialized _initialize_h_g ;;
  initialized <- self _initialized_pp_gm ;;
  if_not initialized _initialize_pp_gm ;;
  o <- self (fun o => o) ;;
  h_g <- _h_g k ;;
  h_m <- _h_m k ;;
  pp_gm <- _pp_gm k ;;
  ret (linear_power o k * h_g * h_m + pp_gm).

Definition power_mg (k : R) : M R := power_gm k.

Definition power_gg (k : R) : M R :=
  initialized <- self _initialized_h_g ;;
  if_not initialized _initialize_h_g ;;
  initialized <- self _initialized_pp_gg ;;
  if_not initialized _initialize_pp_gg ;;
  o <- self (fun o => o) ;;
  h_g <- _h_g k ;;
  h_g' <- _h_g k ;;
  pp_gg <- _pp_gg k ;;
  ret (linear_power o k * h_g * h_g' + pp_gg).

(** The division by [1.0 + redshift] raises at redshift -1, after the
    cosmology has been assigned. *)
Definition set_cosmology (cosmo_dict : dict) (redshift : option R) : M unit :=
  o <- self (fun o => o) ;;
  let redshift := match redshift with None => _redshift o | Some z => z end in
  assign (with_cosmo_dict (Some cosmo_dict)) ;;
  assign (with_redshift redshift) ;;
  let cosmo := cosmology_SingleEpoch redshift (Some cosmo_dict) in
  assign (with_cosmo cosmo) ;;
  assign (with_delta_v (cosmology.delta_v cosmo)) ;;
  assign (with_rho_bar (cosmology.rho_bar cosmo)) ;;
  assign (with_h (cosmology._h cosmo)) ;;
  (if Req_dec_T (1 + redshift) 0 then raise ZeroDivisionError
   else assign (with_c0 (dict_c0 (halo_dict o) / (1 + redshift)))) ;;
  assign (with_mass (set_cosmology_object (mass o) cosmo)) ;;
  _calculate_n_bar ;;
  _initialize_halo_splines ;;
  assign (with_initialized_h_m false) ;;
  assign (with_initialized_h_g false) ;;
  assign (with_initialized_pp_mm false) ;;
  assign (with_initialized_pp_gm false) ;;
  assign (with_initialized_pp_gg false).

Definition set_hod (input_hod : hod.HOD) : M unit :=
  assign (with_local_hod input_hod) ;;
  _calculate_n_bar ;;
  assign (with_initialized_h_g false) ;;
  assign (with_initialized_pp_mm false) ;;
  assign (with_initialized_pp_gm false) ;;
  assign (with_initialized_pp_gg false).

(** The redshift of the object is not -1 (the quotient would raise). *)
Definition set_halo (halo_dict : HaloDict) : M unit :=
  o <- self (fun o => o) ;;
  assign (with_c0 (dict_c0 halo_dict / (1 + _redshift o))) ;;
  assign (with_beta (dict_beta halo_dict)) ;;
  assign (with_alpha (-1)) ;;
  assign (with_mass (mass_set_halo (mass o) halo_dict)) ;;
  set_hod (local_hod o).

Definition set_redshift (redshift : R) : M unit :=
  o <- self (fun o => o) ;;
  if Req_dec_T redshift (_redshift o) then ret tt
  else set_cosmology (cosmology.cosmo_dict (cosmo o)) (Some redshift).

(** The object as [__init__] has it when it reaches the call of
    [_calculate_n_bar]: the attributes assigned so far, the cache attributes
    not yet assigned (their entries here are overwritten before [__init__]
    returns, or are [None]).  The redshift is not -1 (the quotient for [c0]
    would raise). *)
Definition allocated (c : HaloClass) (redshift : R) (input_hod : option hod.HOD)
    (cosmo_single_epoch : option cosmology.SingleEpoch)
    (mass_func : option mass_function.MassFunction)
    (halo_dict : option HaloDict) : HaloObj :=
  let _k_min := 0.001 in
  let _k_max := 100.0 in
  let _ln_k_max := ln _k_max in
  let _ln_k_min := ln _k_min in
  let _ln_k_array :=
    linspace _ln_k_min _ln_k_max (defaults.halo_npoints default_precision) in
  let cosmo_single_epoch :=
    match cosmo_single_epoch with
    | None => cosmology_SingleEpoch redshift None
    | Some c => c
    end in
  let halo_dict :=
    match halo_dict with None => default_halo_dict | Some d => d end in
  let mass_func :=
    match mass_func with
    | None => mass_function_MassFunction redshift cosmo_single_epoch halo_dict
    | Some m => m
    end in
  let input_hod :=
    match input_hod with None => hod_HODZheng | Some h => h end in
  let unassigned := InterpolatedUnivariateSpline [] [] 3 in
  {| cls := c;
     _k_min := _k_min; _k_max := _k_max;
     _ln_k_max := _ln_k_max; _ln_k_min := _ln_k_min;
     _ln_k_array := _ln_k_array;
     _redshift := redshift;
     cosmo := cosmo_single_epoch;
     cosmo_dict := None;
     halo_dict := halo_dict;
     mass := mass_func;
     c0 := dict_c0 halo_dict / (1 + redshift);
     beta := dict_beta halo_dict;
     alpha := -1;
     delta_v := cosmology.delta_v cosmo_single_epoch;
     rho_bar := cosmology.rho_bar cosmo_single_epoch;
     _h := cosmology._h cosmo_single_epoch;
     local_hod := input_hod;
     n_bar_over_rho_bar := 0; n_bar := 0;
     _ln_r_v_spline := unassigned;
     _ln_concen_spline := unassigned;
     _ln_halo_norm_spline := unassigned;
     _initialized_h_m := false; _initialized_h_g := false;
     _initialized_pp_mm := false; _initialized_pp_gm := false;
     _initialized_pp_gg := false;
     _h_m_spline := None; _h_g_spline := None;
     _pp_mm_spline := None; _pp_gm_spline := None; _pp_gg_spline := None;
     fit := None;
     built := [] |}.

(** [Halo.__init__]; [c] is the class of the object being constructed. *)
Definition __init__ (c : HaloClass) (redshift : R) (input_hod : option hod.HOD)
    (cosmo_single_epoch : option cosmology.SingleEpoch)
    (mass_func : option mass_function.MassFunction)
    (halo_dict : option HaloDict) : HaloObj :=
  after
    (_calculate_n_bar ;;
     _initialize_halo_splines ;;
     assign (with_initialized_h_m false) ;;
     assign (with_initialized_h_g false) ;;
     assign (with_initialized_pp_mm false) ;;
     assign (with_initialized_pp_gm false) ;;
     assign (with_initialized_pp_gg false))
    (allocated c redshift input_hod cosmo_single_epoch mass_func halo_dict).

End Methods.
End Halo.

(** ** class HaloExclusion(Halo) *)

Module HaloExclusion.
Section Methods.
Context {scipy : SciPy} {repo : Collaborators}.

Definition __init__ := Halo.__init__ HaloExclusion_cls.

Definition _mass_window (o : HaloObj) (mass' ln_k : R) : R :=
  let k := exp ln_k in
  let R := 2 * Halo.virial_radius o mass' in
  let kR := k * R in
  (kR * cos kR + kR * kR * kR * snd (sici kR) + (2 - kR * kR) * sin kR) / (3 * kR).

Definition _h_g_integrand (o : HaloObj) (ln_nu ln_k : R) : R :=
  let nu := exp ln_nu in
  let mass' := mass_function.mass (mass o) nu in
  nu * _mass_window o mass' ln_k * mass_function.f_nu (mass o) nu *
  mass_function.bias_nu (mass o) nu * Halo.y o ln_k mass' *
  hod.first_moment (local_hod o) mass' /
  (mass' * n_bar_over_rho_bar o).

Definition _initialize_h_g : M unit :=
  o <- self (fun o => o) ;;
  let nu_min := mass_function.nu_min (mass o) in
  let nu_min :=
    if Rltb (-1) (hod.first_moment_zero (local_hod o)) &&
       Rltb (exp (mass_function.ln_mass_min (mass o)))
            (hod.first_moment_zero (local_hod o))
    then mass_function.nu (mass o) (hod.first_moment_zero (local_hod o))
    else nu_min in
  let h_g_array :=
    map (fun ln_k =>
           Halo.romberg (fun ln_nu => _h_g_integrand o ln_nu ln_k)
             (ln nu_min)
             (ln (mass_function.nu_max (mass o))))
        (_ln_k_array o) in
  assign (with_h_g_spline
            (Some (InterpolatedUnivariateSpline (_ln_k_array o) h_g_array 3))) ;;
  assign (with_initialized_h_g true) ;;
  log H_G.

(** [self.power_mm] is [Halo.power_mm]: the class does not override it.
    The second guard tests [_initialized_pp_gg]. *)
Definition power_gm (k : R) : M R :=
  initialized <- self _initialized_h_g ;;
  if_not initialized _initialize_h_g ;;
  initialized <- self _initialized_pp_gg ;;
  if_not initialized Halo._initialize_pp_gm ;;
  power_mm <- Halo.power_mm k ;;
  h_g <- Halo._h_g k ;;
  h_m <- Halo._h_m k ;;
  pp_gm <- Halo._pp_gm k ;;
  ret (power_mm * h_g * h_m + pp_gm).

Definition power_mg (k : R) : M R := power_gm k.

Definition power_gg (k : R) : M R :=
  initialized <- self _initialized_h_g ;;
  if_not initialized _initialize_h_g ;;
  initialized <- self _initialized_pp_gg ;;
  if_not initialized Halo._initialize_pp_gg ;;
  power_mm <- Halo.power_mm k ;;
  h_g <- Halo._h_g k ;;
  h_g' <- Halo._h_g k ;;
  pp_gg <- Halo._pp_gg k ;;
  ret (power_mm * h_g * h_g' + pp_gg).

End Methods.
End HaloExclusion.

(** ** class HaloFit(Halo) *)

Module HaloFit.
Section Methods.
Context {scipy : SciPy} {repo : Collaborators}.

Definition scale_attrs (o : HaloObj) : option SigmaScale :=
  match fit o with
  | Some attrs => scale attrs
  | None => None
  end.

Definition sigma_attrs (o : HaloObj) : option SigmaAttrs :=
  match fit o with
  | Some attrs => sigma attrs
  | None => None
  end.

(** The five attributes are assigned; the others of the object are kept
    (on the first call, in [__init__], there are none yet). *)
Definition _initialize_halo_fit : M unit :=
  o <- self (fun o => o) ;;
  assign (with_fit (Some
    {| _f_1 := Rpower (cosmology.omega_m (cosmo o)) (-0.0307);
       _f_2 := Rpower (cosmology.omega_m (cosmo o)) (-0.0585);
       _f_3 := Rpower (cosmology.omega_m (cosmo o)) 0.0743;
       _omega_l := cosmology.omega_l (cosmo o);
       _w := cosmology.w (cosmo o) (_redshift o);
       _initialized_sigma_spline :=
         match fit o with
         | Some attrs => _initialized_sigma_spline attrs
         | None => false
         end;
       scale := scale_attrs o;
       sigma := sigma_attrs o |})).

Definition __init__ (redshift : R) (input_hod : option hod.HOD)
    (cosmo_single_epoch : option cosmology.SingleEpoch)
    (mass_func : option mass_function.MassFunction)
    (halo_dict : option HaloDict) : HaloObj :=
  after
    (_initialize_halo_fit ;;
     attrs <- attribute "_f_1" fit ;;
     assign (with_fit (Some
       {| _f_1 := _f_1 attrs; _f_2 := _f_2 attrs; _f_3 := _f_3 attrs;
          _omega_l := _omega_l attrs; _w := _w attrs;
          _initialized_sigma_spline := false;
          scale := scale attrs;
          sigma := sigma attrs |})))
    (Halo.__init__ HaloFit_cls redshift input_hod cosmo_single_epoch mass_func
       halo_dict).

Definition _sigma2_integrand (o : HaloObj) (ln_k R' : R) : R :=
  let k := exp ln_k in
  cosmology.delta_k (cosmo o) k * exp (- k * k * R' * R').

(** The method integrates the variance on a grid of radii and assigns the
    grid and the scale [_k_s]; then it takes the derivatives of the fitted
    variance at that scale, which raises when the scale lies outside the
    grid of radii, and assigns the two derivatives and the eight
    coefficients.  It does not assign [_initialized_sigma_spline].  The
    history records the integration of the variance. *)
Definition _initialize_sigma_spline : M unit :=
  o <- self (fun o => o) ;;
  attrs <- attribute "_omega_l" fit ;;
  let _ln_R_array :=
    linspace (ln 0.1) (ln 10.0) (defaults.halo_npoints default_precision) in
  let _ln_sigma2_array :=
    map (fun ln_R =>
           let R := exp ln_R in
           let sigma2 :=
             Halo.romberg (fun ln_k => _sigma2_integrand o ln_k R)
               (_ln_k_min o) (_ln_k_max o) in
           ln sigma2)
        _ln_R_array in
  let ln_r_sigma2_spline :=
    InterpolatedUnivariateSpline (rev _ln_sigma2_array) (rev _ln_R_array) 3 in
  let _k_s := 1 / exp (spline_call ln_r_sigma2_spline 0) in
  let ln_sigma2_r_spline :=
    InterpolatedUnivariateSpline _ln_R_array _ln_sigma2_array 5 in
  assign (with_fit (Some
    {| _f_1 := _f_1 attrs; _f_2 := _f_2 attrs; _f_3 := _f_3 attrs;
       _omega_l := _omega_l attrs; _w := _w attrs;
       _initialized_sigma_spline := _initialized_sigma_spline attrs;
       scale := Some
         {| _ln_R_array := _ln_R_array; _ln_sigma2_array := _ln_sigma2_array;
            _k_s := _k_s |};
       sigma := sigma attrs |})) ;;
  log SIGMA ;;
  match derivatives ln_sigma2_r_spline (ln (1 / _k_s)) with
  | None => raise TypeError
  | Some devs =>
      let dev1 := devs 1%nat in
      let dev2 := devs 2%nat in
      let _n_eff := - dev1 - 3 in
      let _C := - dev2 in
      let _a_n := Rpower 10
        (1.5222 + 2.8553 * _n_eff + 2.3706 * _n_eff * _n_eff +
         0.9903 * _n_eff * _n_eff * _n_eff +
         0.2250 * _n_eff * _n_eff * _n_eff * _n_eff +
         -0.6038 * _C + 0.1749 * _omega_l attrs * (1 + _w attrs)) in
      let _b_n := Rpower 10
        (-0.5642 + 0.5864 * _n_eff + 0.5716 * _n_eff * _n_eff +
         -1.5474 * _C + 0.2279 * _omega_l attrs * (1 + _w attrs)) in
      let _c_n := Rpower 10
        (0.3698 + 2.0404 * _n_eff + 0.8161 * _n_eff * _n_eff +
         0.5869 * _C) in
      let _gamma_n := 0.1971 - 0.0843 * _n_eff + 0.8460 * _C in
      let _alpha_n := Rabs
        (6.0835 + 1.3373 * _n_eff - 0.1959 * _n_eff * _n_eff +
         -5.5274 * _C) in
      let _beta_n :=
        2.0379 - 0.7354 * _n_eff + 0.3157 * _n_eff * _n_eff +
        1.2490 * _n_eff * _n_eff * _n_eff +
        0.3980 * _n_eff * _n_eff * _n_eff * _n_eff +
        -0.1682 * _C in
      let _mu_n := 0 in
      let _nu_n := Rpower 10 (5.2105 + 3.6902 * _n_eff) in
      assign (with_fit (Some
        {| _f_1 := _f_1 attrs; _f_2 := _f_2 attrs; _f_3 := _f_3 attrs;
           _omega_l := _omega_l attrs; _w := _w attrs;
           _initialized_sigma_spline := _initialized_sigma_spline attrs;
           scale := Some
             {| _ln_R_array := _ln_R_array;
                _ln_sigma2_array := _ln_sigma2_array; _k_s := _k_s |};
           sigma := Some
             {| _n_eff := _n_eff; _C := _C;
                _a_n := _a_n; _b_n := _b_n; _c_n := _c_n;
                _gamma_n := _gamma_n; _alpha_n := _alpha_n; _beta_n := _beta_n;
                _mu_n := _mu_n; _nu_n := _nu_n |} |}))
  end.

Definition _f (k : R) : M R :=
  s <- attribute "_k_s" scale_attrs ;;
  let y := k / _k_s s in
  ret (y / 4 + y * y / 8).

Definition _delta2_Q (k : R) : M R :=
  o <- self (fun o => o) ;;
  let delta_k := cosmology.delta_k (cosmo o) k in
  c <- attribute "_beta_n" sigma_attrs ;;
  f <- _f k ;;
  ret (delta_k *
       (Rpower (1 + delta_k) (_beta_n c) / (1 + _alpha_n c * delta_k) *
        exp (- f))).

Definition _delta2_prime_H (y : R) : M R :=
  c <- attribute "_a_n" sigma_attrs ;;
  attrs <- attribute "_f_1" fit ;;
  ret (_a_n c * Rpower y (3 * _f_1 attrs) /
       (1 + _b_n c * Rpower y (_f_2 attrs) +
        Rpower (_c_n c * _f_3 attrs * y) (3 - _gamma_n c))).

(** The argument passed to [_delta2_prime_H] is [k]. *)
Definition _delta2_H (k : R) : M R :=
  s <- attribute "_k_s" scale_attrs ;;
  let y := k / _k_s s in
  prime <- _delta2_prime_H k ;;
  c <- attribute "_mu_n" sigma_attrs ;;
  ret (prime / (1 + _mu_n c / y + _nu_n c / (y * y))).

Definition power_mm (k : R) : M R :=
  attrs <- attribute "_initialized_sigma_spline" fit ;;
  if_not (_initialized_sigma_spline attrs) _initialize_sigma_spline ;;
  delta2_Q <- _delta2_Q k ;;
  delta2_H <- _delta2_H k ;;
  ret (2 * PI * PI / k ^ 3 * (delta2_Q + delta2_H)).

Definition power_gm (k : R) : M R :=
  initialized <- self _initialized_h_m ;;
  if_not initialized Halo._initialize_h_m ;;
  initialized <- self _initialized_h_g ;;
  if_not initialized Halo._initialize_h_g ;;
  initialized <- self _initialized_pp_gm ;;
  if_not initialized Halo._initialize_pp_gm ;;
  power_mm <- power_mm k ;;
  h_g <- Halo._h_g k ;;
  h_m <- Halo._h_m k ;;
  pp_gm <- Halo._pp_gm k ;;
  ret (power_mm * h_g * h_m + pp_gm).

Definition power_mg (k : R) : M R := power_gm k.

Definition power_gg (k : R) : M R :=
  initialized <- self _initialized_h_g ;;
  if_not initialized Halo._initialize_h_g ;;
  initialized <- self _initialized_pp_gg ;;
  if_not initialized Halo._initialize_pp_gg ;;
  power_mm <- power_mm k ;;
  h_g <- Halo._h_g k ;;
  h_g' <- Halo._h_g k ;;
  pp_gg <- Halo._pp_gg k ;;
  ret (power_mm * h_g * h_g' + pp_gg).

End Methods.
End HaloFit.

(** ** Method resolution *)

(** A call [obj.method(...)] runs the method of the object's class. *)
Section Resolution.
Context {scipy : SciPy} {repo : Collaborators}.

Definition by_class {A} (halo exclusion halofit : M A) : M A :=
  fun o =>
    match cls o with
    | Halo_cls => halo o
    | HaloExclusion_cls => exclusion o
    | HaloFit_cls => halofit o
    end.

Definition power_mm (k : R) : M R :=
  by_class (Halo.power_mm k) (Halo.power_mm k) (HaloFit.power_mm k).

Definition power_gm (k : R) : M R :=
  by_class (Halo.power_gm k) (HaloExclusion.power_gm k) (HaloFit.power_gm k).

Definition power_mg (k : R) : M R :=
  by_class (Halo.power_mg k) (HaloExclusion.power_mg k) (HaloFit.power_mg k).

Definition power_gg (k : R) : M R :=
  by_class (Halo.power_gg k) (HaloExclusion.power_gg k) (HaloFit.power_gg k).

Definition _initialize_h_g : M unit :=
  by_class Halo._initialize_h_g HaloExclusion._initialize_h_g Halo._initialize_h_g.

Definition _h_g_integrand (o : HaloObj) (ln_nu ln_k : R) : R :=
  match cls o with
  | HaloExclusion_cls => HaloExclusion._h_g_integrand o ln_nu ln_k
  | _ => Halo._h_g_integrand o ln_nu ln_k
  end.

(** The constructor of each class. *)
Definition new (c : HaloClass) (redshift : R) (input_hod : option hod.HOD)
    (cosmo_single_epoch : option cosmology.SingleEpoch)
    (mass_func : option mass_function.MassFunction)
    (halo_dict : option HaloDict) : HaloObj :=
  match c with
  | Halo_cls =>
      Halo.__init__ Halo_cls redshift input_hod cosmo_single_epoch mass_func halo_dict
  | HaloExclusion_cls =>
      HaloExclusion.__init__ redshift input_hod cosmo_single_epoch mass_func halo_dict
  | HaloFit_cls =>
      HaloFit.__init__ redshift input_hod cosmo_single_epoch mass_func halo_dict
  end.

End Resolution.

(** ** Well-formed objects *)

Section Tables.
Context {scipy : SciPy} {repo : Collaborators}.

(** The object once a guarded construction [if not flag: init()] has run. *)
Definition ensure (flag : HaloObj -> bool) (init : M unit) (o : HaloObj) : HaloObj :=
  if flag o then o else after init o.

(** What an accessor returns at [k] from the spline [s]. *)
Definition value_of (o : HaloObj) (s : Spline) (k : R) : R :=
  if Rleb (_k_min o) k && Rleb k (_k_max o) then spline_call s (ln k) else 0.

(** The table of one term: at every point of the wavenumber grid the
    quadrature of [integrand] from [ln lower] to the mass-function ceiling,
    rescaled by [scale], fitted by a cubic spline. *)
Definition term_table (o : HaloObj) (integrand : HaloObj -> R -> R -> R)
    (lower : R) (scale : R -> R) : Spline :=
  InterpolatedUnivariateSpline (_ln_k_array o)
    (map (fun ln_k =>
            scale (Halo.romberg (fun ln_nu => integrand o ln_nu ln_k)
                     (ln lower) (ln (mass_function.nu_max (mass o)))))
         (_ln_k_array o)) 3.

(** The lower limit in peak height that the galaxy terms derive from a
    moment-zero mass of the HOD. *)
Definition hod_nu_min (o : HaloObj) (moment_zero : R) : R :=
  if Rltb (-1) moment_zero &&
     Rltb (exp (mass_function.ln_mass_min (mass o))) moment_zero
  then mass_function.nu (mass o) moment_zero
  else mass_function.nu_min (mass o).

(** The spline [_initialize_pp_mm] fits on the object as it is. *)
Definition pp_mm_table (o : HaloObj) : Spline :=
  term_table o Halo._pp_mm_integrand (mass_function.nu_min (mass o))
    (fun v => v / rho_bar o).

(** The spline [_initialize_h_m] fits on the object as it is. *)
Definition h_m_table (o : HaloObj) : Spline :=
  term_table o Halo._h_m_integrand (mass_function.nu_min (mass o)) (fun v => v).

(** The splines the galaxy terms fit on the object as it is: h_g of
    [HaloExclusion], and the two 1-halo terms. *)
Definition exclusion_h_g_table (o : HaloObj) : Spline :=
  term_table o HaloExclusion._h_g_integrand
    (hod_nu_min o (hod.first_moment_zero (local_hod o))) (fun v => v).

Definition pp_gg_table (o : HaloObj) : Spline :=
  term_table o Halo._pp_gg_integrand
    (hod_nu_min o (hod.second_moment_zero (local_hod o)))
    (fun v => v * rho_bar o).

Definition pp_gm_table (o : HaloObj) : Spline :=
  term_table o Halo._pp_gm_integrand
    (hod_nu_min o (hod.first_moment_zero (local_hod o)))
    (fun v => v / n_bar o).

(** The spline a term is read from once its guarded construction
    [if not flag: init()] has run: the one the object has when the flag is
    set, the one fitted on the object otherwise. *)
Definition cached (flag : HaloObj -> bool) (spline : HaloObj -> option Spline)
    (table : HaloObj -> Spline) (o : HaloObj) : option Spline :=
  if flag o then spline o else Some (table o).

(** The objects on which the power spectra are evaluated: the guarded
    constructions of each method, in its order. *)
Definition mm_ready (o : HaloObj) : HaloObj :=
  ensure _initialized_pp_mm Halo._initialize_pp_mm
    (ensure _initialized_h_m Halo._initialize_h_m o).

Definition gm_ready (o : HaloObj) : HaloObj :=
  ensure _initialized_pp_gm Halo._initialize_pp_gm
    (ensure _initialized_h_g Halo._initialize_h_g
       (ensure _initialized_h_m Halo._initialize_h_m o)).

Definition gg_ready (o : HaloObj) : HaloObj :=
  ensure _initialized_pp_gg Halo._initialize_pp_gg
    (ensure _initialized_h_g Halo._initialize_h_g o).

(** In [HaloExclusion.power_gm] the second construction is guarded by the
    flag of pp_gg. *)
Definition exclusion_gm_ready (o : HaloObj) : HaloObj :=
  ensure _initialized_pp_gg Halo._initialize_pp_gm
    (ensure _initialized_h_g HaloExclusion._initialize_h_g o).

Definition exclusion_gg_ready (o : HaloObj) : HaloObj :=
  ensure _initialized_pp_gg Halo._initialize_pp_gg
    (ensure _initialized_h_g HaloExclusion._initialize_h_g o).

(** The matter 1-halo cache, when marked valid, holds what a
    reconstruction would produce. *)
Definition pp_mm_fresh (o : HaloObj) : Prop :=
  _initialized_pp_mm o = true -> _pp_mm_spline o = Some (pp_mm_table o).

(** A term marked valid has its spline. *)
Definition present (flag : HaloObj -> bool) (spline : HaloObj -> option Spline)
    (o : HaloObj) : Prop :=
  flag o = true -> spline o <> None.

Definition terms_present (o : HaloObj) : Prop :=
  present _initialized_h_m _h_m_spline o /\
  present _initialized_h_g _h_g_spline o /\
  present _initialized_pp_mm _pp_mm_spline o /\
  present _initialized_pp_gm _pp_gm_spline o /\
  present _initialized_pp_gg _pp_gg_spline o.


(** The tail of [Halo.__init__], from the call of [_calculate_n_bar] on. *)
Definition init_tail : M unit :=
  Halo._calculate_n_bar ;;
  Halo._initialize_halo_splines ;;
  assign (with_initialized_h_m false) ;;
  assign (with_initialized_h_g false) ;;
  assign (with_initialized_pp_mm false) ;;
  assign (with_initialized_pp_gm false) ;;
  assign (with_initialized_pp_gg false).

(** The part of [HaloFit.__init__] that follows [Halo.__init__]. *)
Definition fit_tail : M unit :=
  HaloFit._initialize_halo_fit ;;
  attrs <- attribute "_f_1" fit ;;
  assign (with_fit (Some
    {| _f_1 := _f_1 attrs; _f_2 := _f_2 attrs; _f_3 := _f_3 attrs;
       _omega_l := _omega_l attrs; _w := _w attrs;
       _initialized_sigma_spline := false;
       scale := scale attrs;
       sigma := sigma attrs |})).

(** The fitting formula of [HaloFit.power_mm] on given attributes: the
    bodies of [_f], [_delta2_Q], [_delta2_prime_H] and [_delta2_H]. *)
Definition delta2_Q_of (o : HaloObj) (s : SigmaScale) (c : SigmaAttrs) (k : R) : R :=
  let delta_k := cosmology.delta_k (cosmo o) k in
  let y := k / _k_s s in
  delta_k *
  (Rpower (1 + delta_k) (_beta_n c) / (1 + _alpha_n c * delta_k) *
   exp (- (y / 4 + y * y / 8))).

Definition delta2_H_of (attrs : FitAttrs) (s : SigmaScale) (c : SigmaAttrs)
    (k : R) : R :=
  let y := k / _k_s s in
  _a_n c * Rpower k (3 * _f_1 attrs) /
  (1 + _b_n c * Rpower k (_f_2 attrs) +
   Rpower (_c_n c * _f_3 attrs * k) (3 - _gamma_n c)) /
  (1 + _mu_n c / y + _nu_n c / (y * y)).

Definition halofit_of (o : HaloObj) (attrs : FitAttrs) (s : SigmaScale)
    (c : SigmaAttrs) (k : R) : R :=
  2 * PI * PI / k ^ 3 * (delta2_Q_of o s c k + delta2_H_of attrs s c k).

(** The reads of [HaloFit.power_mm] on the object as it is: the
    coefficients are read first, then the scale. *)
Definition halofit_reads_of (o : HaloObj) (k : R) : Result R :=
  match fit o with
  | Some attrs =>
      match sigma attrs, scale attrs with
      | Some c, Some s => Ok (halofit_of o attrs s c k)
      | None, _ => Raise (AttributeError "_beta_n")
      | Some _, None => Raise (AttributeError "_k_s")
      end
  | None => Raise (AttributeError "_beta_n")
  end.

(** The grid of radii of [_initialize_sigma_spline] and the variance it
    integrates on the object as it is; the scale it finds; whether the
    library can take the derivatives of the fitted variance there. *)
Definition sigma_radii : list R :=
  linspace (ln 0.1) (ln 10.0) (defaults.halo_npoints default_precision).

Definition sigma_variance (o : HaloObj) : list R :=
  map (fun ln_R =>
         ln (Halo.romberg (fun ln_k => HaloFit._sigma2_integrand o ln_k (exp ln_R))
               (_ln_k_min o) (_ln_k_max o)))
      sigma_radii.

Definition sigma_k_s (o : HaloObj) : R :=
  1 / exp (spline_call
             (InterpolatedUnivariateSpline (rev (sigma_variance o))
                (rev sigma_radii) 3) 0).

Definition sigma_evaluates (o : HaloObj) : bool :=
  within_knots (InterpolatedUnivariateSpline sigma_radii (sigma_variance o) 5)
    (ln (1 / sigma_k_s o)).

(** The object [set_cosmology] has when it reaches the division by
    [1.0 + redshift]: the dictionary, the redshift, the cosmology and the
    background have been assigned. *)
Definition cosmology_assigned (cosmo_dict : dict) (redshift : R) (o : HaloObj) :
    HaloObj :=
  let cosmo := cosmology_SingleEpoch redshift (Some cosmo_dict) in
  with_h (cosmology._h cosmo)
    (with_rho_bar (cosmology.rho_bar cosmo)
       (with_delta_v (cosmology.delta_v cosmo)
          (with_cosmo cosmo
             (with_redshift redshift (with_cosmo_dict (Some cosmo_dict) o))))).

(** The Fourier transform of a top-hat window of radius R, at [x] = k R:
    the function that the description of the exclusion variant names.  The
    code has no such function; [HaloExclusion._mass_window] is compared
    with it. *)
Definition top_hat_transform (x : R) : R := 3 * (sin x - x * cos x) / x ^ 3.

(** The facts about a new object that the statements below use. *)
Record constructed (o : HaloObj) : Prop := {
  new_h_m : _initialized_h_m o = false;
  new_h_g : _initialized_h_g o = false;
  new_pp_mm : _initialized_pp_mm o = false;
  new_pp_gm : _initialized_pp_gm o = false;
  new_pp_gg : _initialized_pp_gg o = false;
  new_h_m_spline : _h_m_spline o = None;
  new_h_g_spline : _h_g_spline o = None;
  new_pp_mm_spline : _pp_mm_spline o = None;
  new_pp_gm_spline : _pp_gm_spline o = None;
  new_pp_gg_spline : _pp_gg_spline o = None;
  new_built : built o = [N_BAR; GEOMETRY];
  new_n_bar_over_rho_bar :
    n_bar_over_rho_bar o = n_bar_over_rho_bar (after Halo._calculate_n_bar o);
  new_n_bar : n_bar o = n_bar (after Halo._calculate_n_bar o);
  new_r_v :
    _ln_r_v_spline o = _ln_r_v_spline (after Halo._initialize_halo_splines o);
  new_concen :
    _ln_concen_spline o = _ln_concen_spline (after Halo._initialize_halo_splines o);
  new_halo_norm :
    _ln_halo_norm_spline o =
    _ln_halo_norm_spline (after Halo._initialize_halo_splines o);
  new_k_min : _k_min o = 0.001;
  new_k_max : _k_max o = 100.0
}.

End Tables.

(** ** A small configuration *)

(** Stand-ins for the library's special functions and spline evaluator,
    and collaborators simple enough to compute with: peak height and mass
    coincide, nu f(nu) = 1, b(nu) = (ln nu)^2, the HOD has N1 = 0.5 and
    N2 = 2 at every mass.  The absolute tolerance is switched off and the
    relative one is that of the unit tests. *)
Module demo.

Definition scipy : SciPy := {|
  sici := fun x => (x, ln x);
  hyp2f1 := fun _ _ _ _ => 1;
  spline_call := fun s _ => nth 0 (sp_y s) 0;
  spline_derivatives := fun _ _ _ => 0
|}.

Definition cosmo : cosmology.SingleEpoch := {|
  cosmology._h := 0.7;
  cosmology.cosmo_dict := [];
  cosmology.delta_v := 200;
  cosmology.rho_bar := 1;
  cosmology.omega_m := 0.3;
  cosmology.omega_l := 0.7;
  cosmology.w := fun _ => -1;
  cosmology.linear_power := fun _ => 1;
  cosmology.delta_k := fun _ => 1
|}.

Definition mass_func : mass_function.MassFunction := {|
  mass_function.nu_min := 1;
  mass_function.nu_max := exp 1;
  mass_function.ln_mass_min := 0;
  mass_function.m_star := 1;
  mass_function._nu_ln_mass_array := [(1, 0); (exp 1, 1)];
  mass_function.nu := fun m => m;
  mass_function.mass := fun nu => nu;
  mass_function.f_nu := fun nu => / nu;
  mass_function.bias_nu := fun nu => ln nu * ln nu
|}.

Definition zheng : hod.HOD := {|
  hod.first_moment_zero := -1;
  hod.second_moment_zero := -1;
  hod.first_moment := fun _ => 0.5;
  hod.second_moment := fun _ => 2
|}.

(** An HOD with no galaxies at any mass. *)
Definition empty_hod : hod.HOD := {|
  hod.first_moment_zero := -1;
  hod.second_moment_zero := -1;
  hod.first_moment := fun _ => 0;
  hod.second_moment := fun _ => 0
|}.

(** An HOD whose first moment vanishes below mass 2, above the
    mass-function floor exp(ln_mass_min) = 1. *)
Definition threshold_hod : hod.HOD := {|
  hod.first_moment_zero := 2;
  hod.second_moment_zero := 2;
  hod.first_moment := fun m => if Rltb m 2 then 0 else 1;
  hod.second_moment := fun m => if Rltb m 2 then 0 else 1
|}.

Definition h_dict : HaloDict := {|
  dict_c0 := 9;
  dict_beta := -0.13;
  dict_rest := []
|}.

Definition h_dict_2 : HaloDict := {|
  dict_c0 := 10;
  dict_beta := -0.2;
  dict_rest := []
|}.

Definition repo : Collaborators := {|
  cosmology_SingleEpoch := fun _ _ => cosmo;
  mass_function_MassFunction := fun _ _ _ => mass_func;
  set_cosmology_object := fun m _ => m;
  mass_set_halo := fun m _ => m;
  hod_HODZheng := zheng;
  default_halo_dict := h_dict;
  default_precision :=
    {| defaults.halo_npoints := 2;
       defaults.halo_precision := 1.48e-5;
       defaults.global_precision := 0;
       defaults.divmax := 1 |}
|}.

(** [Halo()], [HaloExclusion()], [HaloFit()] with every argument defaulted. *)
Definition halo (c : HaloClass) : HaloObj :=
  @new scipy repo c 0 None None None None.

End demo.

(** ** Averages over the galaxy sample *)

(** An HOD class may define [satellite_first_moment]; [hod.HOD] holds what
    every HOD has, and this interface says whether the class of an HOD
    object has the method and what it computes. *)
Class Satellites := {
  satellite_first_moment : hod.HOD -> option (R -> R)
}.

(** The attributes [bias], [m_eff] and [f_sat].  Each is assigned by one of
    the three methods below and read by no method of the engine; they are
    kept in a record beside the object, which the three methods only read. *)
Record Averages := {
  bias : option R;
  m_eff : option R;
  f_sat : option R
}.

Section Sample.
Context {scipy : SciPy} {repo : Collaborators} {sat : Satellites}.

Definition _bias_integrand (o : HaloObj) (ln_nu : R) : R :=
  let nu := exp ln_nu in
  let mass' := mass_function.mass (mass o) nu in
  nu * hod.first_moment (local_hod o) mass' * mass_function.f_nu (mass o) nu *
  mass_function.bias_nu (mass o) nu / mass'.

Definition calculate_bias (o : HaloObj) (a : Averages) : Result R * Averages :=
  let bias' :=
    Halo.romberg (_bias_integrand o)
      (ln (mass_function.nu_min (mass o)))
      (ln (mass_function.nu_max (mass o))) in
  let bias' := bias' / n_bar_over_rho_bar o in
  (Ok bias', {| bias := Some bias'; m_eff := m_eff a; f_sat := f_sat a |}).

Definition _m_eff_integrand (o : HaloObj) (ln_nu : R) : R :=
  let nu := exp ln_nu in
  let mass' := mass_function.mass (mass o) nu in
  nu * hod.first_moment (local_hod o) mass' * mass_function.f_nu (mass o) nu.

Definition calculate_m_eff (o : HaloObj) (a : Averages) : Result R * Averages :=
  let m_eff' :=
    Halo.romberg (_m_eff_integrand o)
      (ln (mass_function.nu_min (mass o)))
      (ln (mass_function.nu_max (mass o))) in
  let m_eff' := m_eff' / n_bar_over_rho_bar o in
  (Ok m_eff', {| bias := bias a; m_eff := Some m_eff'; f_sat := f_sat a |}).

(** The integrand, given the method it looks up on the HOD. *)
Definition _f_sat_integrand (o : HaloObj) (satellite_first_moment : R -> R)
    (ln_nu : R) : R :=
  let nu := exp ln_nu in
  let mass' := mass_function.mass (mass o) nu in
  nu * satellite_first_moment mass' * mass_function.f_nu (mass o) nu / mass'.

(** [romberg] evaluates the integrand at both ends of the interval before
    anything else, so an HOD without the method makes the first evaluation
    raise AttributeError, and no attribute is assigned. *)
Definition calculate_f_sat (o : HaloObj) (a : Averages) : Result R * Averages :=
  match satellite_first_moment (local_hod o) with
  | None => (Raise (AttributeError "satellite_first_moment"), a)
  | Some n_sat =>
      let f_sat' :=
        Halo.romberg (_f_sat_integrand o n_sat)
          (ln (mass_function.nu_min (mass o)))
          (ln (mass_function.nu_max (mass o))) in
      let f_sat' := f_sat' / n_bar_over_rho_bar o in
      (Ok f_sat', {| bias := bias a; m_eff := m_eff a; f_sat := Some f_sat' |})
  end.

End Sample.

(** ** Output files *)

(** A line of an output file: the header, given by its column labels, or a
    row of numbers (each printed with ten decimals). *)
Inductive Line :=
  | Header (ttype : list string)
  | Row (values : list R).

(** The three methods return what the file holds when it is closed; the
    name of the file plays no part. *)
Section Output.
Context {scipy : SciPy} {repo : Collaborators}.

(** The loop of [write] over the wavenumber grid.  The entries of a row are
    evaluated from left to right, each method being the one of the
    object's class. *)
Fixpoint write_rows (ln_ks : list R) (f : list Line) : M (list Line) :=
  match ln_ks with
  | [] => ret f
  | ln_k :: rest =>
      let k := exp ln_k in
      o <- self (fun o => o) ;;
      let linear := Halo.linear_power o k in
      mm <- power_mm k ;;
      gg <- power_gg k ;;
      gm <- power_gm k ;;
      write_rows rest (f ++ [Row [k; linear; mm; gg; gm]])
  end.

Definition write (output_file_name : string) : M (list Line) :=
  o <- self (fun o => o) ;;
  write_rows (_ln_k_array o)
    [Header ["k [Mpc/h]"; "linear_power [(Mpc/h)^3]"; "power_mm"; "power_gg";
             "power_gm"]%string].

(** The rows run over the peak heights of the mass grid. *)
Definition write_halo (output_file_name : string) (k : option R) : M (list Line) :=
  o <- self (fun o => o) ;;
  let k := match k with None => 0.01 | Some k => k end in
  let ln_k := ln k in
  ret (Header ["mass [M_solar/h]"; "y(k, M), NFW Fourier Transform";
               "concentration"; "halo_norm"; "virial_mass [M_solar/h]"]%string ::
       map (fun nu_ln_mass =>
              let mass' := mass_function.mass (mass o) (fst nu_ln_mass) in
              Row [mass'; Halo.y o ln_k mass'; Halo.concentration o mass';
                   Halo.halo_normalization o mass'; Halo.virial_radius o mass'])
           (mass_function._nu_ln_mass_array (mass o))).

(** The loop of [write_power_components]: the five accessors are called as
    they are, with no guarded construction before them. *)
Fixpoint write_component_rows (ln_ks : list R) (f : list Line) : M (list Line) :=
  match ln_ks with
  | [] => ret f
  | ln_k :: rest =>
      let k := exp ln_k in
      h_m <- Halo._h_m k ;;
      pp_mm <- Halo._pp_mm k ;;
      h_g <- Halo._h_g k ;;
      pp_gm <- Halo._pp_gm k ;;
      pp_gg <- Halo._pp_gg k ;;
      write_component_rows rest (f ++ [Row [k; h_m; pp_mm; h_g; pp_gm; pp_gg]])
  end.

Definition write_power_components (output_file_name : string) : M (list Line) :=
  o <- self (fun o => o) ;;
  write_component_rows (_ln_k_array o)
    [Header ["k [Mpc/h]"; "2 halo dark matter component";
             "dark matter poisson component"; "2 halo galaxy component";
             "matter-galaxy poisson component";
             "galaxy-galaxy poisson component"]%string].

(** An object on which every term is valid and has its spline. *)
Definition all_ready (o : HaloObj) : Prop :=
  (_initialized_h_m o = true /\ _initialized_h_g o = true /\
   _initialized_pp_mm o = true /\ _initialized_pp_gm o = true /\
   _initialized_pp_gg o = true) /\
  (_h_m_spline o <> None /\ _h_g_spline o <> None /\ _pp_mm_spline o <> None /\
   _pp_gm_spline o <> None /\ _pp_gg_spline o <> None).

(** The object once [power_mm], [power_gg] and [power_gm] of [Halo] have
    run on it, in this order. *)
Definition spectra_ready (o : HaloObj) : HaloObj :=
  gm_ready (gg_ready (mm_ready o)).

End Output.

(** ** The covariance module ([covariance.py]) *)

Module covariance.

Definition deg_to_rad : R := PI / 180.
Definition rad_to_deg : R := 180 / PI.
Definition deg2_to_strad : R := deg_to_rad * deg_to_rad.
Definition strad_to_deg2 : R := rad_to_deg * rad_to_deg.

(** [numpy.log10] and [numpy.floor] *)
Definition log10 (x : R) : R := ln x / ln 10.
Definition floor (x : R) : R := IZR (Int_part x).

(** class AnnulusBin *)
Record AnnulusBin := {
  inner : R;
  outer : R;
  center : R;
  delta : R
}.

Definition AnnulusBin__init__ (inner outer : R) : AnnulusBin :=
  {| inner := inner;
     outer := outer;
     center := Rpower 10 (0.5 * (log10 inner + log10 outer));
     delta := outer - inner |}.

(** The exceptions of this module. *)
Inductive error :=
  | NameError (name : string).

Inductive Outcome (A : Type) :=
  | Returns (a : A)
  | Raises (e : error).
Arguments Returns {A} a.
Arguments Raises {A} e.

(** The variables of the loop of [Covariance.__init__] that builds the
    angular bins. *)
Record Binning := {
  annular_bins : list AnnulusBin;
  unit_double : R;
  theta : R
}.

(** The body of the [while] loop: the increment of [unit_double] and the
    update of [theta] stand inside the [if]. *)
Definition bin_step (theta_min_deg theta_max_deg bins_per_decade : R)
    (s : Binning) : Binning :=
  if Rleb theta_min_deg (theta s) && Rltb (theta s) theta_max_deg
  then
    {| annular_bins :=
         annular_bins s ++
         [AnnulusBin__init__ (theta s)
            (Rpower 10 ((unit_double s + 1) / bins_per_decade))];
       unit_double := unit_double s + 1;
       theta := Rpower 10 ((unit_double s + 1) / bins_per_decade) |}
  else s.

(** [while theta < theta_max_deg], with a bound on the number of tests of
    its condition; [None] when the bound is reached. *)
Fixpoint bin_loop (fuel : nat) (theta_min_deg theta_max_deg bins_per_decade : R)
    (s : Binning) : option Binning :=
  match fuel with
  | O => None
  | S fuel =>
      if Rltb (theta s) theta_max_deg
      then bin_loop fuel theta_min_deg theta_max_deg bins_per_decade
             (bin_step theta_min_deg theta_max_deg bins_per_decade s)
      else Some s
  end.

(** The loop variables when the loop is entered. *)
Definition first_binning (theta_min_deg bins_per_decade : R) : Binning :=
  let unit_double := floor (log10 theta_min_deg) * bins_per_decade in
  {| annular_bins := [];
     unit_double := unit_double;
     theta := Rpower 10 (unit_double / bins_per_decade) |}.

(** The attributes [Covariance.__init__] has assigned when it reaches the
    assignment of [variance]. *)
Record Covariance := {
  self_annular_bins : list AnnulusBin;
  area : R;
  n_pairs : R
}.

(** [Covariance.__init__]: after the loop, [area] and [n_pairs] are
    assigned, and the next statement, [self.variance = variace], reads a
    name that is neither a parameter of the method (that one is [variance])
    nor bound in the module; the statements after it are not reached. *)
Definition __init__ (fuel : nat) (theta_min_deg theta_max_deg : R)
    (bins_per_decade survey_area_deg2 n_pairs variance : R) :
    option (Outcome Covariance) :=
  match bin_loop fuel theta_min_deg theta_max_deg bins_per_decade
          (first_binning theta_min_deg bins_per_decade) with
  | None => None
  | Some s =>
      let self :=
        {| self_annular_bins := annular_bins s;
           area := survey_area_deg2 * deg2_to_strad;
           n_pairs := n_pairs |} in
      Some (Raises (NameError "variace"))
  end.

(** [Covariance.covariance_P], on the attributes it reads. *)
Definition covariance_P (area variance n_pairs delta : R) : R :=
  area * variance / (n_pairs * 2 * PI * delta * deg_to_rad).

End covariance.

(** ** More of the small configuration *)

Module demo2.

(** A mass function like that of [demo] whose halos are unbiased. *)
Definition unbiased : mass_function.MassFunction := {|
  mass_function.nu_min := 1;
  mass_function.nu_max := exp 1;
  mass_function.ln_mass_min := 0;
  mass_function.m_star := 1;
  mass_function._nu_ln_mass_array := [(1, 0); (exp 1, 1)];
  mass_function.nu := fun m => m;
  mass_function.mass := fun nu => nu;
  mass_function.f_nu := fun nu => / nu;
  mass_function.bias_nu := fun _ => 1
|}.

(** Every galaxy is a satellite. *)
Definition all_satellites : Satellites := {|
  satellite_first_moment := fun h => Some (hod.first_moment h)
|}.

(** The HOD classes have no [satellite_first_moment]. *)
Definition no_satellites : Satellites := {|
  satellite_first_moment := fun _ => None
|}.

Definition halo_unbiased : HaloObj :=
  @new demo.scipy demo.repo Halo_cls 0 None None (Some unbiased) None.

End demo2.

(** ** A configuration on grids the library fits *)

(** Six points on every grid, so that the cubic and the quintic fits have
    more points than their degree.  The linear density contrast is 0.15 at
    every wavenumber: the variance that [HaloFit] integrates then falls from
    about 1.34 at R = 0.1 to about 0.65 at R = 10 and crosses 1 in between.
    The stand-in for the spline evaluator returns the mean of the first and
    the last ordinate; the stand-in for [special.sici] returns the values of
    Si and Ci at pi/2, to three decimals.  Peak height and mass coincide,
    nu f(nu) = 1, b(nu) = 1, and the HOD has N1 = 0.5 and N2 = 2 at every
    mass. *)
Module demo6.

Definition scipy : SciPy := {|
  sici := fun _ => (1.371, 0.472);
  hyp2f1 := fun _ _ _ _ => 1;
  spline_call := fun s _ => (hd 0 (sp_y s) + last (sp_y s) 0) / 2;
  spline_derivatives := fun _ _ _ => 0
|}.

Definition cosmo : cosmology.SingleEpoch := {|
  cosmology._h := 0.7;
  cosmology.cosmo_dict := [];
  cosmology.delta_v := 200;
  cosmology.rho_bar := 1;
  cosmology.omega_m := 0.3;
  cosmology.omega_l := 0.7;
  cosmology.w := fun _ => -1;
  cosmology.linear_power := fun _ => 1;
  cosmology.delta_k := fun _ => 0.15
|}.

Definition mass_func : mass_function.MassFunction := {|
  mass_function.nu_min := 1;
  mass_function.nu_max := exp 1;
  mass_function.ln_mass_min := 0;
  mass_function.m_star := 1;
  mass_function._nu_ln_mass_array :=
    [(exp 0, 0); (exp 0.2, 0.2); (exp 0.4, 0.4); (exp 0.6, 0.6);
     (exp 0.8, 0.8); (exp 1, 1)];
  mass_function.nu := fun m => m;
  mass_function.mass := fun nu => nu;
  mass_function.f_nu := fun nu => / nu;
  mass_function.bias_nu := fun _ => 1
|}.

Definition repo : Collaborators := {|
  cosmology_SingleEpoch := fun _ _ => cosmo;
  mass_function_MassFunction := fun _ _ _ => mass_func;
  set_cosmology_object := fun m _ => m;
  mass_set_halo := fun m _ => m;
  hod_HODZheng := demo.zheng;
  default_halo_dict := demo.h_dict;
  default_precision :=
    {| defaults.halo_npoints := 6;
       defaults.halo_precision := 1.48e-5;
       defaults.global_precision := 0;
       defaults.divmax := 1 |}
|}.

(** [Halo()], [HaloExclusion()], [HaloFit()] with every argument defaulted. *)
Definition halo (c : HaloClass) : HaloObj :=
  @new scipy repo c 0 None None None None.

End demo6.

(** * Verification *)

(** ** The quadrature *)

Section Quadrature.

Lemma Rltb_true a b : a < b -> Rltb a b = true.
Proof. intros H. unfold Rltb. destruct (Rlt_dec a b); [reflexivity|lra]. Qed.

Lemma Rltb_false a b : b <= a -> Rltb a b = false.
Proof. intros H. unfold Rltb. destruct (Rlt_dec a b); [lra|reflexivity]. Qed.

Lemma numpy_sum_cons x xs : numpy_sum (x :: xs) = x + numpy_sum xs.
Proof. reflexivity. Qed.

Lemma numpy_sum_ext (f g : R -> R) xs :
  (forall x, f x = g x) -> numpy_sum (map f xs) = numpy_sum (map g xs).
Proof.
  intros E. induction xs as [|x xs IH]; cbn [map]; [reflexivity|].
  now rewrite !numpy_sum_cons, E, IH.
Qed.

Lemma difftrap_ext f g interval numtraps :
  (forall x, f x = g x) ->
  integrate._difftrap f interval numtraps = integrate._difftrap g interval numtraps.
Proof.
  intros E. unfold integrate._difftrap.
  destruct numtraps as [|[|n]]; rewrite ?E; try now apply numpy_sum_ext.
  reflexivity.
Qed.

Lemma romberg_loop_ext f g interval intrange tol rtol remaining :
  (forall x, f x = g x) ->
  forall n ordsum last_row result,
  integrate.romberg_loop f interval intrange tol rtol remaining n ordsum last_row
    result =
  integrate.romberg_loop g interval intrange tol rtol remaining n ordsum last_row
    result.
Proof.
  intros E. induction remaining as [|r IH]; intros; cbn [integrate.romberg_loop].
  - reflexivity.
  - rewrite (difftrap_ext f g _ _ E). now rewrite IH.
Qed.

(** The quadrature depends on the values of the integrand only. *)
Lemma romberg_run_ext f g a b tol rtol divmax :
  (forall x, f x = g x) ->
  integrate.romberg_run f a b tol rtol divmax =
  integrate.romberg_run g a b tol rtol divmax.
Proof.
  intros E. unfold integrate.romberg_run.
  rewrite (difftrap_ext f g _ _ E). now apply romberg_loop_ext.
Qed.

Lemma romberg_ext f g a b tol rtol divmax :
  (forall x, f x = g x) ->
  integrate.romberg f a b tol rtol divmax = integrate.romberg g a b tol rtol divmax.
Proof. intros E. unfold integrate.romberg. now rewrite (romberg_run_ext f g). Qed.

Lemma numpy_sum_zero (xs : list R) : numpy_sum (map (fun _ => 0) xs) = 0.
Proof.
  induction xs as [|x xs IH]; cbn [map]; [reflexivity|].
  rewrite numpy_sum_cons, IH. ring.
Qed.

Lemma difftrap_zero interval numtraps :
  integrate._difftrap (fun _ => 0) interval numtraps = 0.
Proof.
  unfold integrate._difftrap.
  destruct numtraps as [|[|n]]; try apply numpy_sum_zero. ring.
Qed.

Lemma romberg_diff_zero k : integrate._romberg_diff 0 0 k = 0.
Proof. unfold integrate._romberg_diff, Rdiv. ring. Qed.

Lemma romberg_row_zero last_row k :
  Forall (eq 0) last_row -> Forall (eq 0) (integrate.romberg_row last_row 0 k).
Proof.
  intros H. revert k. induction H as [|b rest Hb _ IH]; intros k; cbn.
  - now constructor.
  - constructor; [reflexivity|]. subst b. rewrite romberg_diff_zero. apply IH.
Qed.

Lemma last_zero (l : list R) : Forall (eq 0) l -> last l 0 = 0.
Proof.
  induction 1 as [|x l Hx Hl IH]; [reflexivity|].
  destruct l as [|y l]; [now subst|]. exact IH.
Qed.

Lemma romberg_loop_zero interval intrange tol rtol remaining :
  forall n last_row, Forall (eq 0) last_row ->
  integrate.value
    (integrate.romberg_loop (fun _ => 0) interval intrange tol rtol remaining n 0
       last_row 0) = 0.
Proof.
  induction remaining as [|r IH]; intros n last_row Hz; cbn [integrate.romberg_loop].
  - reflexivity.
  - rewrite difftrap_zero.
    replace (intrange * (0 + 0) / INR (n * 2)) with 0 by (unfold Rdiv; ring).
    replace (0 + 0) with 0 by ring.
    pose proof (romberg_row_zero last_row 0 Hz) as Hrow.
    rewrite (last_zero _ Hrow).
    destruct (_ || _); [reflexivity|]. now apply IH.
Qed.

(** The quadrature of an integrand that vanishes everywhere is 0, whatever
    the limits, the tolerances and the depth. *)
Lemma romberg_zero f a b tol rtol divmax :
  (forall x, f x = 0) -> integrate.romberg f a b tol rtol divmax = 0.
Proof.
  intros E. rewrite (romberg_ext f (fun _ => 0)) by exact E.
  unfold integrate.romberg, integrate.romberg_run. rewrite difftrap_zero.
  replace ((b - a) * 0) with 0 by ring.
  apply romberg_loop_zero. now constructor.
Qed.

(** With no refinement allowed the quadrature returns the trapezoid
    estimate, with the accuracy warning. *)
Lemma romberg_run_depth_0 f a b tol rtol :
  integrate.romberg_run f a b tol rtol 0 =
  {| integrate.value := (b - a) * (0.5 * (f a + f b));
     integrate.accuracy_warning := true |}.
Proof. reflexivity. Qed.

(** With one refinement allowed the quadrature returns Simpson's estimate,
    with the accuracy warning unless it is within tolerance of the
    trapezoid estimate. *)
Lemma romberg_run_depth_1 f a b tol rtol :
  let R0 := (b - a) * (0.5 * (f a + f b)) in
  let T1 := (b - a) * (0.5 * (f a + f b) + f (a + 0.5 * (b - a))) / 2 in
  let R1 := (4 * T1 - R0) / 3 in
  integrate.romberg_run f a b tol rtol 1 =
  {| integrate.value := R1;
     integrate.accuracy_warning :=
       negb (Rltb (Rabs (R1 - R0)) tol || Rltb (Rabs (R1 - R0)) (rtol * Rabs R1)) |}.
Proof.
  intros R0 T1 R1.
  unfold integrate.romberg_run.
  cbn [integrate.romberg_loop integrate.romberg_row last].
  change (1 * 2)%nat with 2%nat.
  assert (D : integrate._difftrap f (a, b) 2 = f (a + 0.5 * (b - a))).
  { unfold integrate._difftrap.
    change (Nat.div 2 2) with 1%nat. cbn [seq map fst snd INR].
    rewrite numpy_sum_cons. cbn [numpy_sum fold_right].
    replace (a + 0.5 * ((b - a) / 1) + (b - a) / 1 * 0) with (a + 0.5 * (b - a))
      by field.
    ring. }
  assert (E : integrate._romberg_diff
                ((b - a) * integrate._difftrap f (a, b) 1)
                ((b - a) * (integrate._difftrap f (a, b) 1 +
                            integrate._difftrap f (a, b) 2) / INR 2) 1 = R1).
  { rewrite D. unfold integrate._romberg_diff, integrate._difftrap.
    cbn [fst snd INR pow]. subst R1 T1 R0. field. }
  rewrite E. fold R0.
  change ((b - a) * integrate._difftrap f (a, b) 1) with R0.
  destruct (_ || _); reflexivity.
Qed.

(** A quadratic integrand on the unit interval, one refinement allowed, no
    absolute tolerance and a relative tolerance of at most one half: the
    quadrature returns c/3 and has not converged. *)
Lemma romberg_run_quadratic c tol rtol :
  tol <= 0 -> 0 <= rtol <= 1 / 2 ->
  integrate.romberg_run (fun x => c * (x * x)) 0 1 tol rtol 1 =
  {| integrate.value := c / 3; integrate.accuracy_warning := true |}.
Proof.
  intros Ht Hr. rewrite romberg_run_depth_1. cbv zeta.
  replace ((4 * ((1 - 0) * (0.5 * (c * (0 * 0) + c * (1 * 1)) +
              c * ((0 + 0.5 * (1 - 0)) * (0 + 0.5 * (1 - 0)))) / 2) -
            (1 - 0) * (0.5 * (c * (0 * 0) + c * (1 * 1)))) / 3)
    with (c / 3) by lra.
  replace (c / 3 - (1 - 0) * (0.5 * (c * (0 * 0) + c * (1 * 1))))
    with (- (c / 6)) by lra.
  rewrite Rabs_Ropp.
  assert (A3 : Rabs (c / 3) = 2 * Rabs (c / 6)).
  { replace (c / 3) with (2 * (c / 6)) by lra.
    rewrite Rabs_mult, (Rabs_pos_eq 2); lra. }
  pose proof (Rabs_pos (c / 6)) as P.
  rewrite Rltb_false by lra.
  rewrite Rltb_false by (rewrite A3; nra).
  reflexivity.
Qed.

End Quadrature.


(** ** Running methods *)

Section Running.
Context {scipy : SciPy} {repo : Collaborators}.

Lemma bind_after {A B} (m : M A) (f : A -> M B) o a :
  returned m o = Ok a -> bind m f o = f a (after m o).
Proof.
  unfold returned, after, bind. destruct (m o) as [[x|e] o1]; simpl; intros E.
  - now inversion E.
  - discriminate.
Qed.

Lemma bind_ok {A B} (m : M A) (f : A -> M B) o a o1 :
  m o = (Ok a, o1) -> bind m f o = f a o1.
Proof. intros E. unfold bind. now rewrite E. Qed.

Lemma bind_self {A B} (g : HaloObj -> A) (f : A -> M B) o :
  bind (self g) f o = f (g o) o.
Proof. reflexivity. Qed.

Lemma bind_ret {A B} (a : A) (f : A -> M B) o : bind (ret a) f o = f a o.
Proof. reflexivity. Qed.

Lemma bind_assign {B} (g : HaloObj -> HaloObj) (f : unit -> M B) o :
  bind (assign g) f o = f tt (g o).
Proof. reflexivity. Qed.

Lemma bind_if_not {B} (flag : HaloObj -> bool) (m : M unit) (f : unit -> M B) o :
  returned m o = Ok tt ->
  bind (if_not (flag o) m) f o = f tt (ensure flag m o).
Proof.
  intros E. unfold ensure, if_not. destruct (flag o).
  - reflexivity.
  - now apply bind_after.
Qed.

Lemma term_run name spline k o :
  Halo.term name spline k o =
  match spline o with
  | Some s => (Ok (value_of o s k), o)
  | None => (Raise (AttributeError name), o)
  end.
Proof.
  unfold Halo.term, bind, self, attribute. destruct (spline o); reflexivity.
Qed.

(** Three accessors read in a row and combined. *)
Lemma reads {B} na sa nb sb nc sc k (F : R -> R -> R -> B) o :
  (a <- Halo.term na sa k ;; b <- Halo.term nb sb k ;;
   c <- Halo.term nc sc k ;; ret (F a b c)) o =
  match sa o, sb o, sc o with
  | Some s1, Some s2, Some s3 =>
      (Ok (F (value_of o s1 k) (value_of o s2 k) (value_of o s3 k)), o)
  | None, _, _ => (Raise (AttributeError na), o)
  | Some _, None, _ => (Raise (AttributeError nb), o)
  | Some _, Some _, None => (Raise (AttributeError nc), o)
  end.
Proof.
  unfold bind. rewrite !term_run.
  destruct (sa o); [|reflexivity]. rewrite term_run.
  destruct (sb o); [|reflexivity]. rewrite term_run.
  destruct (sc o); reflexivity.
Qed.

(** Each public method is its guarded constructions followed by its reads. *)
Lemma power_mm_run k o :
  Halo.power_mm k o =
  (a <- Halo._h_m k ;; b <- Halo._h_m k ;; c <- Halo._pp_mm k ;;
   ret (Halo.linear_power (mm_ready o) k * a * b + c)) (mm_ready o).
Proof.
  unfold Halo.power_mm, mm_ready.
  rewrite bind_self, bind_if_not by reflexivity.
  rewrite bind_self, bind_if_not by reflexivity.
  rewrite bind_self. reflexivity.
Qed.

Lemma power_gm_run k o :
  Halo.power_gm k o =
  (a <- Halo._h_g k ;; b <- Halo._h_m k ;; c <- Halo._pp_gm k ;;
   ret (Halo.linear_power (gm_ready o) k * a * b + c)) (gm_ready o).
Proof.
  unfold Halo.power_gm, gm_ready.
  rewrite bind_self, bind_if_not by reflexivity.
  rewrite bind_self, bind_if_not by reflexivity.
  rewrite bind_self, bind_if_not by reflexivity.
  rewrite bind_self. reflexivity.
Qed.

Lemma power_gg_run k o :
  Halo.power_gg k o =
  (a <- Halo._h_g k ;; b <- Halo._h_g k ;; c <- Halo._pp_gg k ;;
   ret (Halo.linear_power (gg_ready o) k * a * b + c)) (gg_ready o).
Proof.
  unfold Halo.power_gg, gg_ready.
  rewrite bind_self, bind_if_not by reflexivity.
  rewrite bind_self, bind_if_not by reflexivity.
  rewrite bind_self. reflexivity.
Qed.

Lemma exclusion_power_gm_run k o :
  HaloExclusion.power_gm k o =
  (power_mm <- Halo.power_mm k ;;
   a <- Halo._h_g k ;; b <- Halo._h_m k ;; c <- Halo._pp_gm k ;;
   ret (power_mm * a * b + c)) (exclusion_gm_ready o).
Proof.
  unfold HaloExclusion.power_gm, exclusion_gm_ready.
  rewrite bind_self, bind_if_not by reflexivity.
  rewrite bind_self, bind_if_not by reflexivity.
  reflexivity.
Qed.

Lemma exclusion_power_gg_run k o :
  HaloExclusion.power_gg k o =
  (power_mm <- Halo.power_mm k ;;
   a <- Halo._h_g k ;; b <- Halo._h_g k ;; c <- Halo._pp_gg k ;;
   ret (power_mm * a * b + c)) (exclusion_gg_ready o).
Proof.
  unfold HaloExclusion.power_gg, exclusion_gg_ready.
  rewrite bind_self, bind_if_not by reflexivity.
  rewrite bind_self, bind_if_not by reflexivity.
  reflexivity.
Qed.

End Running.

(** Attributes a method leaves alone are read through it.  The object the
    method ran on is abstracted first, so that only the method is unfolded. *)
Ltac frame :=
  repeat match goal with
  | |- context [?f (@after ?A ?m ?o)] =>
      lazymatch type of (f (@after A m o)) with
      | HaloObj => fail
      | _ =>
          let E := fresh "E" in
          assert (E : forall x, f (@after A m x) = f x)
            by (intro; reflexivity);
          rewrite (E o); clear E
      end
  end.

(** ** What each construction changes *)

Section Fields.
Context {scipy : SciPy} {repo : Collaborators}.

Lemma after_reads {B} na sa nb sb nc sc k (F : R -> R -> R -> B) o :
  after (a <- Halo.term na sa k ;; b <- Halo.term nb sb k ;;
         c <- Halo.term nc sc k ;; ret (F a b c)) o = o.
Proof.
  unfold after. rewrite reads.
  destruct (sa o), (sb o), (sc o); reflexivity.
Qed.

Lemma after_seq {B} (m : M unit) (k : M B) o :
  returned m o = Ok tt -> after (m ;; k) o = after k (after m o).
Proof. intros E. unfold after at 1. now rewrite (bind_after _ _ _ tt E). Qed.

Lemma after_power_mm k o : after (Halo.power_mm k) o = mm_ready o.
Proof. unfold after at 1. rewrite power_mm_run. apply after_reads. Qed.

Lemma after_power_gm k o : after (Halo.power_gm k) o = gm_ready o.
Proof. unfold after at 1. rewrite power_gm_run. apply after_reads. Qed.

Lemma after_power_gg k o : after (Halo.power_gg k) o = gg_ready o.
Proof. unfold after at 1. rewrite power_gg_run. apply after_reads. Qed.

Lemma h_m_flag o : _initialized_h_m (after Halo._initialize_h_m o) = true.
Proof. reflexivity. Qed.
Lemma h_m_spline o :
  _h_m_spline (after Halo._initialize_h_m o) = Some (h_m_table o).
Proof. reflexivity. Qed.
Lemma h_m_built o : built (after Halo._initialize_h_m o) = built o ++ [H_M].
Proof. reflexivity. Qed.

Lemma pp_mm_flag o : _initialized_pp_mm (after Halo._initialize_pp_mm o) = true.
Proof. reflexivity. Qed.
Lemma pp_mm_spline o :
  _pp_mm_spline (after Halo._initialize_pp_mm o) = Some (pp_mm_table o).
Proof. reflexivity. Qed.
Lemma pp_mm_built o : built (after Halo._initialize_pp_mm o) = built o ++ [PP_MM].
Proof. reflexivity. Qed.

Lemma h_g_flag o : _initialized_h_g (after Halo._initialize_h_g o) = true.
Proof. reflexivity. Qed.
Lemma h_g_spline o :
  _h_g_spline (after Halo._initialize_h_g o) =
  Some (term_table o Halo._h_g_integrand (mass_function.nu_min (mass o))
          (fun v => v)).
Proof. reflexivity. Qed.
Lemma h_g_built o : built (after Halo._initialize_h_g o) = built o ++ [H_G].
Proof. reflexivity. Qed.

Lemma exclusion_h_g_flag o :
  _initialized_h_g (after HaloExclusion._initialize_h_g o) = true.
Proof. reflexivity. Qed.
Lemma exclusion_h_g_spline o :
  _h_g_spline (after HaloExclusion._initialize_h_g o) =
  Some (term_table o HaloExclusion._h_g_integrand
          (hod_nu_min o (hod.first_moment_zero (local_hod o))) (fun v => v)).
Proof. reflexivity. Qed.
Lemma exclusion_h_g_built o :
  built (after HaloExclusion._initialize_h_g o) = built o ++ [H_G].
Proof. reflexivity. Qed.

Lemma pp_gm_flag o : _initialized_pp_gm (after Halo._initialize_pp_gm o) = true.
Proof. reflexivity. Qed.
Lemma pp_gm_spline o :
  _pp_gm_spline (after Halo._initialize_pp_gm o) =
  Some (term_table o Halo._pp_gm_integrand
          (hod_nu_min o (hod.first_moment_zero (local_hod o)))
          (fun v => v / n_bar o)).
Proof. reflexivity. Qed.
Lemma pp_gm_built o : built (after Halo._initialize_pp_gm o) = built o ++ [PP_GM].
Proof. reflexivity. Qed.

Lemma pp_gg_flag o : _initialized_pp_gg (after Halo._initialize_pp_gg o) = true.
Proof. reflexivity. Qed.
Lemma pp_gg_spline o :
  _pp_gg_spline (after Halo._initialize_pp_gg o) =
  Some (term_table o Halo._pp_gg_integrand
          (hod_nu_min o (hod.second_moment_zero (local_hod o)))
          (fun v => v * rho_bar o)).
Proof. reflexivity. Qed.
Lemma pp_gg_built o : built (after Halo._initialize_pp_gg o) = built o ++ [PP_GG].
Proof. reflexivity. Qed.

Lemma n_bar_built o : built (after Halo._calculate_n_bar o) = built o ++ [N_BAR].
Proof. reflexivity. Qed.
Lemma n_bar_over_rho_bar_value o :
  n_bar_over_rho_bar (after Halo._calculate_n_bar o) =
  Halo.romberg (Halo._nbar_integrand o)
    (ln (hod_nu_min o (hod.first_moment_zero (local_hod o))))
    (ln (mass_function.nu_max (mass o))).
Proof. reflexivity. Qed.
Lemma n_bar_value o :
  n_bar (after Halo._calculate_n_bar o) =
  n_bar_over_rho_bar (after Halo._calculate_n_bar o) * rho_bar o.
Proof. reflexivity. Qed.

End Fields.

Create Rewrite HintDb fields.
#[local] Hint Rewrite @h_m_flag @h_m_spline @h_m_built @pp_mm_flag @pp_mm_spline
  @pp_mm_built @h_g_flag @h_g_spline @h_g_built @exclusion_h_g_flag
  @exclusion_h_g_spline @exclusion_h_g_built @pp_gm_flag @pp_gm_spline
  @pp_gm_built @pp_gg_flag @pp_gg_spline @pp_gg_built @n_bar_built : fields.

(** Reading attributes through constructions. *)
Ltac fields := repeat first [progress frame | progress autorewrite with fields].

(** ** Construction *)

Section Construction.
Context {scipy : SciPy} {repo : Collaborators}.

(** The mean density computed by [_calculate_n_bar] depends on the mass
    function, the HOD and the background density only. *)
Lemma calculate_n_bar_reads o o' :
  mass o' = mass o -> local_hod o' = local_hod o -> rho_bar o' = rho_bar o ->
  n_bar_over_rho_bar (after Halo._calculate_n_bar o') =
    n_bar_over_rho_bar (after Halo._calculate_n_bar o) /\
  n_bar (after Halo._calculate_n_bar o') = n_bar (after Halo._calculate_n_bar o).
Proof.
  intros Hm Hh Hr.
  rewrite !n_bar_value, !n_bar_over_rho_bar_value.
  unfold hod_nu_min, Halo._nbar_integrand. rewrite Hm, Hh, Hr. split; reflexivity.
Qed.

Lemma geometry_r_v o :
  _ln_r_v_spline (after Halo._initialize_halo_splines o) =
  InterpolatedUnivariateSpline
    (map snd (mass_function._nu_ln_mass_array (mass o)))
    (map (fun ln_mass => ln (Halo._virial_radius o (exp ln_mass)))
       (map snd (mass_function._nu_ln_mass_array (mass o)))) 3.
Proof. reflexivity. Qed.

Lemma geometry_concen o :
  _ln_concen_spline (after Halo._initialize_halo_splines o) =
  InterpolatedUnivariateSpline
    (map snd (mass_function._nu_ln_mass_array (mass o)))
    (map (fun ln_mass => ln (Halo._concentration o (exp ln_mass)))
       (map snd (mass_function._nu_ln_mass_array (mass o)))) 3.
Proof. reflexivity. Qed.

Lemma geometry_halo_norm o :
  _ln_halo_norm_spline (after Halo._initialize_halo_splines o) =
  InterpolatedUnivariateSpline
    (map snd (mass_function._nu_ln_mass_array (mass o)))
    (map (fun ln_mass => ln (Halo._halo_normalization o (exp ln_mass)))
       (map snd (mass_function._nu_ln_mass_array (mass o)))) 3.
Proof. reflexivity. Qed.

Lemma geometry_built o :
  built (after Halo._initialize_halo_splines o) = built o ++ [GEOMETRY].
Proof. reflexivity. Qed.

(** The geometry splines depend on the mass grid, the concentration
    parameters and the background only. *)
Lemma initialize_halo_splines_reads o o' :
  mass o' = mass o -> c0 o' = c0 o -> beta o' = beta o -> alpha o' = alpha o ->
  rho_bar o' = rho_bar o -> delta_v o' = delta_v o ->
  _ln_r_v_spline (after Halo._initialize_halo_splines o') =
    _ln_r_v_spline (after Halo._initialize_halo_splines o) /\
  _ln_concen_spline (after Halo._initialize_halo_splines o') =
    _ln_concen_spline (after Halo._initialize_halo_splines o) /\
  _ln_halo_norm_spline (after Halo._initialize_halo_splines o') =
    _ln_halo_norm_spline (after Halo._initialize_halo_splines o).
Proof.
  intros Hm Hc Hb Ha Hr Hd.
  rewrite !geometry_r_v, !geometry_concen, !geometry_halo_norm.
  unfold Halo._virial_radius, Halo._halo_normalization, Halo._concentration.
  rewrite Hm, Hc, Hb, Ha, Hr, Hd. repeat split; reflexivity.
Qed.

Lemma new_unfold c z h cs mf hd :
  new c z h cs mf hd =
  match c with
  | HaloFit_cls => after fit_tail (after init_tail (Halo.allocated c z h cs mf hd))
  | _ => after init_tail (Halo.allocated c z h cs mf hd)
  end.
Proof. destruct c; reflexivity. Qed.

Lemma init_tail_steps a :
  after init_tail a =
  after (assign (with_initialized_pp_gg false))
    (after (assign (with_initialized_pp_gm false))
       (after (assign (with_initialized_pp_mm false))
          (after (assign (with_initialized_h_g false))
             (after (assign (with_initialized_h_m false))
                (after Halo._initialize_halo_splines
                   (after Halo._calculate_n_bar a)))))).
Proof.
  unfold init_tail. now rewrite !after_seq by reflexivity.
Qed.

Lemma init_tail_n_bar a :
  n_bar_over_rho_bar (after init_tail a) =
    n_bar_over_rho_bar (after Halo._calculate_n_bar a) /\
  n_bar (after init_tail a) = n_bar (after Halo._calculate_n_bar a).
Proof. rewrite init_tail_steps. frame. split; reflexivity. Qed.

Lemma init_tail_geometry a :
  let a' := after Halo._calculate_n_bar a in
  _ln_r_v_spline (after init_tail a) =
    _ln_r_v_spline (after Halo._initialize_halo_splines a') /\
  _ln_concen_spline (after init_tail a) =
    _ln_concen_spline (after Halo._initialize_halo_splines a') /\
  _ln_halo_norm_spline (after init_tail a) =
    _ln_halo_norm_spline (after Halo._initialize_halo_splines a').
Proof. intro a'. rewrite init_tail_steps. frame. repeat split; reflexivity. Qed.

Lemma init_tail_flags a :
  let o := after init_tail a in
  _initialized_h_m o = false /\ _initialized_h_g o = false /\
  _initialized_pp_mm o = false /\ _initialized_pp_gm o = false /\
  _initialized_pp_gg o = false.
Proof. repeat split; reflexivity. Qed.

Lemma init_tail_built a : built (after init_tail a) = built a ++ [N_BAR; GEOMETRY].
Proof.
  rewrite init_tail_steps. frame. rewrite geometry_built, n_bar_built.
  now rewrite <- app_assoc.
Qed.

Lemma init_tail_constructed a :
  _h_m_spline a = None -> _h_g_spline a = None -> _pp_mm_spline a = None ->
  _pp_gm_spline a = None -> _pp_gg_spline a = None -> built a = [] ->
  _k_min a = 0.001 -> _k_max a = 100.0 ->
  constructed (after init_tail a).
Proof.
  intros S1 S2 S3 S4 S5 B K1 K2.
  destruct (init_tail_flags a) as (F1 & F2 & F3 & F4 & F5).
  destruct (init_tail_n_bar a) as (N1 & N2).
  destruct (init_tail_geometry a) as (G1 & G2 & G3).
  assert (Hm : mass (after init_tail a) = mass a)
    by (rewrite init_tail_steps; now frame).
  assert (Hh : local_hod (after init_tail a) = local_hod a)
    by (rewrite init_tail_steps; now frame).
  assert (Hr : rho_bar (after init_tail a) = rho_bar a)
    by (rewrite init_tail_steps; now frame).
  assert (Hc : c0 (after init_tail a) = c0 a)
    by (rewrite init_tail_steps; now frame).
  assert (Hb : beta (after init_tail a) = beta a)
    by (rewrite init_tail_steps; now frame).
  assert (Ha : alpha (after init_tail a) = alpha a)
    by (rewrite init_tail_steps; now frame).
  assert (Hd : delta_v (after init_tail a) = delta_v a)
    by (rewrite init_tail_steps; now frame).
  destruct (calculate_n_bar_reads a (after init_tail a) Hm Hh Hr) as (E1 & E2).
  destruct (initialize_halo_splines_reads (after Halo._calculate_n_bar a)
              (after init_tail a) Hm Hc Hb Ha Hr Hd) as (E3 & E4 & E5).
  constructor.
  - exact F1.
  - exact F2.
  - exact F3.
  - exact F4.
  - exact F5.
  - rewrite init_tail_steps. frame. exact S1.
  - rewrite init_tail_steps. frame. exact S2.
  - rewrite init_tail_steps. frame. exact S3.
  - rewrite init_tail_steps. frame. exact S4.
  - rewrite init_tail_steps. frame. exact S5.
  - now rewrite init_tail_built, B.
  - rewrite E1. exact N1.
  - rewrite E2. exact N2.
  - rewrite E3. exact G1.
  - rewrite E4. exact G2.
  - rewrite E5. exact G3.
  - rewrite init_tail_steps. frame. exact K1.
  - rewrite init_tail_steps. frame. exact K2.
Qed.

Lemma halo_fit_assigned o :
  exists attrs, fit (after HaloFit._initialize_halo_fit o) = Some attrs.
Proof. eexists. reflexivity. Qed.

Lemma fit_tail_steps o :
  exists f, after fit_tail o = with_fit f (after HaloFit._initialize_halo_fit o).
Proof.
  unfold fit_tail. rewrite after_seq by reflexivity.
  destruct (halo_fit_assigned o) as (attrs & E).
  unfold after at 1, bind, attribute. rewrite E.
  eexists. reflexivity.
Qed.

Lemma fit_tail_constructed o : constructed o -> constructed (after fit_tail o).
Proof.
  intros [F1 F2 F3 F4 F5 S1 S2 S3 S4 S5 B N1 N2 G1 G2 G3 K1 K2].
  destruct (fit_tail_steps o) as (f & E). rewrite E. clear E.
  set (o1 := after HaloFit._initialize_halo_fit o).
  assert (V : forall A (p : HaloObj -> A),
             (forall v x, p (with_fit v x) = p x) -> p (with_fit f o1) = p o).
  { intros A p Hp. rewrite Hp. subst o1.
    unfold after, HaloFit._initialize_halo_fit. rewrite bind_self.
    unfold assign; cbn [snd]. apply Hp. }
  assert (Hm := V _ mass (fun _ _ => eq_refl)).
  assert (Hh := V _ local_hod (fun _ _ => eq_refl)).
  assert (Hr := V _ rho_bar (fun _ _ => eq_refl)).
  assert (Hc := V _ c0 (fun _ _ => eq_refl)).
  assert (Hb := V _ beta (fun _ _ => eq_refl)).
  assert (Ha := V _ alpha (fun _ _ => eq_refl)).
  assert (Hd := V _ delta_v (fun _ _ => eq_refl)).
  destruct (calculate_n_bar_reads o _ Hm Hh Hr) as (E1 & E2).
  destruct (initialize_halo_splines_reads o _ Hm Hc Hb Ha Hr Hd)
    as (E3 & E4 & E5).
  constructor.
  - rewrite (V _ _initialized_h_m (fun _ _ => eq_refl)). exact F1.
  - rewrite (V _ _initialized_h_g (fun _ _ => eq_refl)). exact F2.
  - rewrite (V _ _initialized_pp_mm (fun _ _ => eq_refl)). exact F3.
  - rewrite (V _ _initialized_pp_gm (fun _ _ => eq_refl)). exact F4.
  - rewrite (V _ _initialized_pp_gg (fun _ _ => eq_refl)). exact F5.
  - rewrite (V _ _h_m_spline (fun _ _ => eq_refl)). exact S1.
  - rewrite (V _ _h_g_spline (fun _ _ => eq_refl)). exact S2.
  - rewrite (V _ _pp_mm_spline (fun _ _ => eq_refl)). exact S3.
  - rewrite (V _ _pp_gm_spline (fun _ _ => eq_refl)). exact S4.
  - rewrite (V _ _pp_gg_spline (fun _ _ => eq_refl)). exact S5.
  - rewrite (V _ built (fun _ _ => eq_refl)). exact B.
  - rewrite E1, (V _ n_bar_over_rho_bar (fun _ _ => eq_refl)). exact N1.
  - rewrite E2, (V _ n_bar (fun _ _ => eq_refl)). exact N2.
  - rewrite E3, (V _ _ln_r_v_spline (fun _ _ => eq_refl)). exact G1.
  - rewrite E4, (V _ _ln_concen_spline (fun _ _ => eq_refl)). exact G2.
  - rewrite E5, (V _ _ln_halo_norm_spline (fun _ _ => eq_refl)). exact G3.
  - rewrite (V _ _k_min (fun _ _ => eq_refl)). exact K1.
  - rewrite (V _ _k_max (fun _ _ => eq_refl)). exact K2.
Qed.

Lemma new_constructed c z h cs mf hd : constructed (new c z h cs mf hd).
Proof.
  rewrite new_unfold.
  assert (C : constructed (after init_tail (Halo.allocated c z h cs mf hd)))
    by (apply init_tail_constructed; reflexivity).
  destruct c; cbv iota; [exact C | exact C | apply fit_tail_constructed; exact C].
Qed.

Lemma new_cls c z h cs mf hd : cls (new c z h cs mf hd) = c.
Proof. destruct c; reflexivity. Qed.

Lemma fresh_power_mm_built k o :
  _initialized_h_m o = false -> _initialized_pp_mm o = false ->
  built (after (Halo.power_mm k) o) = built o ++ [H_M; PP_MM].
Proof.
  intros F1 F3. rewrite after_power_mm. unfold mm_ready, ensure.
  rewrite F1. fields. rewrite F3. fields. now rewrite <- app_assoc.
Qed.

Lemma fresh_power_gg_built k o :
  _initialized_h_g o = false -> _initialized_pp_gg o = false ->
  built (after (Halo.power_gg k) o) = built o ++ [H_G; PP_GG].
Proof.
  intros F2 F5. rewrite after_power_gg. unfold gg_ready, ensure.
  rewrite F2. fields. rewrite F5. fields. now rewrite <- app_assoc.
Qed.

End Construction.

(** ** Evaluation of the power spectra *)

(** Case analysis on the guards of the constructions, innermost first. *)
Ltac guards :=
  unfold mm_ready, gm_ready, gg_ready, exclusion_gm_ready, exclusion_gg_ready,
    ensure;
  repeat (fields;
          match goal with
          | |- context [if ?b then _ else _] =>
              lazymatch b with
              | context [@after] => fail
              | context [if _ then _ else _] => fail
              | _ => destruct b eqn:?
              end
          end);
  fields.

Section Evaluation.
Context {scipy : SciPy} {repo : Collaborators}.

Lemma present_some flag spline o :
  present flag spline o -> flag o = true -> exists s, spline o = Some s.
Proof.
  intros P F. specialize (P F). destruct (spline o) as [s|]; [now exists s|easy].
Qed.

(** The matter spectrum of the halo model returns on every object whose
    valid matter terms have their splines. *)
Lemma power_mm_returns k o :
  present _initialized_h_m _h_m_spline o ->
  present _initialized_pp_mm _pp_mm_spline o ->
  exists hm pp,
    _h_m_spline (mm_ready o) = Some hm /\
    _pp_mm_spline (mm_ready o) = Some pp /\
    Halo.power_mm k o =
    (Ok (Halo.linear_power (mm_ready o) k * value_of (mm_ready o) hm k *
         value_of (mm_ready o) hm k + value_of (mm_ready o) pp k),
     mm_ready o).
Proof.
  intros P1 P2. rewrite power_mm_run. unfold Halo._h_m, Halo._pp_mm.
  rewrite reads.
  assert (E1 : exists hm, _h_m_spline (mm_ready o) = Some hm).
  { guards; eauto using present_some. }
  assert (E2 : exists pp, _pp_mm_spline (mm_ready o) = Some pp).
  { guards; eauto using present_some. }
  destruct E1 as (hm & E1), E2 as (pp & E2). rewrite E1, E2.
  now exists hm, pp.
Qed.

Lemma power_gm_returns k o :
  present _initialized_h_m _h_m_spline o ->
  present _initialized_h_g _h_g_spline o ->
  present _initialized_pp_gm _pp_gm_spline o ->
  exists hg hm pp,
    _h_g_spline (gm_ready o) = Some hg /\
    _h_m_spline (gm_ready o) = Some hm /\
    _pp_gm_spline (gm_ready o) = Some pp /\
    Halo.power_gm k o =
    (Ok (Halo.linear_power (gm_ready o) k * value_of (gm_ready o) hg k *
         value_of (gm_ready o) hm k + value_of (gm_ready o) pp k),
     gm_ready o).
Proof.
  intros P1 P2 P3. rewrite power_gm_run. unfold Halo._h_m, Halo._h_g, Halo._pp_gm.
  rewrite reads.
  assert (E1 : exists hg, _h_g_spline (gm_ready o) = Some hg).
  { guards; eauto using present_some. }
  assert (E2 : exists hm, _h_m_spline (gm_ready o) = Some hm).
  { guards; eauto using present_some. }
  assert (E3 : exists pp, _pp_gm_spline (gm_ready o) = Some pp).
  { guards; eauto using present_some. }
  destruct E1 as (hg & E1), E2 as (hm & E2), E3 as (pp & E3).
  rewrite E1, E2, E3. now exists hg, hm, pp.
Qed.

Lemma power_gg_returns k o :
  present _initialized_h_g _h_g_spline o ->
  present _initialized_pp_gg _pp_gg_spline o ->
  exists hg pp,
    _h_g_spline (gg_ready o) = Some hg /\
    _pp_gg_spline (gg_ready o) = Some pp /\
    Halo.power_gg k o =
    (Ok (Halo.linear_power (gg_ready o) k * value_of (gg_ready o) hg k *
         value_of (gg_ready o) hg k + value_of (gg_ready o) pp k),
     gg_ready o).
Proof.
  intros P1 P2. rewrite power_gg_run. unfold Halo._h_g, Halo._pp_gg.
  rewrite reads.
  assert (E1 : exists hg, _h_g_spline (gg_ready o) = Some hg).
  { guards; eauto using present_some. }
  assert (E2 : exists pp, _pp_gg_spline (gg_ready o) = Some pp).
  { guards; eauto using present_some. }
  destruct E1 as (hg & E1), E2 as (pp & E2). rewrite E1, E2.
  now exists hg, pp.
Qed.

(** The galaxy spectrum of [HaloExclusion] returns on every object whose
    valid terms have their splines. *)
Lemma exclusion_power_gg_returns k o :
  present _initialized_h_m _h_m_spline o ->
  present _initialized_pp_mm _pp_mm_spline o ->
  present _initialized_h_g _h_g_spline o ->
  present _initialized_pp_gg _pp_gg_spline o ->
  let o2 := mm_ready (exclusion_gg_ready o) in
  exists hm ppmm hg pp,
    _h_m_spline o2 = Some hm /\ _pp_mm_spline o2 = Some ppmm /\
    _h_g_spline o2 = Some hg /\ _pp_gg_spline o2 = Some pp /\
    HaloExclusion.power_gg k o =
    (Ok ((Halo.linear_power o2 k * value_of o2 hm k * value_of o2 hm k +
          value_of o2 ppmm k) * value_of o2 hg k * value_of o2 hg k +
         value_of o2 pp k), o2).
Proof.
  intros P1 P2 P3 P4 o2. rewrite exclusion_power_gg_run.
  set (o1 := exclusion_gg_ready o) in *.
  assert (Q1 : present _initialized_h_m _h_m_spline o1).
  { subst o1. unfold present in *. guards; auto. }
  assert (Q2 : present _initialized_pp_mm _pp_mm_spline o1).
  { subst o1. unfold present in *. guards; auto. }
  destruct (power_mm_returns k o1 Q1 Q2) as (hm & ppmm & E1 & E2 & E).
  fold o2 in E1, E2, E.
  assert (E3 : exists hg, _h_g_spline o2 = Some hg).
  { subst o2 o1. guards; eauto using present_some. }
  assert (E4 : exists pp, _pp_gg_spline o2 = Some pp).
  { subst o2 o1. guards; eauto using present_some. }
  destruct E3 as (hg & E3), E4 as (pp & E4).
  exists hm, ppmm, hg, pp. repeat split; try assumption.
  rewrite (bind_ok _ _ _ _ _ E).
  unfold Halo._h_g, Halo._pp_gg. rewrite reads. now rewrite E3, E4.
Qed.

(** [HaloExclusion.power_gm] on an object whose pp_gg is valid and whose
    pp_gm spline does not exist. *)
Lemma exclusion_power_gm_raises k o :
  present _initialized_h_m _h_m_spline o ->
  present _initialized_pp_mm _pp_mm_spline o ->
  present _initialized_h_g _h_g_spline o ->
  _initialized_pp_gg o = true -> _pp_gm_spline o = None ->
  returned (HaloExclusion.power_gm k) o = Raise (AttributeError "_pp_gm_spline").
Proof.
  intros P1 P2 P3 F S. unfold returned. rewrite exclusion_power_gm_run.
  set (o1 := exclusion_gm_ready o) in *.
  assert (Q1 : present _initialized_h_m _h_m_spline o1).
  { subst o1. unfold present in *. guards; auto; congruence. }
  assert (Q2 : present _initialized_pp_mm _pp_mm_spline o1).
  { subst o1. unfold present in *. guards; auto; congruence. }
  destruct (power_mm_returns k o1 Q1 Q2) as (hm & ppmm & E1 & E2 & E).
  rewrite (bind_ok _ _ _ _ _ E).
  unfold Halo._h_g, Halo._h_m, Halo._pp_gm. rewrite reads.
  assert (E3 : exists hg, _h_g_spline (mm_ready o1) = Some hg).
  { subst o1. guards; eauto using present_some; congruence. }
  assert (E4 : _pp_gm_spline (mm_ready o1) = None).
  { subst o1. guards; auto; congruence. }
  destruct E3 as (hg & E3). now rewrite E3, E1, E4.
Qed.

Lemma by_class_run {A} (a b c : M A) o :
  by_class a b c o =
  match cls o with Halo_cls => a o | HaloExclusion_cls => b o | HaloFit_cls => c o end.
Proof. reflexivity. Qed.

(** C3 (the code departs from the claim).  On a new [HaloExclusion] object
    a call of [power_gg] returns and leaves pp_gg valid, pp_gm invalid and
    its spline nonexistent; the next [power_gm] evaluates the pp_gm spline
    all the same, because its guard tests the flag of pp_gg, and fails with
    AttributeError on [_pp_gm_spline]. *)
Theorem C3_exclusion_power_gm_reads_unbuilt_pp_gm
    (redshift : R) (input_hod : option hod.HOD)
    (cosmo_single_epoch : option cosmology.SingleEpoch)
    (mass_func : option mass_function.MassFunction)
    (halo_dict : option HaloDict) (k k' : R) :
  let o := new HaloExclusion_cls redshift input_hod cosmo_single_epoch mass_func
             halo_dict in
  let o1 := after (power_gg k) o in
  (exists v, returned (power_gg k) o = Ok v) /\
  _initialized_pp_gg o1 = true /\
  _initialized_pp_gm o1 = false /\
  _pp_gm_spline o1 = None /\
  returned (power_gm k') o1 = Raise (AttributeError "_pp_gm_spline").
Proof.
  intros o o1.
  destruct (new_constructed HaloExclusion_cls redshift input_hod
              cosmo_single_epoch mass_func halo_dict)
    as [F1 F2 F3 F4 F5 S1 S2 S3 S4 S5 _ _ _ _ _ _ _ _].
  assert (C : cls o = HaloExclusion_cls) by apply new_cls.
  fold o in F1, F2, F3, F4, F5, S1, S2, S3, S4, S5. clearbody o.
  assert (P1 : present _initialized_h_m _h_m_spline o) by (intro; congruence).
  assert (P2 : present _initialized_pp_mm _pp_mm_spline o) by (intro; congruence).
  assert (P3 : present _initialized_h_g _h_g_spline o) by (intro; congruence).
  assert (P4 : present _initialized_pp_gg _pp_gg_spline o) by (intro; congruence).
  destruct (exclusion_power_gg_returns k o P1 P2 P3 P4)
    as (hm & ppmm & hg & pp & E1 & E2 & E3 & E4 & E).
  assert (A1 : o1 = mm_ready (exclusion_gg_ready o)).
  { subst o1. unfold after, power_gg. now rewrite by_class_run, C, E. }
  assert (C1 : cls o1 = HaloExclusion_cls).
  { rewrite A1. guards; assumption. }
  split.
  { unfold returned, power_gg. rewrite by_class_run, C, E. eexists. reflexivity. }
  assert (G1 : _initialized_pp_gg o1 = true).
  { rewrite A1. guards; congruence. }
  assert (G2 : _initialized_pp_gm o1 = false).
  { rewrite A1. guards; congruence. }
  assert (G3 : _pp_gm_spline o1 = None).
  { rewrite A1. guards; congruence. }
  repeat split; try assumption.
  unfold returned, power_gm. rewrite by_class_run, C1.
  apply exclusion_power_gm_raises; try assumption.
  - rewrite A1. intros _. congruence.
  - rewrite A1. intros _. congruence.
  - rewrite A1. intros _. congruence.
Qed.

End Evaluation.

(** ** Invalidation *)

Section Invalidation.
Context {scipy : SciPy} {repo : Collaborators}.

Lemma mm_ready_flags o :
  _initialized_h_m (mm_ready o) = true /\ _initialized_pp_mm (mm_ready o) = true.
Proof. split; guards; congruence. Qed.

Lemma mm_ready_h_m_spline o :
  _h_m_spline (mm_ready o) =
  if _initialized_h_m o then _h_m_spline o else Some (h_m_table o).
Proof. guards; reflexivity. Qed.

Lemma mm_ready_pp_mm_spline o :
  _pp_mm_spline (mm_ready o) =
  if _initialized_pp_mm o then _pp_mm_spline o else Some (pp_mm_table o).
Proof. guards; reflexivity. Qed.

Lemma mm_ready_built o :
  built (mm_ready o) =
  built o ++ (if _initialized_h_m o then [] else [H_M]) ++
             (if _initialized_pp_mm o then [] else [PP_MM]).
Proof.
  guards; rewrite <- ?app_assoc; cbn [app]; now rewrite ?app_nil_r.
Qed.

Lemma mm_ready_reads o k s :
  value_of (mm_ready o) s k = value_of o s k /\
  Halo.linear_power (mm_ready o) k = Halo.linear_power o k.
Proof. split; guards; reflexivity. Qed.

(** What [Halo.power_mm] returns, from the object it is called on. *)
Lemma power_mm_value k o :
  returned (Halo.power_mm k) o =
  match (if _initialized_h_m o then _h_m_spline o else Some (h_m_table o)),
        (if _initialized_pp_mm o then _pp_mm_spline o else Some (pp_mm_table o))
  with
  | Some hm, Some pp =>
      Ok (Halo.linear_power o k * value_of o hm k * value_of o hm k +
          value_of o pp k)
  | None, _ => Raise (AttributeError "_h_m_spline")
  | Some _, None => Raise (AttributeError "_pp_mm_spline")
  end.
Proof.
  unfold returned. rewrite power_mm_run. unfold Halo._h_m, Halo._pp_mm.
  rewrite reads, mm_ready_h_m_spline, mm_ready_pp_mm_spline.
  destruct (if _initialized_h_m o then _h_m_spline o else Some (h_m_table o));
    [|reflexivity].
  destruct (if _initialized_pp_mm o then _pp_mm_spline o else Some (pp_mm_table o));
    [|reflexivity].
  cbn [fst]. now rewrite !(proj1 (mm_ready_reads o k _)), (proj2 (mm_ready_reads o k s)).
Qed.

Lemma set_hod_steps h o :
  after (Halo.set_hod h) o =
  after (assign (with_initialized_pp_gg false))
    (after (assign (with_initialized_pp_gm false))
       (after (assign (with_initialized_pp_mm false))
          (after (assign (with_initialized_h_g false))
             (after Halo._calculate_n_bar
                (after (assign (with_local_hod h)) o))))).
Proof. unfold Halo.set_hod. now rewrite !after_seq by reflexivity. Qed.

Lemma set_hod_built h o : built (after (Halo.set_hod h) o) = built o ++ [N_BAR].
Proof. rewrite set_hod_steps. now fields. Qed.

Lemma set_hod_n_bar h o :
  n_bar_over_rho_bar (after (Halo.set_hod h) o) =
    n_bar_over_rho_bar (after Halo._calculate_n_bar (after (Halo.set_hod h) o)) /\
  n_bar (after (Halo.set_hod h) o) =
    n_bar (after Halo._calculate_n_bar (after (Halo.set_hod h) o)).
Proof.
  set (o' := after (Halo.set_hod h) o).
  set (o1 := after (assign (with_local_hod h)) o).
  assert (Hm : mass o' = mass o1) by (subst o' o1; now frame).
  assert (Hh : local_hod o' = local_hod o1) by reflexivity.
  assert (Hr : rho_bar o' = rho_bar o1) by (subst o' o1; now frame).
  destruct (calculate_n_bar_reads o1 o' Hm Hh Hr) as (E1 & E2).
  rewrite E1, E2. subst o' o1. rewrite set_hod_steps. now frame.
Qed.

Lemma set_hod_flags h o :
  let o' := after (Halo.set_hod h) o in
  _initialized_h_m o' = _initialized_h_m o /\
  _initialized_h_g o' = false /\ _initialized_pp_mm o' = false /\
  _initialized_pp_gm o' = false /\ _initialized_pp_gg o' = false.
Proof. cbv zeta. frame. repeat split; reflexivity. Qed.

Lemma set_hod_matter h o :
  pp_mm_table (after (Halo.set_hod h) o) = pp_mm_table o /\
  h_m_table (after (Halo.set_hod h) o) = h_m_table o.
Proof. now frame. Qed.

End Invalidation.
(** ** The fitting formula *)

Section Fit.
Context {scipy : SciPy} {repo : Collaborators}.

Lemma bind_attribute_some {A B} name (g : HaloObj -> option A) (f : A -> M B) o a :
  g o = Some a -> bind (attribute name g) f o = f a o.
Proof. intros E. unfold bind, attribute. now rewrite E. Qed.

Lemma bind_attribute_none {A B} name (g : HaloObj -> option A) (f : A -> M B) o :
  g o = None -> bind (attribute name g) f o = (Raise (AttributeError name), o).
Proof. intros E. unfold bind, attribute. now rewrite E. Qed.

Lemma bind_assoc {A B C} (m : M A) (f : A -> M B) (g : B -> M C) o :
  bind (bind m f) g o = bind m (fun a => bind (f a) g) o.
Proof. unfold bind. destruct (m o) as [[a|e] o1]; reflexivity. Qed.

Lemma ret_run {A} (a : A) o : ret a o = (Ok a, o).
Proof. reflexivity. Qed.


(** The reads of [HaloFit.power_mm]. *)
Lemma halofit_reads k o :
  (delta2_Q <- HaloFit._delta2_Q k ;;
   delta2_H <- HaloFit._delta2_H k ;;
   ret (2 * PI * PI / k ^ 3 * (delta2_Q + delta2_H))) o =
  (halofit_reads_of o k, o).
Proof.
  unfold halofit_reads_of.
  destruct (fit o) as [attrs|] eqn:Ef.
  - destruct (sigma attrs) as [c|] eqn:Es.
    + assert (E : HaloFit.sigma_attrs o = Some c)
        by (unfold HaloFit.sigma_attrs; now rewrite Ef).
      destruct (scale attrs) as [s|] eqn:Ec.
      * assert (E' : HaloFit.scale_attrs o = Some s)
          by (unfold HaloFit.scale_attrs; now rewrite Ef).
        unfold HaloFit._delta2_Q, HaloFit._delta2_H, HaloFit._delta2_prime_H,
          HaloFit._f.
        repeat first
          [ progress cbv beta | rewrite bind_assoc | rewrite bind_self
          | rewrite bind_ret
          | rewrite (bind_attribute_some _ _ _ _ _ E)
          | rewrite (bind_attribute_some _ _ _ _ _ E')
          | rewrite (bind_attribute_some _ _ _ _ _ Ef) ].
        reflexivity.
      * assert (E' : HaloFit.scale_attrs o = None)
          by (unfold HaloFit.scale_attrs; now rewrite Ef).
        unfold HaloFit._delta2_Q, HaloFit._f.
        repeat first
          [ progress cbv beta | rewrite bind_assoc | rewrite bind_self
          | rewrite (bind_attribute_some _ _ _ _ _ E)
          | rewrite (bind_attribute_none _ _ _ _ E') ].
        reflexivity.
    + assert (E : HaloFit.sigma_attrs o = None)
        by (unfold HaloFit.sigma_attrs; now rewrite Ef).
      unfold HaloFit._delta2_Q.
      repeat first
        [ progress cbv beta | rewrite bind_assoc | rewrite bind_self
        | rewrite (bind_attribute_none _ _ _ _ E) ].
      reflexivity.
  - assert (E : HaloFit.sigma_attrs o = None)
      by (unfold HaloFit.sigma_attrs; now rewrite Ef).
    unfold HaloFit._delta2_Q.
    repeat first
      [ progress cbv beta | rewrite bind_assoc | rewrite bind_self
      | rewrite (bind_attribute_none _ _ _ _ E) ].
    reflexivity.
Qed.


(** What [_initialize_sigma_spline] does.  It always assigns the scale,
    which is positive, and keeps the attributes of the constructor, the
    flag among them.  Where the library can take the derivatives of the
    fitted variance at the scale, it returns and has assigned positive
    power-law coefficients, a non-negative [_alpha_n], and [_mu_n = 0];
    elsewhere it raises TypeError and the coefficients are those the
    object had. *)
Lemma sigma_spline_assigned o attrs :
  fit o = Some attrs ->
  exists attrs' sc,
    fit (after HaloFit._initialize_sigma_spline o) = Some attrs' /\
    scale attrs' = Some sc /\ _k_s sc = sigma_k_s o /\
    _f_1 attrs' = _f_1 attrs /\ _f_2 attrs' = _f_2 attrs /\
    _f_3 attrs' = _f_3 attrs /\
    _initialized_sigma_spline attrs' = _initialized_sigma_spline attrs /\
    if sigma_evaluates o
    then returned HaloFit._initialize_sigma_spline o = Ok tt /\
         exists c, sigma attrs' = Some c /\
           0 < _a_n c /\ 0 < _b_n c /\ 0 < _c_n c /\ 0 < _nu_n c /\
           0 <= _alpha_n c /\ _mu_n c = 0
    else returned HaloFit._initialize_sigma_spline o = Raise TypeError /\
         sigma attrs' = sigma attrs.
Proof.
  intros Ef. unfold returned, after, HaloFit._initialize_sigma_spline.
  rewrite bind_self, (bind_attribute_some _ _ _ _ _ Ef).
  cbv zeta. rewrite bind_assign. unfold log. rewrite bind_assign.
  unfold derivatives.
  change (within_knots _ _) with (sigma_evaluates o).
  destruct (sigma_evaluates o).
  - eexists _, _. split; [reflexivity|].
    cbn [scale sigma _f_1 _f_2 _f_3 _initialized_sigma_spline _k_s].
    split; [reflexivity|]. repeat (split; [reflexivity|]).
    eexists. split; [reflexivity|].
    cbn [_a_n _b_n _c_n _nu_n _alpha_n _mu_n].
    repeat split; try (unfold Rpower; apply exp_pos); apply Rabs_pos.
  - eexists _, _. split; [reflexivity|].
    cbn [scale sigma _f_1 _f_2 _f_3 _initialized_sigma_spline _k_s].
    split; [reflexivity|]. repeat (split; [reflexivity|]).
    reflexivity.
Qed.

(** What [HaloFit.power_mm] returns, from the object it is called on. *)
Lemma halofit_power_mm_value k o :
  returned (HaloFit.power_mm k) o =
  match fit o with
  | None => Raise (AttributeError "_initialized_sigma_spline")
  | Some attrs =>
      if _initialized_sigma_spline attrs then halofit_reads_of o k
      else if sigma_evaluates o
           then halofit_reads_of (after HaloFit._initialize_sigma_spline o) k
           else Raise TypeError
  end.
Proof.
  unfold returned, HaloFit.power_mm.
  destruct (fit o) as [attrs|] eqn:Ef.
  2:{ now rewrite (bind_attribute_none _ _ _ _ Ef). }
  rewrite (bind_attribute_some _ _ _ _ _ Ef).
  destruct (_initialized_sigma_spline attrs) eqn:Fl.
  - unfold if_not. rewrite bind_ret. now rewrite halofit_reads.
  - unfold if_not.
    destruct (sigma_spline_assigned o attrs Ef) as (a1 & sc & _ & _ & _ & _ & _ & _ & _ & H).
    destruct (sigma_evaluates o).
    + destruct H as (Er & _).
      rewrite (bind_after _ _ _ _ Er). now rewrite halofit_reads.
    + destruct H as (Er & _). unfold returned in Er.
      unfold bind. destruct (HaloFit._initialize_sigma_spline o) as [r o1].
      cbn [fst] in Er. now rewrite Er.
Qed.

(** The object [HaloFit.power_mm] leaves. *)
Lemma halofit_power_mm_after k o attrs :
  fit o = Some attrs ->
  after (HaloFit.power_mm k) o =
  if _initialized_sigma_spline attrs then o
  else after HaloFit._initialize_sigma_spline o.
Proof.
  intros Ef. unfold after at 1, HaloFit.power_mm.
  rewrite (bind_attribute_some _ _ _ _ _ Ef).
  destruct (_initialized_sigma_spline attrs) eqn:Fl.
  - unfold if_not. rewrite bind_ret. now rewrite halofit_reads.
  - unfold if_not.
    destruct (sigma_spline_assigned o attrs Ef) as (a1 & sc & _ & _ & _ & _ & _ & _ & _ & H).
    destruct (sigma_evaluates o).
    + destruct H as (Er & _).
      rewrite (bind_after _ _ _ _ Er). now rewrite halofit_reads.
    + destruct H as (Er & _). unfold returned in Er. unfold after.
      unfold bind. destruct (HaloFit._initialize_sigma_spline o) as [r o1].
      cbn [fst] in Er. now rewrite Er.
Qed.

End Fit.
Section FitReads.
Context {scipy : SciPy} {repo : Collaborators}.

(** Whether the derivatives can be taken depends on the cosmology and the
    ends of the wavenumber domain only. *)
Lemma sigma_evaluates_reads o o' :
  cosmo o' = cosmo o ->
  _ln_k_min o' = _ln_k_min o -> _ln_k_max o' = _ln_k_max o ->
  sigma_evaluates o' = sigma_evaluates o.
Proof.
  intros Hc H1 H2.
  unfold sigma_evaluates, sigma_k_s, sigma_variance, HaloFit._sigma2_integrand.
  now rewrite Hc, H1, H2.
Qed.

(** [_initialize_sigma_spline] reads the cosmology, the ends of the
    wavenumber domain and the attributes of the fit only. *)
Lemma sigma_spline_reads o o' :
  fit o' = fit o -> cosmo o' = cosmo o ->
  _ln_k_min o' = _ln_k_min o -> _ln_k_max o' = _ln_k_max o ->
  fit (after HaloFit._initialize_sigma_spline o') =
    fit (after HaloFit._initialize_sigma_spline o) /\
  cosmo (after HaloFit._initialize_sigma_spline o') = cosmo o /\
  returned HaloFit._initialize_sigma_spline o' =
    returned HaloFit._initialize_sigma_spline o.
Proof.
  intros Hf Hc H1 H2.
  unfold returned, after, HaloFit._initialize_sigma_spline. rewrite !bind_self.
  destruct (fit o) as [attrs|] eqn:Ef.
  - rewrite (bind_attribute_some _ _ _ _ _ Hf), (bind_attribute_some _ _ _ _ _ Ef).
    cbv zeta. rewrite !bind_assign. unfold log. rewrite !bind_assign.
    unfold HaloFit._sigma2_integrand. rewrite Hc, H1, H2.
    destruct (derivatives _ _).
    + split; [reflexivity|]. split; [exact Hc | reflexivity].
    + split; [reflexivity|]. split; [exact Hc | reflexivity].
  - rewrite (bind_attribute_none _ _ _ _ Hf), (bind_attribute_none _ _ _ _ Ef).
    cbn [snd fst]. rewrite Hf, Ef. split; [reflexivity|]. split; [exact Hc | reflexivity].
Qed.

Lemma sigma_spline_cosmo o :
  cosmo (after HaloFit._initialize_sigma_spline o) = cosmo o.
Proof. now apply sigma_spline_reads. Qed.

Lemma halofit_reads_of_reads k o o' :
  fit o' = fit o -> cosmo o' = cosmo o ->
  halofit_reads_of o' k = halofit_reads_of o k.
Proof.
  intros Hf Hc. unfold halofit_reads_of, halofit_of, delta2_Q_of.
  now rewrite Hf, Hc.
Qed.

(** [HaloFit.power_mm] reads no cache of the halo model. *)
Lemma halofit_power_mm_reads k o o' :
  fit o' = fit o -> cosmo o' = cosmo o ->
  _ln_k_min o' = _ln_k_min o -> _ln_k_max o' = _ln_k_max o ->
  returned (HaloFit.power_mm k) o' = returned (HaloFit.power_mm k) o.
Proof.
  intros Hf Hc H1 H2. rewrite !halofit_power_mm_value, Hf.
  destruct (fit o) as [attrs|] eqn:Ef; [|reflexivity].
  rewrite (sigma_evaluates_reads o o' Hc H1 H2).
  rewrite <- Ef in Hf.
  destruct (_initialized_sigma_spline attrs).
  - now apply halofit_reads_of_reads.
  - destruct (sigma_evaluates o); [|reflexivity].
    destruct (sigma_spline_reads o o' Hf Hc H1 H2) as (E1 & E2 & _).
    apply halofit_reads_of_reads; [exact E1|].
    now rewrite E2, sigma_spline_cosmo.
Qed.



End FitReads.

Section Mutators.
Context {scipy : SciPy} {repo : Collaborators}.

Lemma set_hod_returns h o : returned (Halo.set_hod h) o = Ok tt.
Proof. reflexivity. Qed.

(** C1 (as the code has it).  [set_hod] leaves the matter 2-halo cache h_m
    alone (flag and spline) and clears the flags of h_g, pp_gm, pp_gg and
    also of pp_mm; it recomputes the mean galaxy density at once.  The next
    [power_mm] therefore reconstructs pp_mm; as that reconstruction reads
    nothing of the HOD, [power_mm] returns what it returned before, for an
    object of any class whose valid pp_mm cache is what a reconstruction
    gives. *)
Theorem C1_set_hod_keeps_h_m_and_rebuilds_pp_mm
    (o : HaloObj) (input_hod : hod.HOD) (k : R) :
  pp_mm_fresh o ->
  let o' := after (Halo.set_hod input_hod) o in
  returned (Halo.set_hod input_hod) o = Ok tt /\
  (_initialized_h_m o' = _initialized_h_m o /\ _h_m_spline o' = _h_m_spline o) /\
  _initialized_pp_mm o' = false /\
  (_initialized_h_g o' = false /\ _initialized_pp_gm o' = false /\
   _initialized_pp_gg o' = false) /\
  (local_hod o' = input_hod /\
   n_bar o' = n_bar (after Halo._calculate_n_bar o') /\
   n_bar_over_rho_bar o' = n_bar_over_rho_bar (after Halo._calculate_n_bar o')) /\
  built o' = built o ++ [N_BAR] /\
  built (after (Halo.power_mm k) o') =
    built o ++ [N_BAR] ++ (if _initialized_h_m o then [] else [H_M]) ++ [PP_MM] /\
  returned (power_mm k) o' = returned (power_mm k) o.
Proof.
  intros Fresh o'.
  destruct (set_hod_flags input_hod o) as (F1 & F2 & F3 & F4 & F5).
  destruct (set_hod_n_bar input_hod o) as (N1 & N2).
  destruct (set_hod_matter input_hod o) as (T1 & T2).
  fold o' in F1, F2, F3, F4, F5, N1, N2, T1, T2.
  assert (S1 : _h_m_spline o' = _h_m_spline o) by (subst o'; now frame).
  assert (B : built o' = built o ++ [N_BAR]) by apply set_hod_built.
  assert (C : cls o' = cls o) by (subst o'; now frame).
  split; [reflexivity|].
  split; [now split|].
  split; [exact F3|].
  split; [now repeat split|].
  split; [split; [reflexivity | split; [exact N2 | exact N1]]|].
  split; [exact B|].
  split.
  { rewrite after_power_mm, mm_ready_built, B, F1, F3, <- !app_assoc.
    reflexivity. }
  assert (E : returned (Halo.power_mm k) o' = returned (Halo.power_mm k) o).
  { rewrite !power_mm_value, F1, F3, S1, T1, T2.
    assert (V : forall s, value_of o' s k = value_of o s k)
      by (intro; subst o'; now frame).
    assert (L : Halo.linear_power o' k = Halo.linear_power o k)
      by (subst o'; now frame).
    destruct (_initialized_pp_mm o) eqn:Fl.
    - rewrite (Fresh Fl).
      destruct (if _initialized_h_m o then _h_m_spline o else Some (h_m_table o));
        [|reflexivity].
      now rewrite !V, L.
    - destruct (if _initialized_h_m o then _h_m_spline o else Some (h_m_table o));
        [|reflexivity].
      now rewrite !V, L. }
  assert (E' : returned (HaloFit.power_mm k) o' = returned (HaloFit.power_mm k) o)
    by (apply halofit_power_mm_reads; subst o'; now frame).
  unfold power_mm, returned in *. rewrite !by_class_run, C.
  destruct (cls o); assumption.
Qed.

Lemma set_halo_steps hd o :
  after (Halo.set_halo hd) o =
  after (Halo.set_hod (local_hod o))
    (after (assign (with_mass (mass_set_halo (mass o) hd)))
       (after (assign (with_alpha (-1)))
          (after (assign (with_beta (dict_beta hd)))
             (after (assign (with_c0 (dict_c0 hd / (1 + _redshift o)))) o)))).
Proof.
  unfold Halo.set_halo, after at 1. rewrite bind_self.
  change (snd ?p) with (after (fun _ => p) o) at 1.
  unfold after at 1.
  rewrite (bind_after _ _ _ tt) by reflexivity.
  rewrite (bind_after _ _ _ tt) by reflexivity.
  rewrite (bind_after _ _ _ tt) by reflexivity.
  rewrite (bind_after _ _ _ tt) by reflexivity.
  reflexivity.
Qed.

(** C2 (the code departs from the claim).  [set_halo] assigns the new
    concentration parameters and hands the dictionary to the mass function,
    then does what [set_hod] does: it recomputes the mean galaxy density and
    clears the flags of h_g, pp_mm, pp_gm and pp_gg.  The three geometry
    splines are not recomputed and the flag of h_m is not cleared: the
    history gains [N_BAR] only, and the next [power_mm] constructs pp_mm but
    neither the geometry nor, if it was valid, h_m. *)
Theorem C2_set_halo_keeps_geometry_and_h_m
    (o : HaloObj) (halo_dict : HaloDict) (k : R) :
  let o' := after (Halo.set_halo halo_dict) o in
  returned (Halo.set_halo halo_dict) o = Ok tt /\
  (c0 o' = dict_c0 halo_dict / (1 + _redshift o) /\
   beta o' = dict_beta halo_dict /\
   mass o' = mass_set_halo (mass o) halo_dict) /\
  (_ln_r_v_spline o' = _ln_r_v_spline o /\
   _ln_concen_spline o' = _ln_concen_spline o /\
   _ln_halo_norm_spline o' = _ln_halo_norm_spline o) /\
  (_initialized_h_m o' = _initialized_h_m o /\ _h_m_spline o' = _h_m_spline o) /\
  (_initialized_h_g o' = false /\ _initialized_pp_mm o' = false /\
   _initialized_pp_gm o' = false /\ _initialized_pp_gg o' = false) /\
  built o' = built o ++ [N_BAR] /\
  built (after (Halo.power_mm k) o') =
    built o ++ [N_BAR] ++ (if _initialized_h_m o then [] else [H_M]) ++ [PP_MM].
Proof.
  intro o'.
  assert (E : o' = after (Halo.set_hod (local_hod o))
                (after (assign (with_mass (mass_set_halo (mass o) halo_dict)))
                   (after (assign (with_alpha (-1)))
                      (after (assign (with_beta (dict_beta halo_dict)))
                         (after (assign (with_c0 (dict_c0 halo_dict /
                                                  (1 + _redshift o)))) o)))))
    by apply set_halo_steps.
  clearbody o'.
  assert (F1 : _initialized_h_m o' = _initialized_h_m o) by (rewrite E; now frame).
  assert (F3 : _initialized_pp_mm o' = false) by (rewrite E; now frame).
  assert (B : built o' = built o ++ [N_BAR])
    by (rewrite E, set_hod_built; now frame).
  split; [reflexivity|].
  split; [rewrite E; frame; now repeat split|].
  split; [rewrite E; frame; now repeat split|].
  split; [rewrite E; frame; now repeat split|].
  split; [rewrite E; frame; now repeat split|].
  split; [exact B|].
  rewrite after_power_mm, mm_ready_built, B, F1, F3, <- !app_assoc.
  reflexivity.
Qed.

End Mutators.

(** ** Outside the cached domain *)

Section Domain.
Context {scipy : SciPy} {repo : Collaborators}.


Lemma ready_domain o :
  (_k_min (mm_ready o) = _k_min o /\ _k_max (mm_ready o) = _k_max o) /\
  (_k_min (gm_ready o) = _k_min o /\ _k_max (gm_ready o) = _k_max o) /\
  (_k_min (gg_ready o) = _k_min o /\ _k_max (gg_ready o) = _k_max o) /\
  (_k_min (exclusion_gg_ready o) = _k_min o /\
   _k_max (exclusion_gg_ready o) = _k_max o).
Proof. repeat split; guards; reflexivity. Qed.

(** [_initialize_sigma_spline] assigns the attributes of the fit and
    nothing else. *)
Lemma sigma_spline_frame {A} (p : HaloObj -> A) o :
  (forall v x, p (with_fit v x) = p x) ->
  (forall v x, p (with_built v x) = p x) ->
  p (after HaloFit._initialize_sigma_spline o) = p o.
Proof.
  intros Hf Hb. unfold after, HaloFit._initialize_sigma_spline.
  rewrite bind_self.
  destruct (fit o) as [attrs|] eqn:Ef.
  - rewrite (bind_attribute_some _ _ _ _ _ Ef). cbv zeta.
    rewrite bind_assign. unfold log. rewrite bind_assign.
    destruct (derivatives _ _).
    + unfold assign; cbn [snd]. now rewrite Hf, Hb, Hf.
    + unfold raise; cbn [snd]. now rewrite Hb, Hf.
  - now rewrite (bind_attribute_none _ _ _ _ Ef).
Qed.

(** The state [HaloFit.power_mm] leaves, and what it returns. *)
Lemma halofit_power_mm_run k o :
  HaloFit.power_mm k o =
  (returned (HaloFit.power_mm k) o,
   match fit o with
   | None => o
   | Some attrs =>
       ensure (fun _ => _initialized_sigma_spline attrs)
         HaloFit._initialize_sigma_spline o
   end).
Proof.
  rewrite (surjective_pairing (HaloFit.power_mm k o)) at 1.
  unfold returned. f_equal.
  destruct (fit o) as [attrs|] eqn:Ef.
  - change (snd (HaloFit.power_mm k o)) with (after (HaloFit.power_mm k) o).
    rewrite (halofit_power_mm_after k o attrs Ef). reflexivity.
  - unfold HaloFit.power_mm. now rewrite (bind_attribute_none _ _ _ _ Ef).
Qed.

(** [HaloFit.power_mm] assigns the attributes of the fit and nothing else. *)
Lemma halofit_power_mm_frame {A} (p : HaloObj -> A) k o :
  (forall v x, p (with_fit v x) = p x) ->
  (forall v x, p (with_built v x) = p x) ->
  p (after (HaloFit.power_mm k) o) = p o.
Proof.
  intros Hf Hb. unfold after at 1. rewrite halofit_power_mm_run. cbn [snd].
  destruct (fit o) as [attrs|] eqn:Ef; [|reflexivity].
  unfold ensure. destruct (_initialized_sigma_spline attrs); [reflexivity|].
  now apply sigma_spline_frame.
Qed.

Lemma halofit_power_gm_run k o :
  HaloFit.power_gm k o =
  (power_mm <- HaloFit.power_mm k ;;
   a <- Halo._h_g k ;; b <- Halo._h_m k ;; c <- Halo._pp_gm k ;;
   ret (power_mm * a * b + c)) (gm_ready o).
Proof.
  unfold HaloFit.power_gm, gm_ready.
  rewrite bind_self, bind_if_not by reflexivity.
  rewrite bind_self, bind_if_not by reflexivity.
  rewrite bind_self, bind_if_not by reflexivity.
  reflexivity.
Qed.

Lemma halofit_power_gg_run k o :
  HaloFit.power_gg k o =
  (power_mm <- HaloFit.power_mm k ;;
   a <- Halo._h_g k ;; b <- Halo._h_g k ;; c <- Halo._pp_gg k ;;
   ret (power_mm * a * b + c)) (gg_ready o).
Proof.
  unfold HaloFit.power_gg, gg_ready.
  rewrite bind_self, bind_if_not by reflexivity.
  rewrite bind_self, bind_if_not by reflexivity.
  reflexivity.
Qed.

End Domain.

Section DomainClaim.
Context {scipy : SciPy} {repo : Collaborators}.


Lemma ready_present o :
  terms_present o ->
  (_h_m_spline (mm_ready o) <> None /\ _pp_mm_spline (mm_ready o) <> None) /\
  (_h_g_spline (gm_ready o) <> None /\ _h_m_spline (gm_ready o) <> None /\
   _pp_gm_spline (gm_ready o) <> None) /\
  (_h_g_spline (gg_ready o) <> None /\ _pp_gg_spline (gg_ready o) <> None) /\
  terms_present (exclusion_gg_ready o) /\
  (_h_g_spline (mm_ready (exclusion_gg_ready o)) <> None /\
   _pp_gg_spline (mm_ready (exclusion_gg_ready o)) <> None).
Proof.
  intros (P1 & P2 & P3 & P4 & P5). unfold terms_present, present in *.
  repeat split; guards; auto; try discriminate; try congruence.
Qed.


End DomainClaim.

(** ** Integration limits and integrands *)

Section Integrands.
Context {scipy : SciPy} {repo : Collaborators}.

(** C7 (the code departs from the claim).  [Halo._initialize_h_g], which
    objects of class [Halo] and [HaloFit] run, integrates every point of
    the h_g table from the mass-function floor [ln nu_min]; the limit it
    computes from the first-moment-zero mass of the HOD is not passed on, so
    the table does not depend on that mass.  The sibling constructions do
    use the raised limit: pp_gm, and h_g in [HaloExclusion]. *)
Theorem C7_h_g_lower_limit_is_the_mass_function_floor
    (o : HaloObj) (zero zero' : R) :
  let with_zero z :=
    with_local_hod
      {| hod.first_moment_zero := z;
         hod.second_moment_zero := hod.second_moment_zero (local_hod o);
         hod.first_moment := hod.first_moment (local_hod o);
         hod.second_moment := hod.second_moment (local_hod o) |} o in
  _h_g_spline (after Halo._initialize_h_g o) =
    Some (term_table o Halo._h_g_integrand (mass_function.nu_min (mass o))
            (fun v => v)) /\
  _h_g_spline (after Halo._initialize_h_g (with_zero zero)) =
    _h_g_spline (after Halo._initialize_h_g (with_zero zero')) /\
  _pp_gm_spline (after Halo._initialize_pp_gm o) =
    Some (term_table o Halo._pp_gm_integrand
            (hod_nu_min o (hod.first_moment_zero (local_hod o)))
            (fun v => v / n_bar o)) /\
  _h_g_spline (after HaloExclusion._initialize_h_g o) =
    Some (term_table o HaloExclusion._h_g_integrand
            (hod_nu_min o (hod.first_moment_zero (local_hod o)))
            (fun v => v)).
Proof.
  intro with_zero. repeat split; try reflexivity.
Qed.

(** C8.  In the integrand of pp_gm the profile transform y enters once
    where N1 is below 1 and squared otherwise; in the integrand of pp_gg
    the same holds with N2. *)
Theorem C8_poisson_terms_power_of_y (o : HaloObj) (ln_nu ln_k : R) :
  let nu := exp ln_nu in
  let mass' := mass_function.mass (mass o) nu in
  let f := mass_function.f_nu (mass o) nu in
  let y := Halo.y o ln_k mass' in
  let n_exp := hod.first_moment (local_hod o) mass' in
  let n_pair := hod.second_moment (local_hod o) mass' in
  (n_exp < 1 -> Halo._pp_gm_integrand o ln_nu ln_k = nu * f * n_exp * y) /\
  (1 <= n_exp -> Halo._pp_gm_integrand o ln_nu ln_k = nu * f * n_exp * (y * y)) /\
  (n_pair < 1 ->
   Halo._pp_gg_integrand o ln_nu ln_k =
   nu * f * n_pair * y / (mass' * n_bar o * n_bar o)) /\
  (1 <= n_pair ->
   Halo._pp_gg_integrand o ln_nu ln_k =
   nu * f * n_pair * (y * y) / (mass' * n_bar o * n_bar o)).
Proof.
  intros nu mass' f y n_exp n_pair.
  unfold Halo._pp_gm_integrand, Halo._pp_gg_integrand, Rltb.
  fold nu. fold mass'. fold f. fold y. fold n_exp. fold n_pair.
  repeat split; intros H.
  - destruct (Rlt_dec n_exp 1); [reflexivity | lra].
  - destruct (Rlt_dec n_exp 1); [lra | ring].
  - destruct (Rlt_dec n_pair 1); [reflexivity | lra].
  - destruct (Rlt_dec n_pair 1); [lra|]. unfold Rdiv. ring.
Qed.

End Integrands.

(** ** The exclusion variant *)

Section Exclusion.
Context {scipy : SciPy} {repo : Collaborators}.

Lemma mm_ready_valid o :
  _initialized_h_m o = true -> _initialized_pp_mm o = true -> mm_ready o = o.
Proof. intros F1 F2. unfold mm_ready, ensure. now rewrite F1, F2. Qed.

Lemma exclusion_power_gm_returns k o :
  present _initialized_h_m _h_m_spline o ->
  present _initialized_pp_mm _pp_mm_spline o ->
  present _initialized_h_g _h_g_spline o ->
  present _initialized_pp_gg _pp_gm_spline o ->
  let o2 := mm_ready (exclusion_gm_ready o) in
  exists hm ppmm hg pp,
    _h_m_spline o2 = Some hm /\ _pp_mm_spline o2 = Some ppmm /\
    _h_g_spline o2 = Some hg /\ _pp_gm_spline o2 = Some pp /\
    HaloExclusion.power_gm k o =
    (Ok ((Halo.linear_power o2 k * value_of o2 hm k * value_of o2 hm k +
          value_of o2 ppmm k) * value_of o2 hg k * value_of o2 hm k +
         value_of o2 pp k), o2).
Proof.
  intros P1 P2 P3 P4 o2. rewrite exclusion_power_gm_run.
  set (o1 := exclusion_gm_ready o) in *.
  assert (Q1 : present _initialized_h_m _h_m_spline o1).
  { subst o1. unfold present in *. guards; auto. }
  assert (Q2 : present _initialized_pp_mm _pp_mm_spline o1).
  { subst o1. unfold present in *. guards; auto. }
  destruct (power_mm_returns k o1 Q1 Q2) as (hm & ppmm & E1 & E2 & E).
  fold o2 in E1, E2, E.
  assert (E3 : exists hg, _h_g_spline o2 = Some hg).
  { subst o2 o1. guards; eauto using present_some. }
  assert (E4 : exists pp, _pp_gm_spline o2 = Some pp).
  { subst o2 o1. guards; eauto using present_some. }
  destruct E3 as (hg & E3), E4 as (pp & E4).
  exists hm, ppmm, hg, pp. repeat split; try assumption.
  rewrite (bind_ok _ _ _ _ _ E).
  unfold Halo._h_g, Halo._h_m, Halo._pp_gm. rewrite reads. now rewrite E3, E1, E4.
Qed.

(** The reads of the spectra of [HaloExclusion] see what the object had:
    the constructions assign term splines, flags and the history only. *)
Lemma exclusion_ready_reads o k s :
  (value_of (mm_ready (exclusion_gg_ready o)) s k = value_of o s k /\
   Halo.linear_power (mm_ready (exclusion_gg_ready o)) k = Halo.linear_power o k) /\
  (value_of (mm_ready (exclusion_gm_ready o)) s k = value_of o s k /\
   Halo.linear_power (mm_ready (exclusion_gm_ready o)) k = Halo.linear_power o k).
Proof. repeat split; unfold mm_ready; guards; reflexivity. Qed.

(** The splines the reads of [HaloExclusion.power_gg] find. *)
Lemma exclusion_gg_ready_splines o :
  let o2 := mm_ready (exclusion_gg_ready o) in
  _h_m_spline o2 = cached _initialized_h_m _h_m_spline h_m_table o /\
  _pp_mm_spline o2 = cached _initialized_pp_mm _pp_mm_spline pp_mm_table o /\
  _h_g_spline o2 = cached _initialized_h_g _h_g_spline exclusion_h_g_table o /\
  _pp_gg_spline o2 = cached _initialized_pp_gg _pp_gg_spline pp_gg_table o.
Proof.
  cbv zeta. unfold cached, exclusion_h_g_table, pp_gg_table.
  repeat split; unfold mm_ready; guards; reflexivity.
Qed.

(** The splines the reads of [HaloExclusion.power_gm] find; the flag that
    guards pp_gm is the one of pp_gg. *)
Lemma exclusion_gm_ready_splines o :
  let o2 := mm_ready (exclusion_gm_ready o) in
  _h_m_spline o2 = cached _initialized_h_m _h_m_spline h_m_table o /\
  _pp_mm_spline o2 = cached _initialized_pp_mm _pp_mm_spline pp_mm_table o /\
  _h_g_spline o2 = cached _initialized_h_g _h_g_spline exclusion_h_g_table o /\
  _pp_gm_spline o2 = cached _initialized_pp_gg _pp_gm_spline pp_gm_table o.
Proof.
  cbv zeta. unfold cached, exclusion_h_g_table, pp_gm_table.
  repeat split; unfold mm_ready; guards; reflexivity.
Qed.

Lemma cached_present flag spline table o :
  present flag spline o -> exists s, cached flag spline table o = Some s.
Proof.
  intros P. unfold cached. destruct (flag o) eqn:F.
  - now apply (present_some flag spline).
  - eexists. reflexivity.
Qed.

(** What [Halo.power_mm] returns, from the splines its reads find. *)
Lemma power_mm_cached k o hm ppmm :
  cached _initialized_h_m _h_m_spline h_m_table o = Some hm ->
  cached _initialized_pp_mm _pp_mm_spline pp_mm_table o = Some ppmm ->
  returned (Halo.power_mm k) o =
  Ok (Halo.linear_power o k * value_of o hm k * value_of o hm k +
      value_of o ppmm k).
Proof.
  unfold cached. intros E1 E2. now rewrite power_mm_value, E1, E2.
Qed.

(** What [HaloExclusion.power_gg] returns, from the object it is called
    on. *)
Lemma exclusion_power_gg_value k o hm ppmm hg pp :
  cached _initialized_h_m _h_m_spline h_m_table o = Some hm ->
  cached _initialized_pp_mm _pp_mm_spline pp_mm_table o = Some ppmm ->
  cached _initialized_h_g _h_g_spline exclusion_h_g_table o = Some hg ->
  cached _initialized_pp_gg _pp_gg_spline pp_gg_table o = Some pp ->
  returned (HaloExclusion.power_gg k) o =
  Ok ((Halo.linear_power o k * value_of o hm k * value_of o hm k +
       value_of o ppmm k) * value_of o hg k * value_of o hg k +
      value_of o pp k).
Proof.
  intros E1 E2 E3 E4.
  destruct (exclusion_gg_ready_splines o) as (S1 & S2 & S3 & S4).
  rewrite E1 in S1. rewrite E2 in S2. rewrite E3 in S3. rewrite E4 in S4.
  unfold returned. rewrite exclusion_power_gg_run.
  assert (E : Halo.power_mm k (exclusion_gg_ready o) =
              (Ok (Halo.linear_power o k * value_of o hm k * value_of o hm k +
                   value_of o ppmm k), mm_ready (exclusion_gg_ready o))).
  { rewrite power_mm_run. unfold Halo._h_m, Halo._pp_mm. rewrite reads, S1, S2.
    now rewrite !(proj1 (proj1 (exclusion_ready_reads o k _))),
      (proj2 (proj1 (exclusion_ready_reads o k hm))). }
  rewrite (bind_ok _ _ _ _ _ E). unfold Halo._h_g, Halo._pp_gg.
  rewrite reads, S3, S4. cbn [fst].
  now rewrite !(proj1 (proj1 (exclusion_ready_reads o k _))).
Qed.

(** What [HaloExclusion.power_gm] returns, from the object it is called
    on. *)
Lemma exclusion_power_gm_value k o hm ppmm hg pp :
  cached _initialized_h_m _h_m_spline h_m_table o = Some hm ->
  cached _initialized_pp_mm _pp_mm_spline pp_mm_table o = Some ppmm ->
  cached _initialized_h_g _h_g_spline exclusion_h_g_table o = Some hg ->
  cached _initialized_pp_gg _pp_gm_spline pp_gm_table o = Some pp ->
  returned (HaloExclusion.power_gm k) o =
  Ok ((Halo.linear_power o k * value_of o hm k * value_of o hm k +
       value_of o ppmm k) * value_of o hg k * value_of o hm k +
      value_of o pp k).
Proof.
  intros E1 E2 E3 E4.
  destruct (exclusion_gm_ready_splines o) as (S1 & S2 & S3 & S4).
  rewrite E1 in S1. rewrite E2 in S2. rewrite E3 in S3. rewrite E4 in S4.
  unfold returned. rewrite exclusion_power_gm_run.
  assert (E : Halo.power_mm k (exclusion_gm_ready o) =
              (Ok (Halo.linear_power o k * value_of o hm k * value_of o hm k +
                   value_of o ppmm k), mm_ready (exclusion_gm_ready o))).
  { rewrite power_mm_run. unfold Halo._h_m, Halo._pp_mm. rewrite reads, S1, S2.
    now rewrite !(proj1 (proj2 (exclusion_ready_reads o k _))),
      (proj2 (proj2 (exclusion_ready_reads o k hm))). }
  rewrite (bind_ok _ _ _ _ _ E). unfold Halo._h_g, Halo._h_m, Halo._pp_gm.
  rewrite reads, S3, S1, S4. cbn [fst].
  now rewrite !(proj1 (proj2 (exclusion_ready_reads o k _))).
Qed.

(** At k R = pi/2 the window of [HaloExclusion] lies below the Fourier
    transform of a top-hat window, whenever the cosine integral there is at
    most 1/2 (it is 0.472). *)
Lemma mass_window_below_top_hat o m :
  snd (sici (PI / 2)) <= 1 / 2 ->
  let R := 2 * Halo.virial_radius o m in
  let ln_k := ln (PI / 2 / R) in
  exp ln_k * R = PI / 2 /\
  HaloExclusion._mass_window o m ln_k < top_hat_transform (exp ln_k * R).
Proof.
  intros Ci R0 ln_k.
  assert (HR : 0 < R0).
  { unfold R0, Halo.virial_radius.
    pose proof (exp_pos (spline_call (_ln_r_v_spline o) (ln m))). lra. }
  pose proof PI2_3_2 as L. pose proof PI_4 as U.
  assert (E : exp ln_k * R0 = PI / 2).
  { unfold ln_k. rewrite exp_ln by (apply Rdiv_lt_0_compat; lra).
    field. lra. }
  split; [exact E|].
  unfold HaloExclusion._mass_window. cbv zeta. fold R0. rewrite E.
  unfold top_hat_transform. rewrite sin_PI2, cos_PI2.
  assert (Hx : 3 / 2 < PI / 2 <= 2) by lra.
  revert Ci Hx. set (c := snd (sici (PI / 2))). clearbody c.
  set (x := PI / 2). clearbody x. clear. intros Ci Hx.
  assert (P3 : 0 < x ^ 3) by (apply pow_lt; lra).
  apply Rmult_lt_reg_r with (3 * x * x ^ 3); [nra|].
  replace ((x * 0 + x * x * x * c + (2 - x * x) * 1) / (3 * x) * (3 * x * x ^ 3))
    with ((x * x * x * c + 2 - x * x) * x ^ 3) by (field; lra).
  replace (3 * (1 - x * 0) / x ^ 3 * (3 * x * x ^ 3)) with (9 * x)
    by (field; lra).
  assert (X2 : 9 / 4 < x * x <= 4) by nra.
  assert (X3 : 0 < x * x * x) by nra.
  assert (Q : x * x * x * c <= x * x * x / 2).
  { pose proof (Rmult_le_compat_l (x * x * x) c (1 / 2) (Rlt_le _ _ X3) Ci). lra. }
  assert (B : x * x * x * c + 2 - x * x <= 2) by nra.
  assert (B2 : (x * x * x * c + 2 - x * x) * (x * x) <= 8).
  { pose proof (Rmult_le_compat_r (x * x) _ 2 ltac:(lra) B). lra. }
  replace (x ^ 3) with (x * x * x) by ring.
  nra.
Qed.

(** C9 (as the code has it).  On a [HaloExclusion] object [power_mm] is
    [Halo.power_mm].  [power_gg] and [power_gm] return the combination
    whose 2-halo factor is what that [power_mm] returns on the object, not
    the linear spectrum, with h_g read from the spline the object has if
    its flag is set and otherwise from the table fitted on the object with
    the integrand of [HaloExclusion], the table that [_initialize_h_g] fits
    on such an object; pp_gm is read under the flag of pp_gg.  That
    integrand is the one of [Halo] multiplied by
    [_mass_window] at R = 2 virial_radius(M).  The window is not the
    Fourier transform of a top-hat: at k R = pi/2 it lies below it, the
    cosine integral being at most 1/2 there. *)
Theorem C9_exclusion_uses_power_mm_and_window (o : HaloObj) (k : R) :
  cls o = HaloExclusion_cls ->
  terms_present o -> present _initialized_pp_gg _pp_gm_spline o ->
  power_mm k o = Halo.power_mm k o /\
  (exists hm ppmm hg pgg pgm,
     cached _initialized_h_m _h_m_spline h_m_table o = Some hm /\
     cached _initialized_pp_mm _pp_mm_spline pp_mm_table o = Some ppmm /\
     cached _initialized_h_g _h_g_spline exclusion_h_g_table o = Some hg /\
     cached _initialized_pp_gg _pp_gg_spline pp_gg_table o = Some pgg /\
     cached _initialized_pp_gg _pp_gm_spline pp_gm_table o = Some pgm /\
     let pmm :=
       Halo.linear_power o k * value_of o hm k * value_of o hm k +
       value_of o ppmm k in
     returned (power_mm k) o = Ok pmm /\
     returned (power_gg k) o =
       Ok (pmm * value_of o hg k * value_of o hg k + value_of o pgg k) /\
     returned (power_gm k) o =
       Ok (pmm * value_of o hg k * value_of o hm k + value_of o pgm k) /\
     returned (power_mg k) o = returned (power_gm k) o) /\
  _h_g_spline (after _initialize_h_g o) = Some (exclusion_h_g_table o) /\
  (forall ln_nu ln_k,
     _h_g_integrand o ln_nu ln_k =
     HaloExclusion._mass_window o (mass_function.mass (mass o) (exp ln_nu)) ln_k *
     Halo._h_g_integrand o ln_nu ln_k) /\
  (snd (sici (PI / 2)) <= 1 / 2 ->
   forall m,
     let R := 2 * Halo.virial_radius o m in
     let ln_k := ln (PI / 2 / R) in
     exp ln_k * R = PI / 2 /\
     HaloExclusion._mass_window o m ln_k < top_hat_transform (exp ln_k * R)).
Proof.
  intros C (P1 & P2 & P3 & P4 & P5) P6.
  split; [unfold power_mm; now rewrite by_class_run, C|].
  split; [|split; [|split]].
  - destruct (cached_present _ _ h_m_table o P1) as (hm & E1).
    destruct (cached_present _ _ pp_mm_table o P3) as (ppmm & E2).
    destruct (cached_present _ _ exclusion_h_g_table o P2) as (hg & E3).
    destruct (cached_present _ _ pp_gg_table o P5) as (pgg & E4).
    destruct (cached_present _ _ pp_gm_table o P6) as (pgm & E5).
    exists hm, ppmm, hg, pgg, pgm.
    split; [exact E1|]. split; [exact E2|]. split; [exact E3|].
    split; [exact E4|]. split; [exact E5|]. cbv zeta.
    unfold power_mm, power_gg, power_gm, power_mg, HaloExclusion.power_mg,
      returned.
    rewrite !by_class_run, C.
    split; [exact (power_mm_cached k o hm ppmm E1 E2)|].
    split; [exact (exclusion_power_gg_value k o hm ppmm hg pgg E1 E2 E3 E4)|].
    split; [exact (exclusion_power_gm_value k o hm ppmm hg pgm E1 E2 E3 E5)|].
    reflexivity.
  - unfold _initialize_h_g, after. rewrite by_class_run, C. reflexivity.
  - intros ln_nu ln_k. unfold _h_g_integrand. rewrite C.
    unfold HaloExclusion._h_g_integrand, Halo._h_g_integrand, Rdiv. ring.
  - intros Ci m. exact (mass_window_below_top_hat o m Ci).
Qed.

End Exclusion.

(** ** Errors that are not raised *)

Section Errors.
Context {scipy : SciPy} {repo : Collaborators}.

Lemma constructed_present o : constructed o -> terms_present o /\ pp_mm_fresh o.
Proof.
  intros [F1 F2 F3 F4 F5 _ _ _ _ _ _ _ _ _ _ _ _ _].
  unfold terms_present, present, pp_mm_fresh. repeat split; intro; congruence.
Qed.

(** C4 (as the code has it).  The construction of each term stores at every
    grid point the value the quadrature returns and marks the term valid; it
    returns normally and tests nothing, so a quadrature that exhausts
    [divmax] without meeting a tolerance (it then carries the accuracy
    warning and returns its latest estimate: with no refinement allowed, the
    trapezoid estimate) contributes its value like any other, and
    [power_mm] returns a value. *)
Theorem C4_unconverged_quadrature_is_stored (o : HaloObj) (k : R) :
  terms_present o ->
  (returned Halo._initialize_h_m o = Ok tt /\
   returned Halo._initialize_pp_mm o = Ok tt /\
   returned Halo._initialize_h_g o = Ok tt /\
   returned HaloExclusion._initialize_h_g o = Ok tt /\
   returned Halo._initialize_pp_gm o = Ok tt /\
   returned Halo._initialize_pp_gg o = Ok tt /\
   returned Halo._calculate_n_bar o = Ok tt) /\
  (_initialized_h_m (after Halo._initialize_h_m o) = true /\
   _h_m_spline (after Halo._initialize_h_m o) =
   Some (InterpolatedUnivariateSpline (_ln_k_array o)
           (map (fun ln_k =>
                   integrate.value
                     (Halo.romberg_run
                        (fun ln_nu => Halo._h_m_integrand o ln_nu ln_k)
                        (ln (mass_function.nu_min (mass o)))
                        (ln (mass_function.nu_max (mass o)))))
              (_ln_k_array o)) 3)) /\
  (forall f a b tol rtol,
     integrate.romberg_run f a b tol rtol 0 =
     {| integrate.value := (b - a) * (0.5 * (f a + f b));
        integrate.accuracy_warning := true |}) /\
  (exists v, returned (Halo.power_mm k) o = Ok v).
Proof.
  intros (P1 & _ & P3 & _).
  split; [repeat split; reflexivity|].
  split; [split; reflexivity|].
  split; [intros; apply romberg_run_depth_0|].
  destruct (power_mm_returns k o P1 P3) as (hm & pp & _ & _ & E).
  unfold returned. rewrite E. eexists. reflexivity.
Qed.

Lemma calculate_n_bar_zero o :
  (forall m, hod.first_moment (local_hod o) m = 0) ->
  n_bar_over_rho_bar (after Halo._calculate_n_bar o) = 0 /\
  n_bar (after Halo._calculate_n_bar o) = 0.
Proof.
  intros Hz.
  assert (E : n_bar_over_rho_bar (after Halo._calculate_n_bar o) = 0).
  { rewrite n_bar_over_rho_bar_value. unfold Halo.romberg, Halo.romberg_run.
    apply romberg_zero. intros x. unfold Halo._nbar_integrand.
    rewrite Hz. unfold Rdiv. ring. }
  split; [exact E|]. rewrite n_bar_value, E. ring.
Qed.

(** C5 (as the code has it).  With an HOD whose first moment vanishes at
    every mass, [_calculate_n_bar] returns normally and leaves
    n_bar_over_rho_bar = 0 and n_bar = 0; so does [set_hod] with such an HOD.
    No error is raised where the density is computed, and the galaxy
    spectrum, whose terms divide by it, is evaluated afterwards and returns
    a value. *)
Theorem C5_zero_hod_gives_zero_n_bar_and_no_error
    (o : HaloObj) (input_hod : hod.HOD) (k : R) :
  (forall m, hod.first_moment (local_hod o) m = 0) ->
  (forall m, hod.first_moment input_hod m = 0) ->
  terms_present o ->
  (returned Halo._calculate_n_bar o = Ok tt /\
   n_bar_over_rho_bar (after Halo._calculate_n_bar o) = 0 /\
   n_bar (after Halo._calculate_n_bar o) = 0) /\
  (returned (Halo.set_hod input_hod) o = Ok tt /\
   n_bar_over_rho_bar (after (Halo.set_hod input_hod) o) = 0 /\
   n_bar (after (Halo.set_hod input_hod) o) = 0) /\
  (exists v, returned (Halo.power_gg k) (after (Halo.set_hod input_hod) o) = Ok v).
Proof.
  intros Hz Hz' (P1 & P2 & P3 & P4 & P5).
  split; [split; [reflexivity | now apply calculate_n_bar_zero]|].
  set (o' := after (Halo.set_hod input_hod) o).
  destruct (set_hod_n_bar input_hod o) as (N1 & N2). fold o' in N1, N2.
  assert (Hl : local_hod o' = input_hod) by reflexivity.
  destruct (calculate_n_bar_zero o') as (Z1 & Z2);
    [intros m; now rewrite Hl|].
  split; [split; [reflexivity | split; congruence]|].
  destruct (set_hod_flags input_hod o) as (F1 & F2 & F3 & F4 & F5).
  fold o' in F1, F2, F3, F4, F5.
  assert (Q2 : present _initialized_h_g _h_g_spline o') by (intro; congruence).
  assert (Q5 : present _initialized_pp_gg _pp_gg_spline o') by (intro; congruence).
  destruct (power_gg_returns k o' Q2 Q5) as (hg & pp & _ & _ & E).
  unfold returned. rewrite E. eexists. reflexivity.
Qed.

End Errors.

(** ** Reachable objects *)

Section Reachable.
Context {scipy : SciPy} {repo : Collaborators}.

Lemma fit_tail_frame {A} (p : HaloObj -> A) o :
  (forall v x, p (with_fit v x) = p x) -> p (after fit_tail o) = p o.
Proof.
  intros Hp. destruct (fit_tail_steps o) as (f & E). rewrite E, Hp.
  unfold after, HaloFit._initialize_halo_fit. rewrite bind_self.
  unfold assign; cbn [snd]. apply Hp.
Qed.

(** What the constructor reads of its arguments. *)
Lemma new_config c z h cs mf hd :
  let o := new c z h cs mf hd in
  let a := Halo.allocated c z h cs mf hd in
  cls o = c /\ mass o = mass a /\ local_hod o = local_hod a /\
  cosmo o = cosmo a /\ _redshift o = z /\ _ln_k_array o = _ln_k_array a.
Proof.
  cbv zeta. rewrite new_unfold.
  destruct c; cbv iota; repeat split;
    rewrite ?fit_tail_frame by reflexivity; rewrite init_tail_steps; frame;
    reflexivity.
Qed.

(** A new [HaloFit] object has the attributes of the fit, its flag unset. *)
Lemma new_fit z h cs mf hd :
  exists attrs,
    fit (new HaloFit_cls z h cs mf hd) = Some attrs /\
    _initialized_sigma_spline attrs = false.
Proof.
  rewrite new_unfold. cbv iota.
  set (o := after init_tail _).
  destruct (halo_fit_assigned o) as (attrs & E).
  unfold fit_tail. rewrite after_seq by reflexivity.
  unfold after at 1, bind, attribute. rewrite E.
  eexists. split; reflexivity.
Qed.

Lemma mm_ready_tables o :
  pp_mm_table (mm_ready o) = pp_mm_table o /\ h_m_table (mm_ready o) = h_m_table o.
Proof. split; guards; reflexivity. Qed.

(** [power_mm] keeps the valid pp_mm cache equal to its reconstruction. *)
Lemma power_mm_fresh k o :
  pp_mm_fresh o -> pp_mm_fresh (after (Halo.power_mm k) o).
Proof.
  intros Fr _. rewrite after_power_mm, mm_ready_pp_mm_spline.
  rewrite (proj1 (mm_ready_tables o)).
  destruct (_initialized_pp_mm o) eqn:F; [now apply Fr | reflexivity].
Qed.

Lemma power_mm_present k o :
  terms_present o -> terms_present (after (Halo.power_mm k) o).
Proof.
  intros (P1 & P2 & P3 & P4 & P5). rewrite after_power_mm.
  unfold terms_present, present in *. repeat split; guards; auto; discriminate.
Qed.

End Reachable.

(** ** The small configuration *)

Section Examples.
#[local] Existing Instance demo.scipy.
#[local] Existing Instance demo.repo.

Lemma demo_constructed c : constructed (demo.halo c).
Proof. apply new_constructed. Qed.

Lemma demo_config c :
  cls (demo.halo c) = c /\ mass (demo.halo c) = demo.mass_func /\
  local_hod (demo.halo c) = demo.zheng /\ cosmo (demo.halo c) = demo.cosmo.
Proof.
  destruct (new_config c 0 None None None None) as (C & Hm & Hh & Hc & _).
  unfold demo.halo. rewrite C, Hm, Hh, Hc. repeat split; reflexivity.
Qed.

Lemma demo_present c :
  terms_present (demo.halo c) /\ pp_mm_fresh (demo.halo c).
Proof. apply constructed_present, demo_constructed. Qed.

(** In this configuration the integrand of h_m is a multiple of the
    squared logarithm of the peak height. *)
Lemma demo_h_m_integrand o ln_k :
  mass o = demo.mass_func ->
  forall ln_nu,
  Halo._h_m_integrand o ln_nu ln_k = Halo.y o ln_k 1 * (ln_nu * ln_nu).
Proof.
  intros Hm ln_nu. unfold Halo._h_m_integrand. rewrite Hm.
  cbn [mass_function.mass mass_function.f_nu mass_function.bias_nu demo.mass_func].
  change (Halo.y o ln_k (exp ln_nu)) with (Halo.y o ln_k 1).
  rewrite ln_exp. pose proof (exp_pos ln_nu). field. lra.
Qed.

(** C4 (as stated) fails: at k = 1 the quadrature for h_m exhausts divmax
    without meeting the tolerance, and the construction of h_m and
    [power_mm] return normally all the same. *)
Lemma C4_divmax_exhausted_and_no_error :
  let o := demo.halo Halo_cls in
  integrate.accuracy_warning
    (Halo.romberg_run (fun ln_nu => Halo._h_m_integrand o ln_nu 0)
       (ln (mass_function.nu_min (mass o)))
       (ln (mass_function.nu_max (mass o)))) = true /\
  returned Halo._initialize_h_m o = Ok tt /\
  exists v, returned (Halo.power_mm 1) o = Ok v.
Proof.
  intro o.
  destruct (demo_config Halo_cls) as (_ & Hm & _).
  destruct (demo_present Halo_cls) as ((P1 & _ & P3 & _) & _).
  fold o in Hm, P1, P3. clearbody o.
  split; [|split; [reflexivity|]].
  - unfold Halo.romberg_run.
    rewrite (romberg_run_ext _ (fun x => Halo.y o 0 1 * (x * x)))
      by apply (demo_h_m_integrand o 0 Hm).
    rewrite Hm.
    cbn [mass_function.nu_min mass_function.nu_max demo.mass_func
         default_precision demo.repo defaults.global_precision
         defaults.halo_precision defaults.divmax].
    rewrite ln_1, ln_exp, romberg_run_quadratic by lra. reflexivity.
  - destruct (power_mm_returns 1 o P1 P3) as (hm & pp & _ & _ & E).
    unfold returned. rewrite E. eexists. reflexivity.
Qed.

Lemma C4_witness :
  terms_present (demo.halo Halo_cls) /\
  exists v, returned (Halo.power_mm 1) (demo.halo Halo_cls) = Ok v.
Proof.
  assert (P : terms_present (demo.halo Halo_cls)) by apply demo_present.
  split; [exact P|].
  exact (proj2 (proj2 (proj2
           (C4_unconverged_quadrature_is_stored (demo.halo Halo_cls) 1 P)))).
Defined.

(** C1 (as stated) fails: after [power_mm] the flag of pp_mm is set,
    [set_hod] clears it, and the next [power_mm] constructs pp_mm again. *)
Lemma C1_set_hod_clears_pp_mm :
  let o := after (Halo.power_mm 1) (demo.halo Halo_cls) in
  let o' := after (Halo.set_hod demo.threshold_hod) o in
  _initialized_pp_mm o = true /\
  _initialized_pp_mm o' = false /\
  built (after (Halo.power_mm 1) o') = built o' ++ [PP_MM].
Proof.
  intros o o'.
  assert (F : _initialized_h_m o = true /\ _initialized_pp_mm o = true).
  { subst o. rewrite after_power_mm. apply mm_ready_flags. }
  destruct F as (F1 & F3).
  destruct (set_hod_flags demo.threshold_hod o) as (G1 & _ & G3 & _).
  fold o' in G1, G3. clearbody o'. clearbody o.
  split; [exact F3|]. split; [exact G3|].
  rewrite after_power_mm, mm_ready_built, G1, F1, G3. reflexivity.
Qed.

Lemma C1_witness :
  let o := after (Halo.power_mm 1) (demo.halo Halo_cls) in
  pp_mm_fresh o /\
  returned (power_mm 1) (after (Halo.set_hod demo.threshold_hod) o) =
  returned (power_mm 1) o.
Proof.
  intro o.
  assert (P : pp_mm_fresh o) by apply power_mm_fresh, demo_present.
  split; [exact P|].
  exact (proj2 (proj2 (proj2 (proj2 (proj2 (proj2 (proj2
           (C1_set_hod_keeps_h_m_and_rebuilds_pp_mm o demo.threshold_hod 1 P)))))))).
Defined.

(** C5 (as stated) fails: for an HOD with no galaxies the mean density is
    computed as 0 and [_calculate_n_bar] returns normally. *)
Lemma C5_zero_density_and_no_error :
  let o := new Halo_cls 0 (Some demo.empty_hod) None None None in
  returned Halo._calculate_n_bar o = Ok tt /\
  n_bar (after Halo._calculate_n_bar o) = 0 /\ n_bar o = 0.
Proof.
  intro o.
  destruct (new_config Halo_cls 0 (Some demo.empty_hod) None None None)
    as (_ & _ & Hh & _).
  pose proof (new_constructed Halo_cls 0 (Some demo.empty_hod) None None None)
    as C.
  fold o in Hh, C. clearbody o.
  assert (Z : n_bar (after Halo._calculate_n_bar o) = 0).
  { apply calculate_n_bar_zero. intros m. rewrite Hh. reflexivity. }
  split; [reflexivity|]. split; [exact Z|].
  now rewrite (new_n_bar _ C).
Qed.

Lemma C5_witness :
  let o := demo.halo Halo_cls in
  let o0 := after (Halo.set_hod demo.empty_hod) o in
  ((forall m, hod.first_moment (local_hod o0) m = 0) /\
   (forall m, hod.first_moment demo.empty_hod m = 0) /\
   terms_present o0) /\
  n_bar (after Halo._calculate_n_bar o0) = 0 /\
  n_bar (after (Halo.set_hod demo.empty_hod) o0) = 0.
Proof.
  intros o o0.
  assert (H1 : forall m, hod.first_moment (local_hod o0) m = 0)
    by (intro; reflexivity).
  assert (H2 : forall m, hod.first_moment demo.empty_hod m = 0)
    by (intro; reflexivity).
  assert (P : terms_present o0).
  { destruct (set_hod_flags demo.empty_hod o) as (F1 & F2 & F3 & F4 & F5).
    destruct (demo_constructed Halo_cls) as [G1 _ _ _ _ _ _ _ _ _ _ _ _ _ _ _ _ _].
    fold o in G1. fold o0 in F1, F2, F3, F4, F5.
    unfold terms_present, present. repeat split; intro; congruence. }
  split; [now repeat split|].
  destruct (C5_zero_hod_gives_zero_n_bar_and_no_error o0 demo.empty_hod 1 H1 H2 P)
    as ((_ & _ & A) & (_ & _ & B) & _).
  split; [exact A | exact B].
Defined.

(** The HOD of this configuration has N1 = 0.5 and N2 = 2 at every mass. *)
Lemma C8_witness :
  let o := demo.halo Halo_cls in
  let y := Halo.y o 0 (mass_function.mass (mass o) (exp 0)) in
  let f := mass_function.f_nu (mass o) (exp 0) in
  (hod.first_moment (local_hod o) (mass_function.mass (mass o) (exp 0)) < 1 /\
   1 <= hod.second_moment (local_hod o) (mass_function.mass (mass o) (exp 0))) /\
  Halo._pp_gm_integrand o 0 0 =
    exp 0 * f *
    hod.first_moment (local_hod o) (mass_function.mass (mass o) (exp 0)) * y /\
  Halo._pp_gg_integrand o 0 0 =
    exp 0 * f *
    hod.second_moment (local_hod o) (mass_function.mass (mass o) (exp 0)) *
    (y * y) / (mass_function.mass (mass o) (exp 0) * n_bar o * n_bar o).
Proof.
  intros o y f.
  assert (H1 : hod.first_moment (local_hod o)
                 (mass_function.mass (mass o) (exp 0)) < 1).
  { unfold o. rewrite (proj1 (proj2 (proj2 (demo_config Halo_cls)))).
    cbn [hod.first_moment demo.zheng]. lra. }
  assert (H2 : 1 <= hod.second_moment (local_hod o)
                      (mass_function.mass (mass o) (exp 0))).
  { unfold o. rewrite (proj1 (proj2 (proj2 (demo_config Halo_cls)))).
    cbn [hod.second_moment demo.zheng]. lra. }
  split; [now split|].
  destruct (C8_poisson_terms_power_of_y o 0 0) as (A & _ & _ & D).
  split; [exact (A H1) | exact (D H2)].
Defined.

End Examples.

(** ** Repeated evaluation *)

Section Repeated.
Context {scipy : SciPy} {repo : Collaborators}.

Lemma gm_ready_flags o :
  _initialized_h_m (gm_ready o) = true /\ _initialized_h_g (gm_ready o) = true /\
  _initialized_pp_gm (gm_ready o) = true.
Proof. repeat split; guards; congruence. Qed.

Lemma gg_ready_flags o :
  _initialized_h_g (gg_ready o) = true /\ _initialized_pp_gg (gg_ready o) = true.
Proof. split; guards; congruence. Qed.

Lemma gm_ready_valid o :
  _initialized_h_m o = true -> _initialized_h_g o = true ->
  _initialized_pp_gm o = true -> gm_ready o = o.
Proof. intros F1 F2 F3. unfold gm_ready, ensure. now rewrite F1, F2, F3. Qed.

Lemma gg_ready_valid o :
  _initialized_h_g o = true -> _initialized_pp_gg o = true -> gg_ready o = o.
Proof. intros F1 F2. unfold gg_ready, ensure. now rewrite F1, F2. Qed.

Lemma mm_ready_idempotent o : mm_ready (mm_ready o) = mm_ready o.
Proof. apply mm_ready_valid; apply mm_ready_flags. Qed.

Lemma gm_ready_idempotent o : gm_ready (gm_ready o) = gm_ready o.
Proof. apply gm_ready_valid; apply gm_ready_flags. Qed.

Lemma gg_ready_idempotent o : gg_ready (gg_ready o) = gg_ready o.
Proof. apply gg_ready_valid; apply gg_ready_flags. Qed.

(** X1.  The three spectra of [Halo] are cached: on an object that has
    evaluated a spectrum at some wavenumber, evaluating it at [k] returns
    what it would have returned on the object as it was before, and leaves
    the object as the first evaluation left it (it constructs nothing). *)
Theorem X1_spectra_are_cached (o : HaloObj) (k k' : R) :
  (Halo.power_mm k (after (Halo.power_mm k') o) =
     (returned (Halo.power_mm k) o, after (Halo.power_mm k') o)) /\
  (Halo.power_gm k (after (Halo.power_gm k') o) =
     (returned (Halo.power_gm k) o, after (Halo.power_gm k') o)) /\
  (Halo.power_gg k (after (Halo.power_gg k') o) =
     (returned (Halo.power_gg k) o, after (Halo.power_gg k') o)).
Proof.
  assert (S : forall A (p : Result A * HaloObj), p = (fst p, snd p))
    by (intros A [a b]; reflexivity).
  repeat split.
  - rewrite after_power_mm. unfold returned.
    rewrite (power_mm_run k (mm_ready o)), (power_mm_run k o), mm_ready_idempotent.
    rewrite (S _ (_ (mm_ready o))) at 1. f_equal.
    unfold Halo._h_m, Halo._pp_mm. apply after_reads.
  - rewrite after_power_gm. unfold returned.
    rewrite (power_gm_run k (gm_ready o)), (power_gm_run k o), gm_ready_idempotent.
    rewrite (S _ (_ (gm_ready o))) at 1. f_equal.
    unfold Halo._h_g, Halo._h_m, Halo._pp_gm. apply after_reads.
  - rewrite after_power_gg. unfold returned.
    rewrite (power_gg_run k (gg_ready o)), (power_gg_run k o), gg_ready_idempotent.
    rewrite (S _ (_ (gg_ready o))) at 1. f_equal.
    unfold Halo._h_g, Halo._pp_gg. apply after_reads.
Qed.

End Repeated.

(** ** Changes of cosmology and redshift *)

Section Cosmology.
Context {scipy : SciPy} {repo : Collaborators}.

Lemma set_cosmology_steps d z o :
  let z' := match z with None => _redshift o | Some z => z end in
  let cosmo' := cosmology_SingleEpoch z' (Some d) in
  1 + z' <> 0 ->
  after (Halo.set_cosmology d z) o =
  after init_tail
    (after (assign (with_mass (set_cosmology_object (mass o) cosmo')))
    (after (assign (with_c0 (dict_c0 (halo_dict o) / (1 + z'))))
       (cosmology_assigned d z' o))).
Proof.
  intros z' cosmo' Hz. unfold Halo.set_cosmology, after at 1. rewrite bind_self.
  fold z'. fold cosmo'.
  destruct (Req_dec_T (1 + z') 0) as [E|_]; [contradiction|].
  rewrite (bind_after _ _ _ tt) by reflexivity.
  rewrite (bind_after _ _ _ tt) by reflexivity.
  rewrite (bind_after _ _ _ tt) by reflexivity.
  rewrite (bind_after _ _ _ tt) by reflexivity.
  rewrite (bind_after _ _ _ tt) by reflexivity.
  rewrite (bind_after _ _ _ tt) by reflexivity.
  rewrite (bind_after _ _ _ tt) by reflexivity.
  rewrite (bind_after _ _ _ tt) by reflexivity.
  reflexivity.
Qed.

Lemma set_cosmology_returns d z o :
  1 + match z with None => _redshift o | Some z => z end <> 0 ->
  returned (Halo.set_cosmology d z) o = Ok tt.
Proof.
  intros Hz. unfold returned, Halo.set_cosmology. rewrite bind_self.
  destruct (Req_dec_T _ 0) as [E|_]; [contradiction | reflexivity].
Qed.

(** At redshift -1 the method raises and leaves the object as it is when
    the division is reached. *)
Lemma set_cosmology_raises d z o :
  let z' := match z with None => _redshift o | Some z => z end in
  1 + z' = 0 ->
  Halo.set_cosmology d z o = (Raise ZeroDivisionError, cosmology_assigned d z' o).
Proof.
  intros z' Hz. unfold Halo.set_cosmology. rewrite bind_self. fold z'.
  destruct (Req_dec_T (1 + z') 0) as [_|E]; [reflexivity | contradiction].
Qed.

(** What the tail of the constructor leaves is what a recomputation on the
    object it leaves gives. *)
Lemma init_tail_current a :
  let o := after init_tail a in
  (n_bar_over_rho_bar o = n_bar_over_rho_bar (after Halo._calculate_n_bar o) /\
   n_bar o = n_bar (after Halo._calculate_n_bar o)) /\
  (_ln_r_v_spline o = _ln_r_v_spline (after Halo._initialize_halo_splines o) /\
   _ln_concen_spline o = _ln_concen_spline (after Halo._initialize_halo_splines o) /\
   _ln_halo_norm_spline o =
     _ln_halo_norm_spline (after Halo._initialize_halo_splines o)).
Proof.
  cbv zeta.
  destruct (init_tail_n_bar a) as (N1 & N2).
  destruct (init_tail_geometry a) as (G1 & G2 & G3).
  assert (Hm : mass (after init_tail a) = mass a)
    by (rewrite init_tail_steps; now frame).
  assert (Hh : local_hod (after init_tail a) = local_hod a)
    by (rewrite init_tail_steps; now frame).
  assert (Hr : rho_bar (after init_tail a) = rho_bar a)
    by (rewrite init_tail_steps; now frame).
  assert (Hc : c0 (after init_tail a) = c0 a)
    by (rewrite init_tail_steps; now frame).
  assert (Hb : beta (after init_tail a) = beta a)
    by (rewrite init_tail_steps; now frame).
  assert (Ha : alpha (after init_tail a) = alpha a)
    by (rewrite init_tail_steps; now frame).
  assert (Hd : delta_v (after init_tail a) = delta_v a)
    by (rewrite init_tail_steps; now frame).
  destruct (calculate_n_bar_reads a (after init_tail a) Hm Hh Hr) as (E1 & E2).
  destruct (initialize_halo_splines_reads (after Halo._calculate_n_bar a)
              (after init_tail a) Hm Hc Hb Ha Hr Hd) as (E3 & E4 & E5).
  split; [split | split; [|split]].
  - rewrite E1. exact N1.
  - rewrite E2. exact N2.
  - rewrite E3. exact G1.
  - rewrite E4. exact G2.
  - rewrite E5. exact G3.
Qed.

(** What [set_cosmology] assigns and what it keeps, whether it returns or
    raises. *)
Lemma set_cosmology_fields d z o :
  let z' := match z with None => _redshift o | Some z => z end in
  let o' := after (Halo.set_cosmology d z) o in
  (_redshift o' = z' /\ cosmo o' = cosmology_SingleEpoch z' (Some d) /\
   cosmo_dict o' = Some d /\
   delta_v o' = cosmology.delta_v (cosmology_SingleEpoch z' (Some d)) /\
   rho_bar o' = cosmology.rho_bar (cosmology_SingleEpoch z' (Some d)) /\
   _h o' = cosmology._h (cosmology_SingleEpoch z' (Some d))) /\
  (beta o' = beta o /\ alpha o' = alpha o /\ local_hod o' = local_hod o /\
   halo_dict o' = halo_dict o /\ fit o' = fit o /\ cls o' = cls o /\
   _ln_k_array o' = _ln_k_array o) /\
  (_h_m_spline o' = _h_m_spline o /\ _h_g_spline o' = _h_g_spline o /\
   _pp_mm_spline o' = _pp_mm_spline o /\ _pp_gm_spline o' = _pp_gm_spline o /\
   _pp_gg_spline o' = _pp_gg_spline o).
Proof.
  cbv zeta.
  destruct (Req_dec_T
              (1 + match z with None => _redshift o | Some z => z end) 0)
    as [E|E].
  - unfold after. rewrite (set_cosmology_raises d z o E). cbn [snd].
    repeat split; reflexivity.
  - rewrite (set_cosmology_steps d z o E). rewrite init_tail_steps.
    repeat split; frame; reflexivity.
Qed.

(** What it assigns besides when it returns. *)
Lemma set_cosmology_fields_returned d z o :
  let z' := match z with None => _redshift o | Some z => z end in
  let o' := after (Halo.set_cosmology d z) o in
  1 + z' <> 0 ->
  c0 o' = dict_c0 (halo_dict o) / (1 + z') /\
  mass o' = set_cosmology_object (mass o) (cosmology_SingleEpoch z' (Some d)).
Proof.
  cbv zeta. intros E.
  rewrite (set_cosmology_steps d z o E). rewrite init_tail_steps.
  split; frame; reflexivity.
Qed.

(** What it leaves alone when it raises. *)
Lemma set_cosmology_fields_raised d z o :
  let z' := match z with None => _redshift o | Some z => z end in
  let o' := after (Halo.set_cosmology d z) o in
  1 + z' = 0 ->
  (c0 o' = c0 o /\ mass o' = mass o) /\
  (_initialized_h_m o' = _initialized_h_m o /\
   _initialized_h_g o' = _initialized_h_g o /\
   _initialized_pp_mm o' = _initialized_pp_mm o /\
   _initialized_pp_gm o' = _initialized_pp_gm o /\
   _initialized_pp_gg o' = _initialized_pp_gg o) /\
  built o' = built o /\
  (n_bar_over_rho_bar o' = n_bar_over_rho_bar o /\ n_bar o' = n_bar o) /\
  (_ln_r_v_spline o' = _ln_r_v_spline o /\
   _ln_concen_spline o' = _ln_concen_spline o /\
   _ln_halo_norm_spline o' = _ln_halo_norm_spline o).
Proof.
  cbv zeta. intros E. unfold after. rewrite (set_cosmology_raises d z o E).
  cbn [snd]. repeat split; reflexivity.
Qed.

Lemma set_cosmology_built d z o :
  1 + match z with None => _redshift o | Some z => z end <> 0 ->
  built (after (Halo.set_cosmology d z) o) = built o ++ [N_BAR; GEOMETRY].
Proof.
  intros E. rewrite (set_cosmology_steps d z o E). rewrite init_tail_built.
  now frame.
Qed.

Lemma set_cosmology_flags d z o :
  let o' := after (Halo.set_cosmology d z) o in
  1 + match z with None => _redshift o | Some z => z end <> 0 ->
  _initialized_h_m o' = false /\ _initialized_h_g o' = false /\
  _initialized_pp_mm o' = false /\ _initialized_pp_gm o' = false /\
  _initialized_pp_gg o' = false.
Proof.
  cbv zeta. intros E. rewrite (set_cosmology_steps d z o E).
  apply init_tail_flags.
Qed.

(** X2.  [set_cosmology] records the new cosmology and redshift (the
    present redshift when none is given) and the background they give, and
    leaves the five term splines as they were.  At a redshift other than -1
    it returns: it takes the concentration normalisation from the halo
    dictionary the object holds, recomputes the mean galaxy density and the
    three geometry splines at once, and clears the five validity flags.  At
    redshift -1 the division by [1.0 + redshift] raises ZeroDivisionError:
    the normalisation, the mass function, the density, the geometry, the
    flags and the history stay as they were, beside the cosmology already
    recorded. *)
Theorem X2_set_cosmology_rebuilds_density_and_geometry
    (o : HaloObj) (cosmo_dict' : dict) (redshift : option R) :
  let z := match redshift with None => _redshift o | Some z => z end in
  let o' := after (Halo.set_cosmology cosmo_dict' redshift) o in
  (_redshift o' = z /\
   cosmo o' = cosmology_SingleEpoch z (Some cosmo_dict') /\
   rho_bar o' = cosmology.rho_bar (cosmo o') /\
   delta_v o' = cosmology.delta_v (cosmo o')) /\
  (_h_m_spline o' = _h_m_spline o /\ _h_g_spline o' = _h_g_spline o /\
   _pp_mm_spline o' = _pp_mm_spline o /\ _pp_gm_spline o' = _pp_gm_spline o /\
   _pp_gg_spline o' = _pp_gg_spline o) /\
  (1 + z <> 0 ->
   returned (Halo.set_cosmology cosmo_dict' redshift) o = Ok tt /\
   (c0 o' = dict_c0 (halo_dict o) / (1 + z) /\
    mass o' = set_cosmology_object (mass o) (cosmo o')) /\
   (_initialized_h_m o' = false /\ _initialized_h_g o' = false /\
    _initialized_pp_mm o' = false /\ _initialized_pp_gm o' = false /\
    _initialized_pp_gg o' = false) /\
   built o' = built o ++ [N_BAR; GEOMETRY] /\
   (n_bar_over_rho_bar o' = n_bar_over_rho_bar (after Halo._calculate_n_bar o') /\
    n_bar o' = n_bar (after Halo._calculate_n_bar o')) /\
   (_ln_r_v_spline o' = _ln_r_v_spline (after Halo._initialize_halo_splines o') /\
    _ln_concen_spline o' =
      _ln_concen_spline (after Halo._initialize_halo_splines o') /\
    _ln_halo_norm_spline o' =
      _ln_halo_norm_spline (after Halo._initialize_halo_splines o'))) /\
  (1 + z = 0 ->
   returned (Halo.set_cosmology cosmo_dict' redshift) o = Raise ZeroDivisionError /\
   (c0 o' = c0 o /\ mass o' = mass o) /\
   (_initialized_h_m o' = _initialized_h_m o /\
    _initialized_h_g o' = _initialized_h_g o /\
    _initialized_pp_mm o' = _initialized_pp_mm o /\
    _initialized_pp_gm o' = _initialized_pp_gm o /\
    _initialized_pp_gg o' = _initialized_pp_gg o) /\
   built o' = built o /\
   (n_bar_over_rho_bar o' = n_bar_over_rho_bar o /\ n_bar o' = n_bar o) /\
   (_ln_r_v_spline o' = _ln_r_v_spline o /\
    _ln_concen_spline o' = _ln_concen_spline o /\
    _ln_halo_norm_spline o' = _ln_halo_norm_spline o)).
Proof.
  intros z o'.
  destruct (set_cosmology_fields cosmo_dict' redshift o)
    as ((A1 & A2 & _ & A6 & A7 & _) & _ & S).
  fold z in A1, A2, A6, A7. fold o' in A1, A2, A6, A7, S.
  split. { rewrite A2. split; [exact A1|]. split; [reflexivity|]. now split. }
  split; [exact S|].
  split.
  - intros E.
    destruct (set_cosmology_fields_returned cosmo_dict' redshift o E) as (B1 & B2).
    fold z in B1, B2. fold o' in B1, B2.
    split; [exact (set_cosmology_returns cosmo_dict' redshift o E)|].
    split. { rewrite A2. now split. }
    split; [exact (set_cosmology_flags cosmo_dict' redshift o E)|].
    split; [exact (set_cosmology_built cosmo_dict' redshift o E)|].
    unfold o'. rewrite (set_cosmology_steps cosmo_dict' redshift o E).
    apply init_tail_current.
  - intros E.
    split.
    { unfold returned. now rewrite (set_cosmology_raises cosmo_dict' redshift o E). }
    exact (set_cosmology_fields_raised cosmo_dict' redshift o E).
Qed.

Lemma set_redshift_same z o :
  z = _redshift o -> Halo.set_redshift z o = (Ok tt, o).
Proof.
  intros E. unfold Halo.set_redshift. rewrite bind_self.
  destruct (Req_dec_T z (_redshift o)); [reflexivity | contradiction].
Qed.

Lemma set_redshift_other z o :
  z <> _redshift o ->
  Halo.set_redshift z o =
  Halo.set_cosmology (cosmology.cosmo_dict (cosmo o)) (Some z) o.
Proof.
  intros E. unfold Halo.set_redshift. rewrite bind_self.
  destruct (Req_dec_T z (_redshift o)); [contradiction | reflexivity].
Qed.

(** X3.  [set_redshift] at the redshift the object has does nothing: the
    object is left as it is and nothing is recomputed.  At another redshift
    it records the redshift and makes the cosmology anew from the
    dictionary of the cosmology object; if that redshift is not -1 it
    returns, having recomputed density and geometry and cleared the five
    flags; at redshift -1 it raises ZeroDivisionError, and density,
    geometry, flags and the concentration normalisation stay as they
    were. *)
Theorem X3_set_redshift_acts_only_on_a_change (o : HaloObj) (redshift : R) :
  let o' := after (Halo.set_redshift redshift) o in
  _redshift o' = redshift /\
  (redshift = _redshift o ->
   returned (Halo.set_redshift redshift) o = Ok tt /\ o' = o) /\
  (redshift <> _redshift o ->
   cosmo o' =
     cosmology_SingleEpoch redshift (Some (cosmology.cosmo_dict (cosmo o))) /\
   (1 + redshift <> 0 ->
    returned (Halo.set_redshift redshift) o = Ok tt /\
    built o' = built o ++ [N_BAR; GEOMETRY] /\
    (_initialized_h_m o' = false /\ _initialized_h_g o' = false /\
     _initialized_pp_mm o' = false /\ _initialized_pp_gm o' = false /\
     _initialized_pp_gg o' = false)) /\
   (1 + redshift = 0 ->
    returned (Halo.set_redshift redshift) o = Raise ZeroDivisionError /\
    built o' = built o /\ c0 o' = c0 o /\
    (n_bar o' = n_bar o /\ _ln_r_v_spline o' = _ln_r_v_spline o) /\
    (_initialized_h_m o' = _initialized_h_m o /\
     _initialized_h_g o' = _initialized_h_g o /\
     _initialized_pp_mm o' = _initialized_pp_mm o /\
     _initialized_pp_gm o' = _initialized_pp_gm o /\
     _initialized_pp_gg o' = _initialized_pp_gg o))).
Proof.
  intros o'.
  destruct (Req_dec_T redshift (_redshift o)) as [E|E].
  - assert (A : o' = o)
      by (unfold o', after; now rewrite (set_redshift_same _ _ E)).
    rewrite A. split; [now symmetry|].
    split; [|intros; contradiction].
    intros _. split; [|reflexivity].
    unfold returned. now rewrite (set_redshift_same _ _ E).
  - assert (A : o' = after (Halo.set_cosmology (cosmology.cosmo_dict (cosmo o))
                              (Some redshift)) o)
      by (unfold o', after; now rewrite (set_redshift_other _ _ E)).
    assert (Rt : returned (Halo.set_redshift redshift) o =
                 returned (Halo.set_cosmology (cosmology.cosmo_dict (cosmo o))
                             (Some redshift)) o)
      by (unfold returned; now rewrite (set_redshift_other _ _ E)).
    rewrite A, Rt. clear A Rt.
    pose proof (X := set_cosmology_fields (cosmology.cosmo_dict (cosmo o))
                       (Some redshift) o).
    cbv zeta in X. destruct X as ((A1 & A2 & _) & _).
    split; [exact A1|].
    split; [intros; contradiction|]. intros _.
    split; [exact A2|]. split.
    + intros Hz.
      split; [exact (set_cosmology_returns _ (Some redshift) o Hz)|].
      split; [exact (set_cosmology_built _ (Some redshift) o Hz)|].
      exact (set_cosmology_flags _ (Some redshift) o Hz).
    + intros Hz.
      pose proof (Y := set_cosmology_fields_raised (cosmology.cosmo_dict (cosmo o))
                         (Some redshift) o Hz).
      cbv zeta in Y.
      destruct Y as ((C1 & _) & Fl & B & (_ & N) & (G & _)).
      split.
      { unfold returned.
        now rewrite (set_cosmology_raises _ (Some redshift) o Hz). }
      split; [exact B|]. split; [exact C1|]. split; [now split | exact Fl].
Qed.

Lemma set_halo_fields hd o :
  let o' := after (Halo.set_halo hd) o in
  c0 o' = dict_c0 hd / (1 + _redshift o) /\ beta o' = dict_beta hd /\
  _redshift o' = _redshift o /\ halo_dict o' = halo_dict o.
Proof.
  cbv zeta. rewrite set_halo_steps, set_hod_steps. repeat split; frame; reflexivity.
Qed.

(** X4.  [set_halo], on an object whose redshift is not -1, does not store
    the dictionary it is given.  A later change of redshift takes the
    concentration normalisation from the dictionary the object was
    constructed with, so the [c0] of [set_halo] is lost while its [beta]
    stays.  If the new redshift is -1 the change raises ZeroDivisionError
    before it assigns [c0], which keeps the value [set_halo] gave it. *)
Theorem X4_change_of_redshift_undoes_c0_of_set_halo
    (o : HaloObj) (halo_dict' : HaloDict) (redshift : R) :
  1 + _redshift o <> 0 ->
  redshift <> _redshift o ->
  let o1 := after (Halo.set_halo halo_dict') o in
  let o2 := after (Halo.set_redshift redshift) o1 in
  c0 o1 = dict_c0 halo_dict' / (1 + _redshift o) /\
  halo_dict o1 = halo_dict o /\
  beta o2 = dict_beta halo_dict' /\
  (1 + redshift <> 0 ->
   returned (Halo.set_redshift redshift) o1 = Ok tt /\
   c0 o2 = dict_c0 (halo_dict o) / (1 + redshift)) /\
  (1 + redshift = 0 ->
   returned (Halo.set_redshift redshift) o1 = Raise ZeroDivisionError /\
   c0 o2 = dict_c0 halo_dict' / (1 + _redshift o)).
Proof.
  intros Hz0 E o1 o2.
  destruct (set_halo_fields halo_dict' o) as (A1 & A2 & A3 & A4).
  fold o1 in A1, A2, A3, A4.
  assert (E1 : redshift <> _redshift o1) by now rewrite A3.
  split; [exact A1|]. split; [exact A4|].
  assert (A : o2 = after (Halo.set_cosmology (cosmology.cosmo_dict (cosmo o1))
                            (Some redshift)) o1)
    by (unfold o2, after; now rewrite (set_redshift_other _ _ E1)).
  assert (Rt : returned (Halo.set_redshift redshift) o1 =
               returned (Halo.set_cosmology (cosmology.cosmo_dict (cosmo o1))
                           (Some redshift)) o1)
    by (unfold returned; now rewrite (set_redshift_other _ _ E1)).
  rewrite A, Rt. clear A Rt.
  pose proof (X := set_cosmology_fields (cosmology.cosmo_dict (cosmo o1))
                     (Some redshift) o1).
  cbv zeta in X. destruct X as (_ & (B5 & _) & _).
  split; [now rewrite B5|].
  split.
  - intros Hz.
    split; [exact (set_cosmology_returns _ (Some redshift) o1 Hz)|].
    destruct (set_cosmology_fields_returned (cosmology.cosmo_dict (cosmo o1))
                (Some redshift) o1 Hz) as (B4 & _).
    now rewrite B4, A4.
  - intros Hz.
    split.
    { unfold returned.
      now rewrite (set_cosmology_raises _ (Some redshift) o1 Hz). }
    destruct (set_cosmology_fields_raised (cosmology.cosmo_dict (cosmo o1))
                (Some redshift) o1 Hz) as ((C1 & _) & _).
    now rewrite C1.
Qed.

(** The attributes of the fit that [HaloFit.__init__] leaves. *)
Lemma new_fit_values z h cs mf hd :
  let o := new HaloFit_cls z h cs mf hd in
  fit o = Some
    {| _f_1 := Rpower (cosmology.omega_m (cosmo o)) (-0.0307);
       _f_2 := Rpower (cosmology.omega_m (cosmo o)) (-0.0585);
       _f_3 := Rpower (cosmology.omega_m (cosmo o)) 0.0743;
       _omega_l := cosmology.omega_l (cosmo o);
       _w := cosmology.w (cosmo o) z;
       _initialized_sigma_spline := false;
       scale := None;
       sigma := None |}.
Proof.
  cbv zeta.
  assert (Hc : cosmo (new HaloFit_cls z h cs mf hd) =
               cosmo (after init_tail (Halo.allocated HaloFit_cls z h cs mf hd))).
  { rewrite new_unfold. cbv iota. now rewrite fit_tail_frame by reflexivity. }
  rewrite Hc. rewrite new_unfold. cbv iota.
  set (o1 := after init_tail _).
  assert (Hz : _redshift o1 = z) by (subst o1; rewrite init_tail_steps; now frame).
  assert (Hf : fit o1 = None) by (subst o1; rewrite init_tail_steps; now frame).
  clearbody o1.
  unfold fit_tail. rewrite after_seq by reflexivity.
  assert (E : fit (after HaloFit._initialize_halo_fit o1) = Some
    {| _f_1 := Rpower (cosmology.omega_m (cosmo o1)) (-0.0307);
       _f_2 := Rpower (cosmology.omega_m (cosmo o1)) (-0.0585);
       _f_3 := Rpower (cosmology.omega_m (cosmo o1)) 0.0743;
       _omega_l := cosmology.omega_l (cosmo o1);
       _w := cosmology.w (cosmo o1) z;
       _initialized_sigma_spline := false;
       scale := None;
       sigma := None |}).
  { unfold after, HaloFit._initialize_halo_fit. rewrite bind_self.
    unfold assign; cbn [snd]. unfold HaloFit.sigma_attrs, HaloFit.scale_attrs. rewrite Hf, Hz.
    reflexivity. }
  unfold after at 1. rewrite (bind_attribute_some _ _ _ _ _ E). reflexivity.
Qed.

(** X5.  [HaloFit] has no [set_cosmology] of its own, and the one it
    inherits does not call [_initialize_halo_fit]: after a change of
    cosmology or redshift the exponents [_f_1], [_f_2], [_f_3] and the
    attributes [_omega_l] and [_w] of a [HaloFit] object are still those of
    the cosmology and redshift it was constructed with. *)
Theorem X5_halofit_attributes_survive_set_cosmology
    (redshift : R) (input_hod : option hod.HOD)
    (cosmo_single_epoch : option cosmology.SingleEpoch)
    (mass_func : option mass_function.MassFunction)
    (halo_dict : option HaloDict)
    (cosmo_dict' : dict) (redshift' : R) :
  let o := new HaloFit_cls redshift input_hod cosmo_single_epoch mass_func
             halo_dict in
  let o' := after (Halo.set_cosmology cosmo_dict' (Some redshift')) o in
  cosmo o' = cosmology_SingleEpoch redshift' (Some cosmo_dict') /\
  _redshift o' = redshift' /\
  exists attrs,
    fit o' = Some attrs /\
    _f_1 attrs = Rpower (cosmology.omega_m (cosmo o)) (-0.0307) /\
    _f_2 attrs = Rpower (cosmology.omega_m (cosmo o)) (-0.0585) /\
    _f_3 attrs = Rpower (cosmology.omega_m (cosmo o)) 0.0743 /\
    _omega_l attrs = cosmology.omega_l (cosmo o) /\
    _w attrs = cosmology.w (cosmo o) redshift.
Proof.
  intros o o'.
  pose proof (F := new_fit_values redshift input_hod cosmo_single_epoch
                     mass_func halo_dict).
  cbv zeta in F. fold o in F.
  pose proof (X := set_cosmology_fields cosmo_dict' (Some redshift') o).
  cbv zeta in X. fold o' in X.
  destruct X as ((A1 & A2 & _) & (_ & _ & _ & _ & B5 & _) & _).
  split; [exact A2|]. split; [exact A1|].
  eexists. split; [rewrite B5; exact F|]. repeat split.
Qed.

End Cosmology.

(** ** The scale of non-linearity of [HaloFit] *)

Section Sigma.
Context {scipy : SciPy} {repo : Collaborators}.

Lemma sigma_spline_built o attrs :
  fit o = Some attrs ->
  built (after HaloFit._initialize_sigma_spline o) = built o ++ [SIGMA].
Proof.
  intros Ef. unfold after, HaloFit._initialize_sigma_spline.
  rewrite bind_self, (bind_attribute_some _ _ _ _ _ Ef). cbv zeta.
  rewrite bind_assign. unfold log. rewrite bind_assign.
  destruct (derivatives _ _); reflexivity.
Qed.

(** The attributes of the constructor pass through
    [_initialize_sigma_spline], the flag among them, whether it returns or
    raises. *)
Lemma sigma_spline_keeps o attrs :
  fit o = Some attrs ->
  exists attrs',
    fit (after HaloFit._initialize_sigma_spline o) = Some attrs' /\
    _f_1 attrs' = _f_1 attrs /\ _f_2 attrs' = _f_2 attrs /\
    _f_3 attrs' = _f_3 attrs /\ _omega_l attrs' = _omega_l attrs /\
    _w attrs' = _w attrs /\
    _initialized_sigma_spline attrs' = _initialized_sigma_spline attrs.
Proof.
  intros Ef. unfold after, HaloFit._initialize_sigma_spline.
  rewrite bind_self, (bind_attribute_some _ _ _ _ _ Ef). cbv zeta.
  rewrite bind_assign. unfold log. rewrite bind_assign.
  destruct (derivatives _ _).
  - eexists. split; [reflexivity|].
    cbn [_f_1 _f_2 _f_3 _omega_l _w _initialized_sigma_spline].
    repeat (split; [reflexivity|]). reflexivity.
  - eexists. split; [reflexivity|].
    cbn [_f_1 _f_2 _f_3 _omega_l _w _initialized_sigma_spline].
    repeat (split; [reflexivity|]). reflexivity.
Qed.

(** What [_initialize_sigma_spline] assigns when it returns depends on the
    cosmology, the ends of the wavenumber domain and the attributes of the
    constructor. *)
Lemma sigma_spline_again o o' attrs attrs' :
  fit o = Some attrs -> fit o' = Some attrs' ->
  _f_1 attrs' = _f_1 attrs -> _f_2 attrs' = _f_2 attrs ->
  _f_3 attrs' = _f_3 attrs -> _omega_l attrs' = _omega_l attrs ->
  _w attrs' = _w attrs ->
  _initialized_sigma_spline attrs' = _initialized_sigma_spline attrs ->
  cosmo o' = cosmo o -> _ln_k_min o' = _ln_k_min o -> _ln_k_max o' = _ln_k_max o ->
  sigma_evaluates o = true ->
  fit (after HaloFit._initialize_sigma_spline o') =
  fit (after HaloFit._initialize_sigma_spline o).
Proof.
  intros Ef Ef' H1 H2 H3 H4 H5 H6 Hc K1 K2 Ev.
  unfold after, HaloFit._initialize_sigma_spline. rewrite !bind_self.
  rewrite (bind_attribute_some _ _ _ _ _ Ef), (bind_attribute_some _ _ _ _ _ Ef').
  cbv zeta. rewrite !bind_assign. unfold log. rewrite !bind_assign.
  unfold HaloFit._sigma2_integrand. rewrite Hc, K1, K2, H1, H2, H3, H4, H5, H6.
  unfold derivatives.
  change (within_knots _ _) with (sigma_evaluates o). rewrite Ev.
  reflexivity.
Qed.

(** X6.  [_initialize_sigma_spline] never sets the flag that guards it, so
    [HaloFit.power_mm] integrates and fits the variance of the density
    field anew at every call: each call adds one construction to the
    history and leaves the flag unset.  The value of a call does not depend
    on the calls before it. *)
Theorem X6_halofit_rebuilds_sigma_at_every_call
    (o : HaloObj) (attrs : FitAttrs) (k k' : R) :
  fit o = Some attrs -> _initialized_sigma_spline attrs = false ->
  let o1 := after (HaloFit.power_mm k) o in
  (exists attrs1,
     fit o1 = Some attrs1 /\ _initialized_sigma_spline attrs1 = false) /\
  built o1 = built o ++ [SIGMA] /\
  built (after (HaloFit.power_mm k') o1) = built o ++ [SIGMA; SIGMA] /\
  returned (HaloFit.power_mm k') o1 = returned (HaloFit.power_mm k') o.
Proof.
  intros Ef Fl o1.
  assert (A : o1 = after HaloFit._initialize_sigma_spline o).
  { unfold o1, after at 1. rewrite halofit_power_mm_run. cbn [snd].
    rewrite Ef. unfold ensure. now rewrite Fl. }
  destruct (sigma_spline_keeps o attrs Ef)
    as (attrs1 & E1 & H1 & H2 & H3 & H4 & H5 & H6).
  rewrite <- A in E1.
  assert (Fl1 : _initialized_sigma_spline attrs1 = false) by congruence.
  assert (B1 : built o1 = built o ++ [SIGMA])
    by (rewrite A; now apply sigma_spline_built with attrs).
  assert (A2 : after (HaloFit.power_mm k') o1 =
               after HaloFit._initialize_sigma_spline o1).
  { unfold after at 1. rewrite halofit_power_mm_run. cbn [snd].
    rewrite E1. unfold ensure. now rewrite Fl1. }
  assert (Hc : cosmo o1 = cosmo o) by (rewrite A; apply sigma_spline_cosmo).
  assert (K1 : _ln_k_min o1 = _ln_k_min o)
    by (rewrite A; now apply sigma_spline_frame).
  assert (K2 : _ln_k_max o1 = _ln_k_max o)
    by (rewrite A; now apply sigma_spline_frame).
  split; [now exists attrs1|]. split; [exact B1|]. split.
  - rewrite A2, (sigma_spline_built o1 attrs1 E1), B1. now rewrite <- app_assoc.
  - rewrite !halofit_power_mm_value, E1, Ef, Fl, Fl1.
    rewrite (sigma_evaluates_reads o o1 Hc K1 K2).
    destruct (sigma_evaluates o) eqn:Ev; [|reflexivity].
    apply halofit_reads_of_reads.
    + exact (sigma_spline_again o o1 attrs attrs1 Ef E1 H1 H2 H3 H4 H5 H6 Hc K1 K2
               Ev).
    + now rewrite !sigma_spline_cosmo.
Qed.

End Sigma.

(** ** The guard of [HaloExclusion.power_gm] *)

Section ExclusionGuard.
Context {scipy : SciPy} {repo : Collaborators}.

Lemma exclusion_gm_after k o :
  terms_present o -> _initialized_pp_gg o = false ->
  (exists v, returned (HaloExclusion.power_gm k) o = Ok v) /\
  after (HaloExclusion.power_gm k) o = mm_ready (exclusion_gm_ready o).
Proof.
  intros (P1 & P2 & P3 & _) F.
  assert (P4 : present _initialized_pp_gg _pp_gm_spline o)
    by (intro; congruence).
  destruct (exclusion_power_gm_returns k o P1 P3 P2 P4)
    as (hm & ppmm & hg & pp & _ & _ & _ & _ & E).
  unfold returned, after. rewrite E. split; [eexists|]; reflexivity.
Qed.

Lemma exclusion_gm_ready_built o :
  _initialized_pp_gg o = false ->
  built (mm_ready (exclusion_gm_ready o)) =
  built o ++ (if _initialized_h_g o then [] else [H_G]) ++ [PP_GM] ++
  (if _initialized_h_m o then [] else [H_M]) ++
  (if _initialized_pp_mm o then [] else [PP_MM]).
Proof.
  intros F. rewrite mm_ready_built.
  assert (E1 : _initialized_h_m (exclusion_gm_ready o) = _initialized_h_m o)
    by (guards; congruence).
  assert (E2 : _initialized_pp_mm (exclusion_gm_ready o) = _initialized_pp_mm o)
    by (guards; congruence).
  assert (E3 : built (exclusion_gm_ready o) =
               built o ++ (if _initialized_h_g o then [] else [H_G]) ++ [PP_GM]).
  { guards; try congruence; rewrite <- ?app_assoc; reflexivity. }
  rewrite E1, E2, E3. now rewrite <- !app_assoc.
Qed.

Lemma exclusion_gm_ready_state o :
  terms_present o -> _initialized_pp_gg o = false ->
  let o1 := mm_ready (exclusion_gm_ready o) in
  terms_present o1 /\ _initialized_pp_gg o1 = false /\
  _initialized_h_g o1 = true /\ _initialized_h_m o1 = true /\
  _initialized_pp_mm o1 = true /\ _initialized_pp_gm o1 = true.
Proof.
  intros (P1 & P2 & P3 & P4 & P5) F o1. subst o1.
  unfold terms_present, present in *.
  repeat split; guards; auto; congruence.
Qed.

(** X7.  While pp_gg is not valid, [HaloExclusion.power_gm] constructs
    pp_gm at every call, whether pp_gm is valid or not, because its second
    guard tests the flag of pp_gg: the call returns, leaves pp_gg invalid,
    and the next call constructs pp_gm once more and nothing else. *)
Theorem X7_exclusion_power_gm_rebuilds_pp_gm (o : HaloObj) (k k' : R) :
  terms_present o -> _initialized_pp_gg o = false ->
  let o1 := after (HaloExclusion.power_gm k) o in
  (exists v, returned (HaloExclusion.power_gm k) o = Ok v) /\
  built o1 =
    built o ++ (if _initialized_h_g o then [] else [H_G]) ++ [PP_GM] ++
    (if _initialized_h_m o then [] else [H_M]) ++
    (if _initialized_pp_mm o then [] else [PP_MM]) /\
  _initialized_pp_gg o1 = false /\ _initialized_pp_gm o1 = true /\
  (exists v, returned (HaloExclusion.power_gm k') o1 = Ok v) /\
  built (after (HaloExclusion.power_gm k') o1) = built o1 ++ [PP_GM].
Proof.
  intros P F o1.
  destruct (exclusion_gm_after k o P F) as (R1 & A1). fold o1 in A1.
  destruct (exclusion_gm_ready_state o P F) as (P' & F' & G1 & G2 & G3 & G4).
  rewrite <- A1 in P', F', G1, G2, G3, G4.
  destruct (exclusion_gm_after k' o1 P' F') as (R2 & A2).
  split; [exact R1|].
  split; [rewrite A1; now apply exclusion_gm_ready_built|].
  split; [exact F'|]. split; [exact G4|]. split; [exact R2|].
  rewrite A2, (exclusion_gm_ready_built o1 F'), G1, G2, G3. reflexivity.
Qed.

End ExclusionGuard.

(** ** Output files *)

Section Files.
Context {scipy : SciPy} {repo : Collaborators}.

Lemma ready_cls o :
  cls (mm_ready o) = cls o /\ cls (gg_ready o) = cls o /\ cls (gm_ready o) = cls o /\
  cls (exclusion_gg_ready o) = cls o.
Proof. repeat split; guards; reflexivity. Qed.

Lemma gg_ready_present o : terms_present o -> terms_present (gg_ready o).
Proof.
  intros (P1 & P2 & P3 & P4 & P5).
  unfold terms_present, present in *. repeat split; guards; auto; discriminate.
Qed.

Lemma gm_ready_present o : terms_present o -> terms_present (gm_ready o).
Proof.
  intros (P1 & P2 & P3 & P4 & P5).
  unfold terms_present, present in *. repeat split; guards; auto; discriminate.
Qed.

Lemma mm_ready_present o : terms_present o -> terms_present (mm_ready o).
Proof. intros P. rewrite <- (after_power_mm 0). now apply power_mm_present. Qed.

Lemma exclusion_gg_ready_present o :
  terms_present o -> terms_present (exclusion_gg_ready o).
Proof. intros P. now apply ready_present. Qed.

(** The flags that each guarded construction leaves set. *)
Lemma mm_ready_keeps o :
  (_initialized_h_g (mm_ready o) = _initialized_h_g o /\
   _initialized_pp_gm (mm_ready o) = _initialized_pp_gm o /\
   _initialized_pp_gg (mm_ready o) = _initialized_pp_gg o) /\
  (_h_g_spline (mm_ready o) = _h_g_spline o /\
   _pp_gm_spline (mm_ready o) = _pp_gm_spline o /\
   _pp_gg_spline (mm_ready o) = _pp_gg_spline o).
Proof. repeat split; guards; reflexivity. Qed.

Lemma gg_ready_keeps o :
  _initialized_h_m (gg_ready o) = _initialized_h_m o /\
  _initialized_pp_mm (gg_ready o) = _initialized_pp_mm o /\
  _initialized_pp_gm (gg_ready o) = _initialized_pp_gm o.
Proof. repeat split; guards; reflexivity. Qed.

Lemma gm_ready_keeps o :
  _initialized_pp_mm (gm_ready o) = _initialized_pp_mm o /\
  _initialized_pp_gg (gm_ready o) = _initialized_pp_gg o /\
  (_initialized_h_g o = true -> _initialized_h_g (gm_ready o) = true).
Proof. repeat split; guards; congruence. Qed.

Lemma spectra_ready_flags o :
  let o' := spectra_ready o in
  _initialized_h_m o' = true /\ _initialized_h_g o' = true /\
  _initialized_pp_mm o' = true /\ _initialized_pp_gm o' = true /\
  _initialized_pp_gg o' = true.
Proof.
  cbv zeta. unfold spectra_ready.
  destruct (mm_ready_flags o) as (A1 & A2).
  destruct (gg_ready_flags (mm_ready o)) as (B1 & B2).
  destruct (gg_ready_keeps (mm_ready o)) as (B3 & B4 & _).
  destruct (gm_ready_flags (gg_ready (mm_ready o))) as (C1 & C2 & C3).
  destruct (gm_ready_keeps (gg_ready (mm_ready o))) as (C4 & C5 & _).
  repeat split; congruence.
Qed.

Lemma spectra_ready_present o :
  terms_present o -> terms_present (spectra_ready o).
Proof.
  intros P. unfold spectra_ready.
  now apply gm_ready_present, gg_ready_present, mm_ready_present.
Qed.

Lemma spectra_ready_all_ready o : terms_present o -> all_ready (spectra_ready o).
Proof.
  intros P. pose proof (spectra_ready_flags o) as F. cbv zeta in F.
  destruct F as (F1 & F2 & F3 & F4 & F5).
  destruct (spectra_ready_present o P) as (P1 & P2 & P3 & P4 & P5).
  split; [now repeat split|]. unfold present in *. repeat split; auto.
Qed.

Lemma spectra_ready_idempotent o :
  spectra_ready (spectra_ready o) = spectra_ready o.
Proof.
  pose proof (spectra_ready_flags o) as F. cbv zeta in F.
  destruct F as (F1 & F2 & F3 & F4 & F5).
  unfold spectra_ready at 1.
  rewrite (mm_ready_valid _ F1 F3), (gg_ready_valid _ F2 F5).
  now apply gm_ready_valid.
Qed.

(** One row of [write] on an object of class [Halo]. *)
Lemma write_row_halo k o :
  cls o = Halo_cls -> terms_present o ->
  exists mm gg gm,
    (mm <- power_mm k ;; gg <- power_gg k ;; gm <- power_gm k ;;
     ret (mm, gg, gm)) o = (Ok (mm, gg, gm), spectra_ready o).
Proof.
  intros C P.
  pose proof (mm_ready_present o P) as P1.
  pose proof (gg_ready_present _ P1) as P2.
  destruct (ready_cls o) as (C1 & _).
  destruct (ready_cls (mm_ready o)) as (_ & C2 & _).
  destruct P as (A1 & _ & A3 & _).
  destruct (power_mm_returns k o A1 A3) as (hm & pp & _ & _ & E1).
  destruct P1 as (B1 & B2 & B3 & B4 & B5).
  destruct (power_gg_returns k (mm_ready o) B2 B5) as (hg & pg & _ & _ & E2).
  destruct P2 as (D1 & D2 & D3 & D4 & D5).
  destruct (power_gm_returns k (gg_ready (mm_ready o)) D1 D2 D4)
    as (hg' & hm' & pm & _ & _ & _ & E3).
  assert (G1 : power_mm k o = Halo.power_mm k o)
    by (unfold power_mm; now rewrite by_class_run, C).
  assert (G2 : power_gg k (mm_ready o) = Halo.power_gg k (mm_ready o))
    by (unfold power_gg; now rewrite by_class_run, C1, C).
  assert (G3 : power_gm k (gg_ready (mm_ready o)) =
               Halo.power_gm k (gg_ready (mm_ready o)))
    by (unfold power_gm; now rewrite by_class_run, C2, C1, C).
  rewrite <- G1 in E1. rewrite <- G2 in E2. rewrite <- G3 in E3.
  eexists _, _, _.
  rewrite (bind_ok _ _ _ _ _ E1), (bind_ok _ _ _ _ _ E2), (bind_ok _ _ _ _ _ E3).
  reflexivity.
Qed.

Lemma bind_ext {A B} (m : M A) (f g : A -> M B) o :
  (forall a o', f a o' = g a o') -> bind m f o = bind m g o.
Proof.
  intros E. unfold bind. destruct (m o) as [[a|e] o']; [apply E | reflexivity].
Qed.

Lemma write_rows_cons ln_k rest f o :
  write_rows (ln_k :: rest) f o =
  (r <- (mm <- power_mm (exp ln_k) ;; gg <- power_gg (exp ln_k) ;;
         gm <- power_gm (exp ln_k) ;; ret (mm, gg, gm)) ;;
   write_rows rest
     (f ++ [Row [exp ln_k; Halo.linear_power o (exp ln_k);
                 fst (fst r); snd (fst r); snd r]])) o.
Proof.
  cbn [write_rows]. rewrite bind_self. cbv zeta. symmetry.
  rewrite bind_assoc. apply bind_ext; intros mm o1.
  rewrite bind_assoc. apply bind_ext; intros gg o2.
  rewrite bind_assoc. apply bind_ext; intros gm o3.
  now rewrite bind_ret.
Qed.

Lemma write_rows_halo ln_ks :
  forall f o, cls o = Halo_cls -> terms_present o ->
  exists rows,
    write_rows ln_ks f o =
      (Ok (f ++ rows), match ln_ks with [] => o | _ => spectra_ready o end) /\
    List.length rows = List.length ln_ks.
Proof.
  induction ln_ks as [|ln_k rest IH]; intros f o C P.
  - exists []. rewrite app_nil_r. split; reflexivity.
  - rewrite write_rows_cons.
    destruct (write_row_halo (exp ln_k) o C P) as (mm & gg & gm & E).
    rewrite (bind_ok _ _ _ _ _ E). cbn [fst snd].
    assert (C' : cls (spectra_ready o) = Halo_cls).
    { unfold spectra_ready.
      destruct (ready_cls (gg_ready (mm_ready o))) as (_ & _ & C3 & _).
      destruct (ready_cls (mm_ready o)) as (_ & C2 & _).
      destruct (ready_cls o) as (C1 & _). congruence. }
    destruct (IH (f ++ [Row [exp ln_k; Halo.linear_power o (exp ln_k); mm; gg; gm]])
                (spectra_ready o) C' (spectra_ready_present o P))
      as (rows & E' & L).
    exists (Row [exp ln_k; Halo.linear_power o (exp ln_k); mm; gg; gm] :: rows).
    rewrite E', <- app_assoc. cbn [app List.length]. split; [|now rewrite L].
    f_equal. destruct rest; [reflexivity | apply spectra_ready_idempotent].
Qed.

(** X8.  On an object of class [Halo] whose valid terms have their
    splines, [write] returns: the file holds the header and one row for
    each point of the wavenumber grid.  The first row constructs every term
    that is not valid, the rows after it none: unless the grid is empty the
    object is left with its five terms valid and present. *)
Theorem X8_write_builds_every_term_once
    (o : HaloObj) (output_file_name : string) :
  cls o = Halo_cls -> terms_present o ->
  (exists lines,
     returned (write output_file_name) o = Ok lines /\
     List.length lines = S (List.length (_ln_k_array o))) /\
  after (write output_file_name) o =
    match _ln_k_array o with [] => o | _ => spectra_ready o end /\
  all_ready (spectra_ready o).
Proof.
  intros C P. unfold returned, after, write. rewrite bind_self.
  destruct (write_rows_halo (_ln_k_array o)
              [Header ["k [Mpc/h]"; "linear_power [(Mpc/h)^3]"; "power_mm";
                       "power_gg"; "power_gm"]%string] o C P)
    as (rows & E & L).
  rewrite E. cbn [fst snd]. split; [|split].
  - eexists. split; [reflexivity|]. cbn [app List.length]. now rewrite L.
  - reflexivity.
  - now apply spectra_ready_all_ready.
Qed.

(** X9.  On a [HaloExclusion] object that has never constructed pp_gm,
    [write] fails in its first row with AttributeError on [_pp_gm_spline]:
    the row evaluates [power_gg] before [power_gm], and the guard of
    [HaloExclusion.power_gm] then finds pp_gg valid. *)
Theorem X9_write_fails_on_exclusion_objects
    (o : HaloObj) (output_file_name : string) :
  cls o = HaloExclusion_cls -> terms_present o -> _pp_gm_spline o = None ->
  _ln_k_array o <> [] ->
  returned (write output_file_name) o = Raise (AttributeError "_pp_gm_spline").
Proof.
  intros C P S N. unfold returned, write. rewrite bind_self.
  destruct (_ln_k_array o) as [|ln_k rest]; [contradiction|].
  rewrite write_rows_cons. set (k := exp ln_k).
  pose proof (mm_ready_present o P) as P1.
  destruct (ready_cls o) as (C1 & _).
  destruct (mm_ready_keeps o) as (_ & _ & S1 & _).
  destruct P as (A1 & _ & A3 & _).
  destruct (power_mm_returns k o A1 A3) as (hm & pp & _ & _ & E1).
  assert (G1 : power_mm k o = Halo.power_mm k o)
    by (unfold power_mm; now rewrite by_class_run, C).
  rewrite <- G1 in E1.
  set (o1 := mm_ready o) in *.
  pose proof (exclusion_gg_ready_present o1 P1) as P2.
  destruct P1 as (B1 & B2 & B3 & B4 & B5).
  destruct (exclusion_power_gg_returns k o1 B1 B3 B2 B5)
    as (hm' & pp' & hg & pg & _ & _ & _ & _ & E2).
  assert (G2 : power_gg k o1 = HaloExclusion.power_gg k o1)
    by (unfold power_gg; now rewrite by_class_run, C1, C).
  rewrite <- G2 in E2.
  set (o2 := exclusion_gg_ready o1) in *.
  pose proof (mm_ready_present o2 P2) as P3.
  assert (F : _initialized_pp_gg (mm_ready o2) = true).
  { destruct (mm_ready_keeps o2) as ((_ & _ & K) & _). rewrite K.
    subst o2. guards; congruence. }
  assert (S3 : _pp_gm_spline (mm_ready o2) = None).
  { destruct (mm_ready_keeps o2) as (_ & _ & K & _). rewrite K.
    subst o2. guards; congruence. }
  assert (C3 : cls (mm_ready o2) = HaloExclusion_cls).
  { destruct (ready_cls o2) as (K & _). rewrite K.
    destruct (ready_cls o1) as (_ & _ & _ & K'). unfold o2. rewrite K'. congruence. }
  destruct P3 as (D1 & D2 & D3 & _).
  pose proof (exclusion_power_gm_raises k (mm_ready o2) D1 D3 D2 F S3) as E3.
  assert (G3 : returned (power_gm k) (mm_ready o2) =
               returned (HaloExclusion.power_gm k) (mm_ready o2))
    by (unfold returned, power_gm; now rewrite by_class_run, C3).
  rewrite <- G3 in E3. unfold returned in E3.
  rewrite bind_assoc, (bind_ok _ _ _ _ _ E1).
  rewrite bind_assoc, (bind_ok _ _ _ _ _ E2).
  rewrite bind_assoc. unfold bind at 1 2.
  destruct (power_gm k (mm_ready o2)) as [[v|e] o3]; cbn [fst] in E3.
  - discriminate.
  - now inversion E3.
Qed.

Lemma write_component_rows_none ln_k rest f o :
  _h_m_spline o = None ->
  write_component_rows (ln_k :: rest) f o =
  (Raise (AttributeError "_h_m_spline"), o).
Proof.
  intros S. cbn [write_component_rows]. cbv zeta.
  unfold Halo._h_m at 1. unfold bind at 1. now rewrite term_run, S.
Qed.

Lemma write_component_rows_some ln_ks :
  forall f o hm hg pmm pgm pgg,
  _h_m_spline o = Some hm -> _h_g_spline o = Some hg ->
  _pp_mm_spline o = Some pmm -> _pp_gm_spline o = Some pgm ->
  _pp_gg_spline o = Some pgg ->
  write_component_rows ln_ks f o =
  (Ok (f ++ map (fun ln_k =>
                   Row [exp ln_k; value_of o hm (exp ln_k);
                        value_of o pmm (exp ln_k); value_of o hg (exp ln_k);
                        value_of o pgm (exp ln_k); value_of o pgg (exp ln_k)])
             ln_ks), o).
Proof.
  induction ln_ks as [|ln_k rest IH]; intros f o hm hg pmm pgm pgg S1 S2 S3 S4 S5.
  - cbn [write_component_rows map]. now rewrite app_nil_r.
  - cbn [write_component_rows map]. cbv zeta.
    unfold Halo._h_m, Halo._pp_mm, Halo._h_g, Halo._pp_gm, Halo._pp_gg.
    unfold bind at 1. rewrite term_run, S1.
    unfold bind at 1. rewrite term_run, S3.
    unfold bind at 1. rewrite term_run, S2.
    unfold bind at 1. rewrite term_run, S4.
    unfold bind at 1. rewrite term_run, S5.
    rewrite (IH _ o hm hg pmm pgm pgg S1 S2 S3 S4 S5), <- app_assoc.
    reflexivity.
Qed.

(** X10.  [write_power_components] constructs nothing: it calls the five
    accessors as the object is.  On an object without the h_m spline, a
    new object for one, it fails in its first row with AttributeError on
    [_h_m_spline] and leaves the object as it was. *)
Theorem X10_write_power_components_needs_the_terms
    (o : HaloObj) (output_file_name : string) :
  _h_m_spline o = None -> _ln_k_array o <> [] ->
  write_power_components output_file_name o =
  (Raise (AttributeError "_h_m_spline"), o).
Proof.
  intros S N. unfold write_power_components. rewrite bind_self.
  destruct (_ln_k_array o) as [|ln_k rest]; [contradiction|].
  now apply write_component_rows_none.
Qed.

(** X11.  On an object that has its five term splines,
    [write_power_components] returns and leaves the object as it is; the
    file holds the header and, for each point of the wavenumber grid, the
    values of the five accessors there. *)
Theorem X11_write_power_components_reads_the_five_terms
    (o : HaloObj) (output_file_name : string) (hm hg pmm pgm pgg : Spline) :
  _h_m_spline o = Some hm -> _h_g_spline o = Some hg ->
  _pp_mm_spline o = Some pmm -> _pp_gm_spline o = Some pgm ->
  _pp_gg_spline o = Some pgg ->
  exists header,
    write_power_components output_file_name o =
    (Ok (Header header ::
         map (fun ln_k =>
                Row [exp ln_k; value_of o hm (exp ln_k);
                     value_of o pmm (exp ln_k); value_of o hg (exp ln_k);
                     value_of o pgm (exp ln_k); value_of o pgg (exp ln_k)])
           (_ln_k_array o)), o).
Proof.
  intros S1 S2 S3 S4 S5. unfold write_power_components. rewrite bind_self.
  eexists.
  rewrite (write_component_rows_some _ _ o hm hg pmm pgm pgg S1 S2 S3 S4 S5).
  reflexivity.
Qed.

End Files.

(** ** Averages over the galaxy sample *)

Section SampleAverages.
Context {scipy : SciPy} {repo : Collaborators} {sat : Satellites}.

Lemma halo_romberg_ext f g a b :
  (forall x, f x = g x) -> Halo.romberg f a b = Halo.romberg g a b.
Proof.
  intros E. unfold Halo.romberg, Halo.romberg_run.
  now rewrite (romberg_run_ext f g) by exact E.
Qed.

(** The mean density the object holds, when it is the one a recomputation
    gives and the HOD does not raise the lower limit of its integral. *)
Lemma n_bar_over_rho_bar_from_floor o :
  hod_nu_min o (hod.first_moment_zero (local_hod o)) =
    mass_function.nu_min (mass o) ->
  n_bar_over_rho_bar o = n_bar_over_rho_bar (after Halo._calculate_n_bar o) ->
  n_bar_over_rho_bar o =
  Halo.romberg (Halo._nbar_integrand o)
    (ln (mass_function.nu_min (mass o))) (ln (mass_function.nu_max (mass o))).
Proof. intros Hf Hn. now rewrite Hn, n_bar_over_rho_bar_value, Hf. Qed.

(** X12.  [calculate_bias] divides its integral, taken from the floor of
    the mass function, by the mean density the object holds.  When the
    halos are unbiased at every peak height, the HOD does not raise the
    lower limit of the density integral, and the density is up to date and
    not zero, the galaxy bias is exactly 1; the value is stored in [bias]
    and the other averages are kept. *)
Theorem X12_bias_of_unbiased_halos_is_one (o : HaloObj) (a : Averages) :
  (forall nu, mass_function.bias_nu (mass o) nu = 1) ->
  hod_nu_min o (hod.first_moment_zero (local_hod o)) =
    mass_function.nu_min (mass o) ->
  n_bar_over_rho_bar o = n_bar_over_rho_bar (after Halo._calculate_n_bar o) ->
  n_bar_over_rho_bar o <> 0 ->
  calculate_bias o a =
  (Ok 1, {| bias := Some 1; m_eff := m_eff a; f_sat := f_sat a |}).
Proof.
  intros Hb Hf Hn Hz. unfold calculate_bias. cbv zeta.
  assert (E : Halo.romberg (_bias_integrand o)
                (ln (mass_function.nu_min (mass o)))
                (ln (mass_function.nu_max (mass o))) / n_bar_over_rho_bar o = 1).
  { rewrite (halo_romberg_ext (_bias_integrand o) (Halo._nbar_integrand o)).
    - rewrite <- (n_bar_over_rho_bar_from_floor o Hf Hn). now field.
    - intros x. unfold _bias_integrand, Halo._nbar_integrand. cbv zeta.
      rewrite Hb. unfold Rdiv. ring. }
  now rewrite E.
Qed.

(** X13.  [calculate_f_sat] needs an HOD with [satellite_first_moment]:
    without it the call raises AttributeError and assigns nothing.  With
    it, when every galaxy is a satellite (the method agrees with
    [first_moment]), the HOD does not raise the lower limit of the density
    integral, and the density is up to date and not zero, the satellite
    fraction is exactly 1. *)
Theorem X13_f_sat_needs_satellites_and_is_normalised
    (o : HaloObj) (a : Averages) :
  (satellite_first_moment (local_hod o) = None ->
   calculate_f_sat o a = (Raise (AttributeError "satellite_first_moment"), a)) /\
  (forall n_sat,
     satellite_first_moment (local_hod o) = Some n_sat ->
     (forall m, n_sat m = hod.first_moment (local_hod o) m) ->
     hod_nu_min o (hod.first_moment_zero (local_hod o)) =
       mass_function.nu_min (mass o) ->
     n_bar_over_rho_bar o = n_bar_over_rho_bar (after Halo._calculate_n_bar o) ->
     n_bar_over_rho_bar o <> 0 ->
     calculate_f_sat o a =
     (Ok 1, {| bias := bias a; m_eff := m_eff a; f_sat := Some 1 |})).
Proof.
  split.
  - intros E. unfold calculate_f_sat. now rewrite E.
  - intros n_sat E Hs Hf Hn Hz. unfold calculate_f_sat. rewrite E. cbv zeta.
    assert (V : Halo.romberg (_f_sat_integrand o n_sat)
                  (ln (mass_function.nu_min (mass o)))
                  (ln (mass_function.nu_max (mass o))) / n_bar_over_rho_bar o = 1).
    { rewrite (halo_romberg_ext (_f_sat_integrand o n_sat) (Halo._nbar_integrand o)).
      - rewrite <- (n_bar_over_rho_bar_from_floor o Hf Hn). now field.
      - intros x. unfold _f_sat_integrand, Halo._nbar_integrand. cbv zeta.
        now rewrite Hs. }
    now rewrite V.
Qed.

End SampleAverages.

(** ** Halo geometry *)

Section Geometry.
Context {scipy : SciPy} {repo : Collaborators}.

Lemma Rpower_third_cubed x : 0 < x -> Rpower x (1 / 3) ^ 3 = x.
Proof.
  intros Hx. rewrite <- (Rpower_pow 3) by (unfold Rpower; apply exp_pos).
  rewrite Rpower_mult.
  replace (1 / 3 * INR 3) with 1 by (cbn [INR]; field).
  now apply Rpower_1.
Qed.

(** X14.  The virial radius is the radius of the sphere that holds the
    halo mass at [delta_v] times the mean density: for a positive mass and
    positive [delta_v] and [rho_bar], 4/3 pi r^3 delta_v rho_bar is the
    mass again.  The radius is positive and grows with the mass. *)
Theorem X14_virial_radius_encloses_the_mass (o : HaloObj) (m : R) :
  0 < m -> 0 < delta_v o -> 0 < rho_bar o ->
  0 < Halo._virial_radius o m /\
  4 / 3 * PI * Halo._virial_radius o m ^ 3 * delta_v o * rho_bar o = m /\
  (forall m', m < m' -> Halo._virial_radius o m < Halo._virial_radius o m').
Proof.
  intros Hm Hd Hr. pose proof PI_RGT_0 as Hpi.
  assert (Hden : 0 < 4 * PI * delta_v o * rho_bar o).
  { apply Rmult_lt_0_compat; [|exact Hr].
    apply Rmult_lt_0_compat; [|exact Hd]. lra. }
  assert (H3 : forall x, 0 < x -> 0 < 3 * x / (4 * PI * delta_v o * rho_bar o)).
  { intros x Hx. apply Rdiv_lt_0_compat; [lra | exact Hden]. }
  unfold Halo._virial_radius. cbv zeta. split; [|split].
  - unfold Rpower. apply exp_pos.
  - rewrite (Rpower_third_cubed _ (H3 m Hm)). field.
    split; [lra|]. split; [lra|]. apply Rgt_not_eq, Hpi.
  - intros m' Hlt. apply Rlt_Rpower_l; [lra|].
    split; [now apply H3|].
    unfold Rdiv. apply Rmult_lt_compat_r; [now apply Rinv_0_lt_compat | lra].
Qed.

(** X15.  The concentration follows the power law of Bullock et al.: a
    halo of the mass [m_star] has concentration [c0], and for a positive
    [c0] and a negative slope [beta] the concentration falls as the mass
    grows. *)
Theorem X15_concentration_is_c0_at_m_star (o : HaloObj) :
  0 < mass_function.m_star (mass o) ->
  Halo._concentration o (mass_function.m_star (mass o)) = c0 o /\
  (forall m m',
     0 < c0 o -> beta o < 0 -> 0 < m < m' ->
     Halo._concentration o m' < Halo._concentration o m).
Proof.
  intros Hs. unfold Halo._concentration. split.
  - replace (mass_function.m_star (mass o) / mass_function.m_star (mass o))
      with 1 by (field; lra).
    unfold Rpower. rewrite ln_1, Rmult_0_r, exp_0. ring.
  - intros m m' Hc Hb (H0 & Hlt).
    apply Rmult_lt_compat_l; [exact Hc|].
    unfold Rpower. apply exp_increasing.
    assert (L : ln (m / mass_function.m_star (mass o)) <
                ln (m' / mass_function.m_star (mass o))).
    { apply ln_increasing.
      - now apply Rdiv_lt_0_compat.
      - unfold Rdiv. apply Rmult_lt_compat_r;
          [now apply Rinv_0_lt_compat | exact Hlt]. }
    nra.
Qed.

End Geometry.

(** ** The angular bins of [Covariance] *)

Section Bins.
Import covariance.

Lemma ln_10_pos : 0 < ln 10.
Proof. rewrite <- ln_1. apply ln_increasing; lra. Qed.

Lemma Rpower_10_log10 x : 0 < x -> Rpower 10 (log10 x) = x.
Proof.
  intros Hx. unfold Rpower, log10. pose proof ln_10_pos.
  replace (ln x / ln 10 * ln 10) with (ln x) by (field; lra).
  now apply exp_ln.
Qed.

Lemma log10_Rpower_10 y : log10 (Rpower 10 y) = y.
Proof.
  unfold log10, Rpower. rewrite ln_exp. pose proof ln_10_pos. field. lra.
Qed.

Lemma Rpower_10_increasing x y : x < y -> Rpower 10 x < Rpower 10 y.
Proof.
  intros H. unfold Rpower. apply exp_increasing. pose proof ln_10_pos. nra.
Qed.

Lemma Rpower_10_le x y : x <= y -> Rpower 10 x <= Rpower 10 y.
Proof.
  intros [H|H]; [left; now apply Rpower_10_increasing | right; now rewrite H].
Qed.

Lemma floor_le x : floor x <= x.
Proof.
  unfold floor, Int_part. rewrite minus_IZR. destruct (archimed x). cbn. lra.
Qed.

Lemma floor_IZR n : floor (IZR n) = IZR n.
Proof.
  unfold floor, Int_part. f_equal.
  assert (E : up (IZR n) = (n + 1)%Z).
  { symmetry. apply tech_up; rewrite plus_IZR; lra. }
  rewrite E. lia.
Qed.

(** X17.  The centre of an annular bin is the geometric mean of its two
    radii: for 0 < inner < outer its square is inner * outer and it lies
    strictly between them; [delta] is the width. *)
Theorem X17_annulus_center_is_the_geometric_mean (inner' outer' : R) :
  0 < inner' < outer' ->
  let b := AnnulusBin__init__ inner' outer' in
  center b * center b = inner' * outer' /\
  inner' < center b < outer' /\
  delta b = outer' - inner' /\ 0 < delta b.
Proof.
  intros (Hi & Hlt) b. assert (Ho : 0 < outer') by lra.
  pose proof ln_10_pos as L.
  assert (C : center b = exp (0.5 * (ln inner' + ln outer'))).
  { unfold b, AnnulusBin__init__, center, Rpower, log10. f_equal. field. lra. }
  assert (I : ln inner' < ln outer') by now apply ln_increasing.
  split; [|split; [|split]].
  - rewrite C, <- exp_plus.
    replace (0.5 * (ln inner' + ln outer') + 0.5 * (ln inner' + ln outer'))
      with (ln inner' + ln outer') by lra.
    now rewrite exp_plus, !exp_ln.
  - rewrite C. split.
    + rewrite <- (exp_ln inner') at 1 by assumption. apply exp_increasing. lra.
    + rewrite <- (exp_ln outer') at 2 by assumption. apply exp_increasing. lra.
  - reflexivity.
  - unfold b, AnnulusBin__init__, delta. lra.
Qed.

(** The loop makes no progress from a state whose [theta] is below
    [theta_min_deg]. *)
Lemma bin_loop_stuck fuel theta_min_deg theta_max_deg bins_per_decade s :
  theta s < theta_min_deg -> theta s < theta_max_deg ->
  bin_loop fuel theta_min_deg theta_max_deg bins_per_decade s = None.
Proof.
  intros H1 H2. induction fuel as [|fuel IH]; [reflexivity|].
  cbn [bin_loop]. rewrite (Rltb_true _ _ H2).
  assert (E : bin_step theta_min_deg theta_max_deg bins_per_decade s = s).
  { unfold bin_step, Rleb.
    destruct (Rle_dec theta_min_deg (theta s)); [lra | reflexivity]. }
  now rewrite E.
Qed.

(** [theta] when the loop is entered: the power of ten at or below
    [theta_min_deg]. *)
Lemma first_theta theta_min_deg bins_per_decade :
  bins_per_decade <> 0 ->
  theta (first_binning theta_min_deg bins_per_decade) =
  Rpower 10 (floor (log10 theta_min_deg)).
Proof.
  intros Hb. unfold first_binning, theta. f_equal. now field.
Qed.

Lemma first_theta_below theta_min_deg bins_per_decade :
  0 < theta_min_deg -> bins_per_decade <> 0 ->
  (forall n : Z, theta_min_deg <> Rpower 10 (IZR n)) ->
  theta (first_binning theta_min_deg bins_per_decade) < theta_min_deg.
Proof.
  intros Hm Hb Hn. rewrite first_theta by assumption.
  destruct (floor_le (log10 theta_min_deg)) as [H|H].
  - rewrite <- (Rpower_10_log10 theta_min_deg) at 2 by assumption.
    now apply Rpower_10_increasing.
  - exfalso. apply (Hn (Int_part (log10 theta_min_deg))).
    fold (floor (log10 theta_min_deg)). rewrite H.
    symmetry. now apply Rpower_10_log10.
Qed.

(** X18.  Unless [theta_min_deg] is an integer power of ten, the loop of
    [Covariance.__init__] that builds the angular bins never ends: it
    starts at the power of ten below [theta_min_deg], where the test inside
    the loop fails, and the variables of the loop are advanced only when
    that test holds.  The constructor then yields nothing, whatever the
    number of iterations allowed. *)
Theorem X18_covariance_constructor_loops_forever
    (fuel : nat) (theta_min_deg theta_max_deg : R)
    (bins_per_decade survey_area_deg2 n_pairs' variance : R) :
  0 < theta_min_deg <= theta_max_deg -> bins_per_decade <> 0 ->
  (forall n : Z, theta_min_deg <> Rpower 10 (IZR n)) ->
  __init__ fuel theta_min_deg theta_max_deg bins_per_decade survey_area_deg2
    n_pairs' variance = None.
Proof.
  intros (Hm & Hle) Hb Hn. unfold __init__.
  pose proof (first_theta_below theta_min_deg bins_per_decade Hm Hb Hn) as Hlt.
  rewrite bin_loop_stuck; [reflexivity | exact Hlt | lra].
Qed.

(** More iterations allowed do not change the result of a loop that ends. *)
Lemma bin_loop_more fuel theta_min_deg theta_max_deg bins_per_decade :
  forall s s',
  bin_loop fuel theta_min_deg theta_max_deg bins_per_decade s = Some s' ->
  forall fuel', (fuel <= fuel')%nat ->
  bin_loop fuel' theta_min_deg theta_max_deg bins_per_decade s = Some s'.
Proof.
  induction fuel as [|fuel IH]; intros s s' E fuel' Hf; [discriminate|].
  destruct fuel' as [|fuel']; [lia|].
  cbn [bin_loop] in *.
  destruct (Rltb (theta s) theta_max_deg); [|exact E].
  apply IH; [exact E | lia].
Qed.

(** From a state at or above [theta_min_deg] whose [theta] is the power of
    ten of [unit_double / bins_per_decade], the loop ends within the
    number of steps that brings [theta] to [theta_max_deg]. *)
Lemma bin_loop_ends theta_min_deg theta_max_deg bins_per_decade :
  0 < bins_per_decade ->
  forall steps s,
  theta s = Rpower 10 (unit_double s / bins_per_decade) ->
  theta_min_deg <= theta s ->
  theta_max_deg <= Rpower 10 ((unit_double s + INR steps) / bins_per_decade) ->
  exists s',
    bin_loop (S steps) theta_min_deg theta_max_deg bins_per_decade s = Some s'.
Proof.
  intros Hb. induction steps as [|steps IH]; intros s Ht Hmin Hmax.
  - exists s. cbn [bin_loop]. rewrite Rltb_false.
    + reflexivity.
    + rewrite Ht. cbn [INR] in Hmax. now rewrite Rplus_0_r in Hmax.
  - cbn [bin_loop]. destruct (Rlt_dec (theta s) theta_max_deg) as [Hlt|Hge].
    + rewrite (Rltb_true _ _ Hlt).
      assert (E : bin_step theta_min_deg theta_max_deg bins_per_decade s =
                  {| annular_bins :=
                       annular_bins s ++
                       [AnnulusBin__init__ (theta s)
                          (Rpower 10 ((unit_double s + 1) / bins_per_decade))];
                     unit_double := unit_double s + 1;
                     theta := Rpower 10 ((unit_double s + 1) / bins_per_decade) |}).
      { unfold bin_step, Rleb.
        destruct (Rle_dec theta_min_deg (theta s)); [|contradiction].
        now rewrite (Rltb_true _ _ Hlt). }
      rewrite E. clear E.
      set (s1 := {| annular_bins := _; unit_double := _; theta := _ |}).
      destruct (IH s1) as (s' & E').
      * reflexivity.
      * cbn [theta s1]. apply Rle_trans with (theta s); [exact Hmin|].
        rewrite Ht. apply Rpower_10_le. unfold Rdiv.
        apply Rmult_le_compat_r; [left; now apply Rinv_0_lt_compat | lra].
      * cbn [unit_double s1]. rewrite S_INR in Hmax.
        now replace (unit_double s + 1 + INR steps)
          with (unit_double s + (INR steps + 1)) by ring.
      * exists s'. exact E'.
    + rewrite Rltb_false by lra. now exists s.
Qed.

(** X19.  When [theta_min_deg] is an integer power of ten, the loop of
    [Covariance.__init__] ends, whatever [theta_max_deg] is, and the
    constructor then raises NameError on [variace], the misspelt name it
    assigns to [variance]: given enough iterations the call ends with that
    exception. *)
Theorem X19_covariance_constructor_raises_name_error
    (n : Z) (theta_max_deg : R)
    (bins_per_decade survey_area_deg2 n_pairs' variance : R) :
  0 < bins_per_decade ->
  exists fuel0,
    forall fuel, (fuel0 <= fuel)%nat ->
    __init__ fuel (Rpower 10 (IZR n)) theta_max_deg bins_per_decade
      survey_area_deg2 n_pairs' variance = Some (Raises (NameError "variace")).
Proof.
  intros Hb. set (theta_min_deg := Rpower 10 (IZR n)).
  set (s0 := first_binning theta_min_deg bins_per_decade).
  assert (U : unit_double s0 = IZR n * bins_per_decade).
  { unfold s0, first_binning, unit_double, theta_min_deg.
    now rewrite log10_Rpower_10, floor_IZR. }
  assert (T : theta s0 = Rpower 10 (unit_double s0 / bins_per_decade))
    by reflexivity.
  assert (Tmin : theta_min_deg <= theta s0).
  { rewrite T, U. unfold theta_min_deg. right. f_equal. field. lra. }
  destruct (INR_unbounded (bins_per_decade * Rabs (log10 theta_max_deg) +
                           Rabs (unit_double s0))) as (steps & Hs).
  assert (Tmax : theta_max_deg <=
                 Rpower 10 ((unit_double s0 + INR steps) / bins_per_decade)).
  { destruct (Rle_dec theta_max_deg 0) as [Hneg|Hpos].
    - apply Rle_trans with 0; [exact Hneg|]. left. unfold Rpower. apply exp_pos.
    - rewrite <- (Rpower_10_log10 theta_max_deg) at 1 by lra.
      apply Rpower_10_le.
      apply Rmult_le_reg_r with bins_per_decade; [exact Hb|].
      replace ((unit_double s0 + INR steps) / bins_per_decade * bins_per_decade)
        with (unit_double s0 + INR steps) by (field; lra).
      pose proof (Rle_abs (log10 theta_max_deg)).
      pose proof (Rle_abs (- unit_double s0)). rewrite Rabs_Ropp in *.
      nra. }
  destruct (bin_loop_ends theta_min_deg theta_max_deg bins_per_decade Hb
              steps s0 T Tmin Tmax) as (s' & E).
  exists (S steps). intros fuel Hf. unfold __init__. fold theta_min_deg s0.
  now rewrite (bin_loop_more _ _ _ _ _ _ E fuel Hf).
Qed.

End Bins.

(** ** The invariant of the caches *)

Section Invariant.
Context {scipy : SciPy} {repo : Collaborators}.

Lemma cleared_present o :
  _initialized_h_g o = false -> _initialized_pp_mm o = false ->
  _initialized_pp_gm o = false -> _initialized_pp_gg o = false ->
  present _initialized_h_m _h_m_spline o -> terms_present o.
Proof.
  intros F2 F3 F4 F5 P. unfold terms_present, present in *.
  repeat split; try exact P; intros; congruence.
Qed.

Lemma set_hod_terms h o :
  let o' := after (Halo.set_hod h) o in
  (_initialized_h_m o' = _initialized_h_m o /\ _h_m_spline o' = _h_m_spline o) /\
  _initialized_h_g o' = false /\ _initialized_pp_mm o' = false /\
  _initialized_pp_gm o' = false /\ _initialized_pp_gg o' = false.
Proof.
  cbv zeta. rewrite set_hod_steps. repeat split; frame; reflexivity.
Qed.

Lemma set_halo_terms hd o :
  let o' := after (Halo.set_halo hd) o in
  (_initialized_h_m o' = _initialized_h_m o /\ _h_m_spline o' = _h_m_spline o) /\
  _initialized_h_g o' = false /\ _initialized_pp_mm o' = false /\
  _initialized_pp_gm o' = false /\ _initialized_pp_gg o' = false.
Proof.
  cbv zeta. rewrite set_halo_steps, set_hod_steps. repeat split; frame; reflexivity.
Qed.

Lemma set_hod_present h o :
  terms_present o -> terms_present (after (Halo.set_hod h) o).
Proof.
  intros (P1 & _). pose proof (set_hod_terms h o) as X. cbv zeta in X.
  destruct X as ((F1 & S1) & F2 & F3 & F4 & F5).
  apply cleared_present; [exact F2 | exact F3 | exact F4 | exact F5 |].
  unfold present in *. now rewrite F1, S1.
Qed.

Lemma set_halo_present hd o :
  terms_present o -> terms_present (after (Halo.set_halo hd) o).
Proof.
  intros (P1 & _). pose proof (set_halo_terms hd o) as X. cbv zeta in X.
  destruct X as ((F1 & S1) & F2 & F3 & F4 & F5).
  apply cleared_present; [exact F2 | exact F3 | exact F4 | exact F5 |].
  unfold present in *. now rewrite F1, S1.
Qed.

Lemma set_cosmology_present d z o :
  terms_present o -> terms_present (after (Halo.set_cosmology d z) o).
Proof.
  intros P.
  destruct (Req_dec_T
              (1 + match z with None => _redshift o | Some z => z end) 0)
    as [E|E].
  - unfold after. rewrite (set_cosmology_raises d z o E). cbn [snd]. exact P.
  - rewrite (set_cosmology_steps d z o E).
    match goal with |- terms_present (after init_tail ?a) =>
      pose proof (init_tail_flags a) as X end.
    cbv zeta in X. destruct X as (F1 & F2 & F3 & F4 & F5).
    apply cleared_present; [exact F2 | exact F3 | exact F4 | exact F5 |].
    intros F. congruence.
Qed.

Lemma set_redshift_present z o :
  terms_present o -> terms_present (after (Halo.set_redshift z) o).
Proof.
  intros P. destruct (Req_dec_T z (_redshift o)) as [E|E].
  - assert (A : after (Halo.set_redshift z) o = o)
      by (unfold after; now rewrite (set_redshift_same _ _ E)).
    now rewrite A.
  - assert (A : after (Halo.set_redshift z) o =
                after (Halo.set_cosmology (cosmology.cosmo_dict (cosmo o))
                         (Some z)) o)
      by (unfold after; now rewrite (set_redshift_other _ _ E)).
    rewrite A. now apply set_cosmology_present.
Qed.

(** X20.  A validity flag that is set has its spline: the constructor
    establishes this for the five terms, and every method of [Halo] that
    changes the object keeps it (the four mutators and the three spectra).
    On an object that has the property the three spectra of [Halo]
    return. *)
Theorem X20_a_valid_term_has_its_spline
    (o : HaloObj) (k : R) (input_hod : hod.HOD) (halo_dict' : HaloDict)
    (cosmo_dict' : dict) (redshift : option R) (redshift' : R) :
  terms_present o ->
  (terms_present (after (Halo.power_mm k) o) /\
   terms_present (after (Halo.power_gm k) o) /\
   terms_present (after (Halo.power_gg k) o)) /\
  (terms_present (after (Halo.set_hod input_hod) o) /\
   terms_present (after (Halo.set_halo halo_dict') o) /\
   terms_present (after (Halo.set_cosmology cosmo_dict' redshift) o) /\
   terms_present (after (Halo.set_redshift redshift') o)) /\
  ((exists v, returned (Halo.power_mm k) o = Ok v) /\
   (exists v, returned (Halo.power_gm k) o = Ok v) /\
   (exists v, returned (Halo.power_gg k) o = Ok v)) /\
  (forall c z h cs mf hd, terms_present (new c z h cs mf hd)).
Proof.
  intros P. split; [|split; [|split]].
  - rewrite after_power_mm, after_power_gm, after_power_gg.
    split; [now apply mm_ready_present|].
    split; [now apply gm_ready_present | now apply gg_ready_present].
  - split; [now apply set_hod_present|]. split; [now apply set_halo_present|].
    split; [now apply set_cosmology_present | now apply set_redshift_present].
  - destruct P as (P1 & P2 & P3 & P4 & P5). unfold returned. split; [|split].
    + destruct (power_mm_returns k o P1 P3) as (? & ? & _ & _ & E).
      rewrite E. eexists. reflexivity.
    + destruct (power_gm_returns k o P1 P2 P4) as (? & ? & ? & _ & _ & _ & E).
      rewrite E. eexists. reflexivity.
    + destruct (power_gg_returns k o P2 P5) as (? & ? & _ & _ & E).
      rewrite E. eexists. reflexivity.
  - intros. apply constructed_present, new_constructed.
Qed.

End Invariant.

(** ** The galaxy spectra of [HaloFit] *)

Section FitGalaxies.
Context {scipy : SciPy} {repo : Collaborators}.

(** The reads of a galaxy spectrum after [HaloFit.power_mm] has run on the
    object [o1] that the guarded constructions left: when [power_mm] raises,
    so does the spectrum. *)
Lemma halofit_galaxy_reads {B} k o1 na sa nb sb nc sc sa' sb' sc'
    (F : R -> R -> R -> R -> B) :
  (forall v x, sa (with_fit v x) = sa x) -> (forall v x, sa (with_built v x) = sa x) ->
  (forall v x, sb (with_fit v x) = sb x) -> (forall v x, sb (with_built v x) = sb x) ->
  (forall v x, sc (with_fit v x) = sc x) -> (forall v x, sc (with_built v x) = sc x) ->
  sa o1 = Some sa' -> sb o1 = Some sb' -> sc o1 = Some sc' ->
  returned
    (power_mm <- HaloFit.power_mm k ;;
     a <- Halo.term na sa k ;; b <- Halo.term nb sb k ;;
     c <- Halo.term nc sc k ;; ret (F power_mm a b c)) o1 =
  match returned (HaloFit.power_mm k) o1 with
  | Ok pmm =>
      Ok (F pmm (value_of o1 sa' k) (value_of o1 sb' k) (value_of o1 sc' k))
  | Raise e => Raise e
  end.
Proof.
  intros A1 A2 B1 B2 C1 C2 Sa Sb Sc.
  unfold returned, bind at 1.
  destruct (HaloFit.power_mm k o1) as [[pmm|e] o2] eqn:R; [|reflexivity].
  assert (A : o2 = after (HaloFit.power_mm k) o1)
    by (unfold after; now rewrite R).
  cbn [fst]. rewrite reads, A.
  rewrite (halofit_power_mm_frame sa k o1 A1 A2),
    (halofit_power_mm_frame sb k o1 B1 B2),
    (halofit_power_mm_frame sc k o1 C1 C2), Sa, Sb, Sc.
  unfold value_of.
  rewrite (halofit_power_mm_frame _k_min k o1),
    (halofit_power_mm_frame _k_max k o1) by reflexivity.
  reflexivity.
Qed.

(** X21.  The galaxy spectra of [HaloFit] are those of the halo model with
    the fitted matter spectrum in the place of the linear one: [power_gg]
    is power_mm h_g h_g + pp_gg and [power_gm] is power_mm h_g h_m + pp_gm,
    where power_mm is what [HaloFit.power_mm] returns on the object and the
    terms are the cached terms of [Halo], constructed by the call when they
    are not valid.  Where [HaloFit.power_mm] raises, the galaxy spectra
    raise the same exception.  On an object whose valid terms have their
    splines, the four spectra return where the library can take the
    derivatives of the fitted variance at the scale [_k_s], and raise
    TypeError where it cannot. *)
Theorem X21_halofit_galaxy_spectra_use_the_fitted_power_mm
    (o : HaloObj) (attrs : FitAttrs) (k : R) :
  terms_present o -> fit o = Some attrs ->
  _initialized_sigma_spline attrs = false ->
  (exists hg pp,
     _h_g_spline (gg_ready o) = Some hg /\
     _pp_gg_spline (gg_ready o) = Some pp /\
     returned (HaloFit.power_gg k) o =
     match returned (HaloFit.power_mm k) o with
     | Ok pmm => Ok (pmm * value_of o hg k * value_of o hg k + value_of o pp k)
     | Raise e => Raise e
     end) /\
  (exists hg hm pp,
     _h_g_spline (gm_ready o) = Some hg /\
     _h_m_spline (gm_ready o) = Some hm /\
     _pp_gm_spline (gm_ready o) = Some pp /\
     returned (HaloFit.power_gm k) o =
     match returned (HaloFit.power_mm k) o with
     | Ok pmm => Ok (pmm * value_of o hg k * value_of o hm k + value_of o pp k)
     | Raise e => Raise e
     end /\
     returned (HaloFit.power_mg k) o = returned (HaloFit.power_gm k) o) /\
  (if sigma_evaluates o
   then exists pmm ggv gmv,
          returned (HaloFit.power_mm k) o = Ok pmm /\
          returned (HaloFit.power_gg k) o = Ok ggv /\
          returned (HaloFit.power_gm k) o = Ok gmv
   else returned (HaloFit.power_mm k) o = Raise TypeError /\
        returned (HaloFit.power_gg k) o = Raise TypeError /\
        returned (HaloFit.power_gm k) o = Raise TypeError).
Proof.
  intros P Ef Fl.
  destruct (ready_present o P)
    as (_ & (Sgm1 & Sgm2 & Sgm3) & (Sgg1 & Sgg2) & _).
  destruct (ready_domain o) as (_ & (GM1 & GM2) & (GG1 & GG2) & _).
  assert (V : forall o1 s, _k_min o1 = _k_min o -> _k_max o1 = _k_max o ->
              value_of o1 s k = value_of o s k).
  { intros o1 s K1 K2. unfold value_of. now rewrite K1, K2. }
  assert (Same : forall o1, fit o1 = fit o -> cosmo o1 = cosmo o ->
                 _ln_k_min o1 = _ln_k_min o -> _ln_k_max o1 = _ln_k_max o ->
                 returned (HaloFit.power_mm k) o1 =
                 returned (HaloFit.power_mm k) o).
  { intros o1 H1 H2 H3 H4. now apply halofit_power_mm_reads. }
  destruct (_h_g_spline (gg_ready o)) as [hg|] eqn:S1; [|contradiction].
  destruct (_pp_gg_spline (gg_ready o)) as [pp|] eqn:S2; [|contradiction].
  destruct (_h_g_spline (gm_ready o)) as [hg'|] eqn:S3; [|contradiction].
  destruct (_h_m_spline (gm_ready o)) as [hm|] eqn:S4; [|contradiction].
  destruct (_pp_gm_spline (gm_ready o)) as [pp'|] eqn:S5; [|contradiction].
  assert (GG : returned (HaloFit.power_gg k) o =
               match returned (HaloFit.power_mm k) o with
               | Ok pmm =>
                   Ok (pmm * value_of o hg k * value_of o hg k + value_of o pp k)
               | Raise e => Raise e
               end).
  { unfold returned at 1. rewrite halofit_power_gg_run.
    unfold Halo._h_g, Halo._pp_gg.
    pose proof (halofit_galaxy_reads k (gg_ready o)
                  "_h_g_spline" _h_g_spline "_h_g_spline" _h_g_spline
                  "_pp_gg_spline" _pp_gg_spline hg hg pp
                  (fun power_mm a b c => power_mm * a * b + c)
                  (fun _ _ => eq_refl) (fun _ _ => eq_refl)
                  (fun _ _ => eq_refl) (fun _ _ => eq_refl)
                  (fun _ _ => eq_refl) (fun _ _ => eq_refl) S1 S1 S2) as R.
    unfold returned at 1 in R. rewrite R.
    rewrite (Same (gg_ready o)) by (guards; reflexivity).
    now rewrite !(V (gg_ready o)) by assumption. }
  assert (GM : returned (HaloFit.power_gm k) o =
               match returned (HaloFit.power_mm k) o with
               | Ok pmm =>
                   Ok (pmm * value_of o hg' k * value_of o hm k + value_of o pp' k)
               | Raise e => Raise e
               end).
  { unfold returned at 1. rewrite halofit_power_gm_run.
    unfold Halo._h_g, Halo._h_m, Halo._pp_gm.
    pose proof (halofit_galaxy_reads k (gm_ready o)
                  "_h_g_spline" _h_g_spline "_h_m_spline" _h_m_spline
                  "_pp_gm_spline" _pp_gm_spline hg' hm pp'
                  (fun power_mm a b c => power_mm * a * b + c)
                  (fun _ _ => eq_refl) (fun _ _ => eq_refl)
                  (fun _ _ => eq_refl) (fun _ _ => eq_refl)
                  (fun _ _ => eq_refl) (fun _ _ => eq_refl) S3 S4 S5) as R.
    unfold returned at 1 in R. rewrite R.
    rewrite (Same (gm_ready o)) by (guards; reflexivity).
    now rewrite !(V (gm_ready o)) by assumption. }
  split; [exists hg, pp; split; [reflexivity | split; [reflexivity | exact GG]]|].
  split.
  { exists hg', hm, pp'. do 3 (split; [reflexivity|]). split; [exact GM|].
    reflexivity. }
  rewrite GG, GM, halofit_power_mm_value, Ef, Fl.
  destruct (sigma_evaluates o) eqn:Ev.
  - destruct (sigma_spline_assigned o attrs Ef)
      as (attrs' & sc & E1 & E2 & _ & _ & _ & _ & _ & H).
    rewrite Ev in H. destruct H as (_ & c & E3 & _).
    unfold halofit_reads_of. rewrite E1, E3, E2.
    eexists _, _, _. split; [reflexivity|]. split; reflexivity.
  - split; [reflexivity|]. split; reflexivity.
Qed.

End FitGalaxies.

(** ** The first reads on a new object *)

Section FirstReads.
Context {scipy : SciPy} {repo : Collaborators}.

Lemma after_by_class {A} (a b c : M A) o :
  after (by_class a b c) o =
  match cls o with
  | Halo_cls => after a o
  | HaloExclusion_cls => after b o
  | HaloFit_cls => after c o
  end.
Proof. unfold after, by_class. destruct (cls o); reflexivity. Qed.

Lemma fresh_power_gm_built k o :
  _initialized_h_m o = false -> _initialized_h_g o = false ->
  _initialized_pp_gm o = false ->
  built (after (Halo.power_gm k) o) = built o ++ [H_M; H_G; PP_GM].
Proof.
  intros F1 F2 F4. rewrite after_power_gm. unfold gm_ready, ensure.
  rewrite F1. fields. rewrite F2. fields. rewrite F4. fields.
  now rewrite <- !app_assoc.
Qed.

(** The object a spectrum of [HaloExclusion] leaves, whether its reads
    find their splines or not. *)
Lemma exclusion_power_gg_after k o :
  present _initialized_h_m _h_m_spline o ->
  present _initialized_pp_mm _pp_mm_spline o ->
  after (HaloExclusion.power_gg k) o = mm_ready (exclusion_gg_ready o).
Proof.
  intros P1 P2. unfold after. rewrite exclusion_power_gg_run.
  assert (Q1 : present _initialized_h_m _h_m_spline (exclusion_gg_ready o)).
  { unfold present in *. guards; auto. }
  assert (Q2 : present _initialized_pp_mm _pp_mm_spline (exclusion_gg_ready o)).
  { unfold present in *. guards; auto. }
  destruct (power_mm_returns k _ Q1 Q2) as (hm & ppmm & _ & _ & E).
  rewrite (bind_ok _ _ _ _ _ E). apply after_reads.
Qed.

Lemma exclusion_power_gm_after k o :
  present _initialized_h_m _h_m_spline o ->
  present _initialized_pp_mm _pp_mm_spline o ->
  after (HaloExclusion.power_gm k) o = mm_ready (exclusion_gm_ready o).
Proof.
  intros P1 P2. unfold after. rewrite exclusion_power_gm_run.
  assert (Q1 : present _initialized_h_m _h_m_spline (exclusion_gm_ready o)).
  { unfold present in *. guards; auto. }
  assert (Q2 : present _initialized_pp_mm _pp_mm_spline (exclusion_gm_ready o)).
  { unfold present in *. guards; auto. }
  destruct (power_mm_returns k _ Q1 Q2) as (hm & ppmm & _ & _ & E).
  rewrite (bind_ok _ _ _ _ _ E). apply after_reads.
Qed.

Lemma fresh_exclusion_gg_built o :
  _initialized_h_m o = false -> _initialized_h_g o = false ->
  _initialized_pp_mm o = false -> _initialized_pp_gg o = false ->
  built (mm_ready (exclusion_gg_ready o)) = built o ++ [H_G; PP_GG; H_M; PP_MM].
Proof.
  intros F1 F2 F3 F5. rewrite mm_ready_built.
  assert (E1 : _initialized_h_m (exclusion_gg_ready o) = false)
    by (guards; congruence).
  assert (E2 : _initialized_pp_mm (exclusion_gg_ready o) = false)
    by (guards; congruence).
  assert (E3 : built (exclusion_gg_ready o) = built o ++ [H_G; PP_GG]).
  { guards; try congruence. now rewrite <- app_assoc. }
  rewrite E1, E2, E3. now rewrite <- !app_assoc.
Qed.

(** A galaxy spectrum of [HaloFit] leaves the object as [HaloFit.power_mm]
    leaves the one the guarded constructions have produced. *)
Lemma halofit_galaxy_after {B} k o1 na sa nb sb nc sc
    (F : R -> R -> R -> R -> B) :
  after
    (power_mm <- HaloFit.power_mm k ;;
     a <- Halo.term na sa k ;; b <- Halo.term nb sb k ;;
     c <- Halo.term nc sc k ;; ret (F power_mm a b c)) o1 =
  after (HaloFit.power_mm k) o1.
Proof.
  unfold after at 1 2, bind at 1.
  destruct (HaloFit.power_mm k o1) as [[pmm|e] o2]; [|reflexivity].
  cbn [snd]. apply (after_reads na sa nb sb nc sc k (F pmm) o2).
Qed.

Lemma halofit_power_mm_built k o attrs :
  fit o = Some attrs -> _initialized_sigma_spline attrs = false ->
  built (after (HaloFit.power_mm k) o) = built o ++ [SIGMA].
Proof.
  intros Ef Fl. rewrite (halofit_power_mm_after k o attrs Ef), Fl.
  now apply sigma_spline_built with attrs.
Qed.

Lemma halofit_power_gg_built k o attrs :
  fit o = Some attrs -> _initialized_sigma_spline attrs = false ->
  _initialized_h_g o = false -> _initialized_pp_gg o = false ->
  built (after (HaloFit.power_gg k) o) = built o ++ [H_G; PP_GG; SIGMA].
Proof.
  intros Ef Fl F2 F5. unfold after at 1. rewrite halofit_power_gg_run.
  unfold Halo._h_g, Halo._pp_gg.
  change (snd ?p) with (after (fun _ => p) o).
  unfold after at 1.
  change (snd ((?m) (gg_ready o))) with (after m (gg_ready o)).
  rewrite halofit_galaxy_after.
  assert (Ef1 : fit (gg_ready o) = Some attrs)
    by (rewrite <- Ef; guards; reflexivity).
  rewrite (halofit_power_mm_built k _ attrs Ef1 Fl).
  rewrite <- (after_power_gg k), (fresh_power_gg_built k o F2 F5).
  now rewrite <- app_assoc.
Qed.

Lemma halofit_power_gm_built k o attrs :
  fit o = Some attrs -> _initialized_sigma_spline attrs = false ->
  _initialized_h_m o = false -> _initialized_h_g o = false ->
  _initialized_pp_gm o = false ->
  built (after (HaloFit.power_gm k) o) = built o ++ [H_M; H_G; PP_GM; SIGMA].
Proof.
  intros Ef Fl F1 F2 F4. unfold after at 1. rewrite halofit_power_gm_run.
  unfold Halo._h_g, Halo._h_m, Halo._pp_gm.
  change (snd ((?m) (gm_ready o))) with (after m (gm_ready o)).
  rewrite halofit_galaxy_after.
  assert (Ef1 : fit (gm_ready o) = Some attrs)
    by (rewrite <- Ef; guards; reflexivity).
  rewrite (halofit_power_mm_built k _ attrs Ef1 Fl).
  rewrite <- (after_power_gm k), (fresh_power_gm_built k o F1 F2 F4).
  now rewrite <- app_assoc.
Qed.

(** C10 (as the code has it).  A constructed object of any class, at a
    redshift other than -1, has its five term caches unbuilt: every
    validity flag is False and no term spline exists.  The mean galaxy
    density and the three geometry splines are computed inside the
    constructor: the history of the new object is [N_BAR; GEOMETRY], its
    density and splines are what a recomputation gives, and the splines
    span the whole mass grid.  A term is built by the first spectrum
    evaluated on the new object that guards it: the history after each
    first call lists, for each class, the terms that call has built.
    [power_mm] of [HaloFit] builds no term, it integrates the variance.  In
    [HaloExclusion], where [power_gm] guards pp_gm by the flag of pp_gg, a
    [power_gm] that follows [power_gg] builds nothing and fails on the
    pp_gm spline it has not built. *)
Theorem C10_constructor_builds_n_bar_and_geometry
    (c : HaloClass) (redshift : R) (input_hod : option hod.HOD)
    (cosmo_single_epoch : option cosmology.SingleEpoch)
    (mass_func : option mass_function.MassFunction)
    (halo_dict : option HaloDict) (k k' : R) :
  1 + redshift <> 0 ->
  let o := new c redshift input_hod cosmo_single_epoch mass_func halo_dict in
  (_initialized_h_m o = false /\ _initialized_h_g o = false /\
   _initialized_pp_mm o = false /\ _initialized_pp_gm o = false /\
   _initialized_pp_gg o = false) /\
  (_h_m_spline o = None /\ _h_g_spline o = None /\ _pp_mm_spline o = None /\
   _pp_gm_spline o = None /\ _pp_gg_spline o = None) /\
  built o = [N_BAR; GEOMETRY] /\
  (n_bar o = n_bar (after Halo._calculate_n_bar o) /\
   n_bar_over_rho_bar o = n_bar_over_rho_bar (after Halo._calculate_n_bar o)) /\
  (_ln_r_v_spline o = _ln_r_v_spline (after Halo._initialize_halo_splines o) /\
   _ln_concen_spline o = _ln_concen_spline (after Halo._initialize_halo_splines o) /\
   _ln_halo_norm_spline o =
     _ln_halo_norm_spline (after Halo._initialize_halo_splines o)) /\
  (sp_x (_ln_r_v_spline o) = map snd (mass_function._nu_ln_mass_array (mass o)) /\
   List.length (sp_y (_ln_r_v_spline o)) =
     List.length (mass_function._nu_ln_mass_array (mass o))) /\
  built (after (power_mm k) o) =
    [N_BAR; GEOMETRY] ++
    match c with
    | HaloFit_cls => [SIGMA]
    | _ => [H_M; PP_MM]
    end /\
  built (after (power_gg k) o) =
    [N_BAR; GEOMETRY] ++
    match c with
    | Halo_cls => [H_G; PP_GG]
    | HaloExclusion_cls => [H_G; PP_GG; H_M; PP_MM]
    | HaloFit_cls => [H_G; PP_GG; SIGMA]
    end /\
  built (after (power_gm k) o) =
    [N_BAR; GEOMETRY] ++
    match c with
    | Halo_cls => [H_M; H_G; PP_GM]
    | HaloExclusion_cls => [H_G; PP_GM; H_M; PP_MM]
    | HaloFit_cls => [H_M; H_G; PP_GM; SIGMA]
    end /\
  built (after (power_mg k) o) = built (after (power_gm k) o) /\
  (c = HaloExclusion_cls ->
   let o1 := after (power_gg k) o in
   after (power_gm k') o1 = o1 /\ _pp_gm_spline o1 = None /\
   returned (power_gm k') o1 = Raise (AttributeError "_pp_gm_spline")).
Proof.
  intros Hz o.
  destruct (new_constructed c redshift input_hod cosmo_single_epoch mass_func
              halo_dict) as [F1 F2 F3 F4 F5 S1 S2 S3 S4 S5 B N1 N2 G1 G2 G3 K1 K2].
  assert (C : cls o = c) by apply new_cls.
  assert (Fit : c = HaloFit_cls ->
                exists attrs, fit o = Some attrs /\
                              _initialized_sigma_spline attrs = false).
  { intros ->. apply new_fit. }
  fold o in F1, F2, F3, F4, F5, S1, S2, S3, S4, S5, B, N1, N2, G1, G2, G3.
  clearbody o.
  assert (P1 : present _initialized_h_m _h_m_spline o) by (intro; congruence).
  assert (P2 : present _initialized_h_g _h_g_spline o) by (intro; congruence).
  assert (P3 : present _initialized_pp_mm _pp_mm_spline o) by (intro; congruence).
  assert (P5 : present _initialized_pp_gg _pp_gg_spline o) by (intro; congruence).
  split; [now repeat split|].
  split; [now repeat split|].
  split; [exact B|].
  split; [now split|].
  split; [now repeat split|].
  split.
  { rewrite G1, geometry_r_v. cbn [sp_x sp_y].
    split; [reflexivity|]. now rewrite !length_map. }
  assert (MG : built (after (power_mg k) o) = built (after (power_gm k) o)).
  { unfold power_mg, power_gm. rewrite !after_by_class.
    destruct (cls o); reflexivity. }
  split; [|split; [|split; [|split; [exact MG|]]]].
  - unfold power_mm. rewrite after_by_class, C. destruct c.
    + now rewrite (fresh_power_mm_built k o F1 F3), B.
    + now rewrite (fresh_power_mm_built k o F1 F3), B.
    + destruct (Fit eq_refl) as (attrs & Ef & Fl).
      now rewrite (halofit_power_mm_built k o attrs Ef Fl), B.
  - unfold power_gg. rewrite after_by_class, C. destruct c.
    + now rewrite (fresh_power_gg_built k o F2 F5), B.
    + now rewrite (exclusion_power_gg_after k o P1 P3),
        (fresh_exclusion_gg_built o F1 F2 F3 F5), B.
    + destruct (Fit eq_refl) as (attrs & Ef & Fl).
      now rewrite (halofit_power_gg_built k o attrs Ef Fl F2 F5), B.
  - unfold power_gm. rewrite after_by_class, C. destruct c.
    + now rewrite (fresh_power_gm_built k o F1 F2 F4), B.
    + rewrite (exclusion_power_gm_after k o P1 P3),
        (exclusion_gm_ready_built o F5), F1, F2, F3, B. reflexivity.
    + destruct (Fit eq_refl) as (attrs & Ef & Fl).
      now rewrite (halofit_power_gm_built k o attrs Ef Fl F1 F2 F4), B.
  - intros ->. cbv zeta.
    assert (A : after (power_gg k) o = mm_ready (exclusion_gg_ready o)).
    { unfold power_gg. rewrite after_by_class, C.
      exact (exclusion_power_gg_after k o P1 P3). }
    rewrite A. clear A. unfold power_gm, returned.
    set (o1 := mm_ready (exclusion_gg_ready o)).
    assert (C1 : cls o1 = HaloExclusion_cls).
    { subst o1. unfold mm_ready; guards; assumption. }
    assert (H1 : _initialized_h_m o1 = true) by apply mm_ready_flags.
    assert (H3 : _initialized_pp_mm o1 = true) by apply mm_ready_flags.
    assert (H2 : _initialized_h_g o1 = true)
      by (subst o1; unfold mm_ready; guards; congruence).
    assert (H5 : _initialized_pp_gg o1 = true)
      by (subst o1; unfold mm_ready; guards; congruence).
    assert (T1 : _h_m_spline o1 <> None)
      by (subst o1; unfold mm_ready; guards; congruence).
    assert (T3 : _pp_mm_spline o1 <> None)
      by (subst o1; unfold mm_ready; guards; congruence).
    assert (T2 : _h_g_spline o1 <> None)
      by (subst o1; unfold mm_ready; guards; congruence).
    assert (T4 : _pp_gm_spline o1 = None)
      by (subst o1; unfold mm_ready; guards; congruence).
    clearbody o1.
    assert (Q1 : present _initialized_h_m _h_m_spline o1) by (intro; exact T1).
    assert (Q3 : present _initialized_pp_mm _pp_mm_spline o1) by (intro; exact T3).
    assert (Q2 : present _initialized_h_g _h_g_spline o1) by (intro; exact T2).
    rewrite after_by_class, by_class_run, C1.
    split; [|split; [exact T4|]].
    + rewrite (exclusion_power_gm_after k' o1 Q1 Q3).
      unfold exclusion_gm_ready, ensure. rewrite H2, H5.
      unfold mm_ready, ensure. now rewrite H1, H3.
    + exact (exclusion_power_gm_raises k' o1 Q1 Q3 Q2 H5 T4).
Qed.

End FirstReads.

(** ** The small configuration, continued *)

Section MoreExamples.
#[local] Existing Instance demo.scipy.
#[local] Existing Instance demo.repo.

Lemma demo_grid c : _ln_k_array (demo.halo c) <> [].
Proof.
  destruct (new_config c 0 None None None None) as (_ & _ & _ & _ & _ & G).
  unfold demo.halo. rewrite G.
  change (_ln_k_array (Halo.allocated c 0 None None None None))
    with (linspace (ln 0.001) (ln 100.0) 2).
  discriminate.
Qed.

Lemma demo_geometry c :
  delta_v (demo.halo c) = 200 /\ rho_bar (demo.halo c) = 1 /\
  halo_dict (demo.halo c) = demo.h_dict.
Proof.
  unfold demo.halo. rewrite new_unfold.
  destruct c; cbv iota; repeat split;
    rewrite ?fit_tail_frame by reflexivity; rewrite init_tail_steps; frame;
    reflexivity.
Qed.

Lemma romberg_depth_1_positive f a b tol rtol :
  a < b -> 0 < f a -> 0 < f b -> 0 < f (a + 0.5 * (b - a)) ->
  0 < integrate.value (integrate.romberg_run f a b tol rtol 1).
Proof.
  intros Hab Ha Hb Hm. rewrite romberg_run_depth_1. cbv zeta.
  cbn [integrate.value].
  replace ((4 * ((b - a) * (0.5 * (f a + f b) + f (a + 0.5 * (b - a))) / 2) -
            (b - a) * (0.5 * (f a + f b))) / 3)
    with ((b - a) * (0.5 * (f a + f b) + 2 * f (a + 0.5 * (b - a))) / 3)
    by field.
  apply Rdiv_lt_0_compat; [|lra]. apply Rmult_lt_0_compat; lra.
Qed.

(** The mean density of the small configuration is positive. *)
Lemma demo_density o :
  mass_function.mass (mass o) = (fun nu => nu) ->
  mass_function.f_nu (mass o) = (fun nu => / nu) ->
  mass_function.nu_min (mass o) = 1 -> mass_function.nu_max (mass o) = exp 1 ->
  local_hod o = demo.zheng ->
  hod_nu_min o (hod.first_moment_zero (local_hod o)) =
    mass_function.nu_min (mass o) /\
  0 < n_bar_over_rho_bar (after Halo._calculate_n_bar o).
Proof.
  intros Hm Hf H1 H2 Hh.
  assert (Fl : hod_nu_min o (hod.first_moment_zero (local_hod o)) =
               mass_function.nu_min (mass o)).
  { unfold hod_nu_min. rewrite Hh. cbn [hod.first_moment_zero demo.zheng].
    now rewrite (Rltb_false (-1) (-1)) by lra. }
  split; [exact Fl|].
  rewrite n_bar_over_rho_bar_value, Fl, H1, H2, ln_1, ln_exp.
  unfold Halo.romberg, Halo.romberg_run.
  cbn [default_precision demo.repo defaults.divmax].
  assert (P : forall x, 0 < Halo._nbar_integrand o x).
  { intros x. unfold Halo._nbar_integrand. cbv zeta. rewrite Hm, Hf, Hh.
    cbn [hod.first_moment demo.zheng]. pose proof (exp_pos x) as E.
    apply Rdiv_lt_0_compat; [|exact E].
    apply Rmult_lt_0_compat; [|now apply Rinv_0_lt_compat].
    apply Rmult_lt_0_compat; lra. }
  apply romberg_depth_1_positive; [lra | apply P ..].
Qed.

Lemma X6_witness :
  let o := demo.halo HaloFit_cls in
  exists attrs,
    (fit o = Some attrs /\ _initialized_sigma_spline attrs = false) /\
    built (after (HaloFit.power_mm 2) (after (HaloFit.power_mm 1) o)) =
    built o ++ [SIGMA; SIGMA].
Proof.
  intro o.
  destruct (new_fit 0 None None None None) as (attrs & Ef & Fl).
  exists attrs. split; [now split|].
  exact (proj1 (proj2 (proj2
           (X6_halofit_rebuilds_sigma_at_every_call o attrs 1 2 Ef Fl)))).
Defined.

Lemma X7_witness :
  let o := demo.halo HaloExclusion_cls in
  (terms_present o /\ _initialized_pp_gg o = false) /\
  built (after (HaloExclusion.power_gm 2) (after (HaloExclusion.power_gm 1) o)) =
  built (after (HaloExclusion.power_gm 1) o) ++ [PP_GM].
Proof.
  intro o.
  assert (P : terms_present o) by apply demo_present.
  assert (F : _initialized_pp_gg o = false)
    by apply (new_pp_gg _ (demo_constructed HaloExclusion_cls)).
  split; [now split|].
  exact (proj2 (proj2 (proj2 (proj2 (proj2
           (X7_exclusion_power_gm_rebuilds_pp_gm o 1 2 P F)))))).
Defined.

Lemma X8_witness :
  let o := demo.halo Halo_cls in
  (cls o = Halo_cls /\ terms_present o) /\
  exists lines,
    returned (write "halo.ascii") o = Ok lines /\
    List.length lines = S (List.length (_ln_k_array o)).
Proof.
  intro o.
  assert (C : cls o = Halo_cls) by apply demo_config.
  assert (P : terms_present o) by apply demo_present.
  split; [now split|].
  exact (proj1 (X8_write_builds_every_term_once o "halo.ascii" C P)).
Defined.

Lemma X9_witness :
  let o := demo.halo HaloExclusion_cls in
  (cls o = HaloExclusion_cls /\ terms_present o /\ _pp_gm_spline o = None /\
   _ln_k_array o <> []) /\
  returned (write "halo.ascii") o = Raise (AttributeError "_pp_gm_spline").
Proof.
  intro o.
  assert (C : cls o = HaloExclusion_cls) by apply demo_config.
  assert (P : terms_present o) by apply demo_present.
  assert (S : _pp_gm_spline o = None)
    by apply (new_pp_gm_spline _ (demo_constructed HaloExclusion_cls)).
  assert (N : _ln_k_array o <> []) by apply demo_grid.
  split; [now repeat split|].
  exact (X9_write_fails_on_exclusion_objects o "halo.ascii" C P S N).
Defined.

Lemma X10_witness :
  let o := demo.halo Halo_cls in
  (_h_m_spline o = None /\ _ln_k_array o <> []) /\
  write_power_components "components.ascii" o =
  (Raise (AttributeError "_h_m_spline"), o).
Proof.
  intro o.
  assert (S : _h_m_spline o = None)
    by apply (new_h_m_spline _ (demo_constructed Halo_cls)).
  assert (N : _ln_k_array o <> []) by apply demo_grid.
  split; [now split|].
  exact (X10_write_power_components_needs_the_terms o "components.ascii" S N).
Defined.

Lemma X11_witness :
  let o := spectra_ready (demo.halo Halo_cls) in
  exists hm hg pmm pgm pgg,
    (_h_m_spline o = Some hm /\ _h_g_spline o = Some hg /\
     _pp_mm_spline o = Some pmm /\ _pp_gm_spline o = Some pgm /\
     _pp_gg_spline o = Some pgg) /\
    exists lines, write_power_components "components.ascii" o = (Ok lines, o).
Proof.
  intro o.
  destruct (spectra_ready_all_ready (demo.halo Halo_cls)
              (proj1 (demo_present Halo_cls))) as (_ & S1 & S2 & S3 & S4 & S5).
  fold o in S1, S2, S3, S4, S5. clearbody o.
  destruct (_h_m_spline o) as [hm|] eqn:E1; [|contradiction].
  destruct (_h_g_spline o) as [hg|] eqn:E2; [|contradiction].
  destruct (_pp_mm_spline o) as [pmm|] eqn:E3; [|contradiction].
  destruct (_pp_gm_spline o) as [pgm|] eqn:E4; [|contradiction].
  destruct (_pp_gg_spline o) as [pgg|] eqn:E5; [|contradiction].
  exists hm, hg, pmm, pgm, pgg. split; [now repeat split|].
  destruct (X11_write_power_components_reads_the_five_terms o "components.ascii"
              hm hg pmm pgm pgg E1 E2 E3 E4 E5) as (header & E).
  eexists. exact E.
Defined.

Lemma X12_witness :
  let o := demo2.halo_unbiased in
  ((forall nu, mass_function.bias_nu (mass o) nu = 1) /\
   hod_nu_min o (hod.first_moment_zero (local_hod o)) =
     mass_function.nu_min (mass o) /\
   n_bar_over_rho_bar o = n_bar_over_rho_bar (after Halo._calculate_n_bar o) /\
   n_bar_over_rho_bar o <> 0) /\
  fst (calculate_bias o {| bias := None; m_eff := None; f_sat := None |}) = Ok 1.
Proof.
  intro o.
  destruct (new_config Halo_cls 0 None None (Some demo2.unbiased) None)
    as (_ & Hm & Hh & _).
  pose proof (new_n_bar_over_rho_bar _
                (new_constructed Halo_cls 0 None None (Some demo2.unbiased) None))
    as Hn.
  change (new Halo_cls 0 None None (Some demo2.unbiased) None) with o in Hm, Hh, Hn.
  change (mass (Halo.allocated Halo_cls 0 None None (Some demo2.unbiased) None))
    with demo2.unbiased in Hm.
  change (local_hod (Halo.allocated Halo_cls 0 None None (Some demo2.unbiased) None))
    with demo.zheng in Hh.
  clearbody o.
  assert (Hb : forall nu, mass_function.bias_nu (mass o) nu = 1)
    by (intro; now rewrite Hm).
  destruct (demo_density o) as (Hf & Hp); try (rewrite Hm; reflexivity);
    try exact Hh.
  assert (Hz : n_bar_over_rho_bar o <> 0) by (rewrite Hn; lra).
  split; [now repeat split|].
  now rewrite (X12_bias_of_unbiased_halos_is_one o _ Hb Hf Hn Hz).
Defined.

Lemma X13_witness :
  let o := demo.halo Halo_cls in
  let a := {| bias := None; m_eff := None; f_sat := None |} in
  (@satellite_first_moment demo2.no_satellites (local_hod o) = None /\
   @satellite_first_moment demo2.all_satellites (local_hod o) =
     Some (hod.first_moment (local_hod o)) /\
   hod_nu_min o (hod.first_moment_zero (local_hod o)) =
     mass_function.nu_min (mass o) /\
   n_bar_over_rho_bar o = n_bar_over_rho_bar (after Halo._calculate_n_bar o) /\
   n_bar_over_rho_bar o <> 0) /\
  fst (calculate_f_sat (sat := demo2.no_satellites) o a) =
    Raise (AttributeError "satellite_first_moment") /\
  fst (calculate_f_sat (sat := demo2.all_satellites) o a) = Ok 1.
Proof.
  intros o a.
  destruct (demo_config Halo_cls) as (_ & Hm & Hh & _).
  pose proof (new_n_bar_over_rho_bar _ (demo_constructed Halo_cls)) as Hn.
  fold o in Hm, Hh, Hn. clearbody o.
  destruct (demo_density o) as (Hf & Hp); try (rewrite Hm; reflexivity);
    try exact Hh.
  assert (Hz : n_bar_over_rho_bar o <> 0) by (rewrite Hn; lra).
  split; [now repeat split|]. split.
  - now rewrite (proj1 (X13_f_sat_needs_satellites_and_is_normalised
                          (sat := demo2.no_satellites) o a) eq_refl).
  - now rewrite (proj2 (X13_f_sat_needs_satellites_and_is_normalised
                          (sat := demo2.all_satellites) o a)
                   (hod.first_moment (local_hod o)) eq_refl
                   (fun m => eq_refl) Hf Hn Hz).
Defined.

Lemma X14_witness :
  let o := demo.halo Halo_cls in
  (0 < 1 /\ 0 < delta_v o /\ 0 < rho_bar o) /\
  4 / 3 * PI * Halo._virial_radius o 1 ^ 3 * delta_v o * rho_bar o = 1.
Proof.
  intro o.
  destruct (demo_geometry Halo_cls) as (Hd & Hr & _). fold o in Hd, Hr.
  assert (H1 : 0 < 1) by lra.
  assert (H2 : 0 < delta_v o) by (rewrite Hd; lra).
  assert (H3 : 0 < rho_bar o) by (rewrite Hr; lra).
  split; [now repeat split|].
  exact (proj1 (proj2 (X14_virial_radius_encloses_the_mass o 1 H1 H2 H3))).
Defined.

Lemma X15_witness :
  let o := demo.halo Halo_cls in
  0 < mass_function.m_star (mass o) /\
  Halo._concentration o (mass_function.m_star (mass o)) = c0 o.
Proof.
  intro o.
  assert (H : 0 < mass_function.m_star (mass o)).
  { unfold o. rewrite (proj1 (proj2 (demo_config Halo_cls))).
    cbn [mass_function.m_star demo.mass_func]. lra. }
  split; [exact H|].
  exact (proj1 (X15_concentration_is_c0_at_m_star o H)).
Defined.

Lemma X17_witness :
  0 < 1 < 4 /\
  covariance.center (covariance.AnnulusBin__init__ 1 4) *
  covariance.center (covariance.AnnulusBin__init__ 1 4) = 1 * 4.
Proof.
  assert (H : 0 < 1 < 4) by lra.
  split; [exact H|].
  exact (proj1 (X17_annulus_center_is_the_geometric_mean 1 4 H)).
Defined.

Lemma two_is_no_power_of_ten (n : Z) : 2 <> Rpower 10 (IZR n).
Proof.
  destruct (Z.le_gt_cases n 0) as [Hn|Hn].
  - assert (L : Rpower 10 (IZR n) <= Rpower 10 0)
      by (apply Rpower_10_le; now apply IZR_le).
    rewrite Rpower_O in L by lra. lra.
  - assert (L : Rpower 10 1 <= Rpower 10 (IZR n))
      by (apply Rpower_10_le; apply IZR_le; lia).
    rewrite Rpower_1 in L by lra. lra.
Qed.

Lemma X18_witness :
  (0 < 2 <= 3 /\ 5 <> 0 /\ forall n : Z, 2 <> Rpower 10 (IZR n)) /\
  covariance.__init__ 1000 2 3 5 1 1 1 = None.
Proof.
  assert (H1 : 0 < 2 <= 3) by lra.
  assert (H2 : 5 <> 0) by lra.
  split; [split; [exact H1 | split; [exact H2 | exact two_is_no_power_of_ten]]|].
  exact (X18_covariance_constructor_loops_forever 1000 2 3 5 1 1 1 H1 H2
           two_is_no_power_of_ten).
Defined.

Lemma X19_witness :
  0 < 5 /\
  exists fuel0,
    forall fuel, (fuel0 <= fuel)%nat ->
    covariance.__init__ fuel (Rpower 10 (IZR 0)) 10 5 1 1 1 =
    Some (covariance.Raises (covariance.NameError "variace")).
Proof.
  assert (H : 0 < 5) by lra.
  split; [exact H|].
  exact (X19_covariance_constructor_raises_name_error 0 10 5 1 1 1 H).
Defined.

Lemma X20_witness :
  let o := demo.halo Halo_cls in
  terms_present o /\
  terms_present (after (Halo.set_hod demo.threshold_hod) o) /\
  exists v, returned (Halo.power_gg 1) o = Ok v.
Proof.
  intro o.
  assert (P : terms_present o) by apply demo_present.
  split; [exact P|].
  destruct (X20_a_valid_term_has_its_spline o 1 demo.threshold_hod demo.h_dict_2
              [] None 1 P) as (_ & (A & _) & (_ & _ & B) & _).
  split; [exact A | exact B].
Defined.

End MoreExamples.

(** ** The configuration on grids the library fits *)

Section FittedExamples.
#[local] Existing Instance demo6.scipy.
#[local] Existing Instance demo6.repo.

Lemma demo6_constructed c : constructed (demo6.halo c).
Proof. apply new_constructed. Qed.

Lemma demo6_config c :
  cls (demo6.halo c) = c /\ cosmo (demo6.halo c) = demo6.cosmo /\
  _redshift (demo6.halo c) = 0.
Proof.
  destruct (new_config c 0 None None None None) as (C & _ & _ & Hc & Hz & _).
  unfold demo6.halo. rewrite C, Hc, Hz. repeat split; reflexivity.
Qed.

Lemma demo6_present c : terms_present (demo6.halo c).
Proof. apply constructed_present, demo6_constructed. Qed.

Lemma Rleb_true a b : a <= b -> Rleb a b = true.
Proof. intros H. unfold Rleb. destruct (Rle_dec a b); [reflexivity|lra]. Qed.

(** In this configuration the scale of [HaloFit] is 1, inside the grid of
    radii. *)
Lemma demo6_sigma_evaluates o : sigma_evaluates o = true.
Proof.
  unfold sigma_evaluates, sigma_k_s, within_knots, sigma_radii, sigma_variance.
  cbn [sp_x sp_y spline_call demo6.scipy
       default_precision demo6.repo defaults.halo_npoints].
  unfold linspace. cbn [seq map rev app hd last INR].
  assert (E : ln 0.1 = - ln 10.0).
  { replace 0.1 with (/ 10.0) by lra. apply ln_Rinv. lra. }
  assert (P : 0 < ln 10.0).
  { rewrite <- ln_1. apply ln_increasing; lra. }
  rewrite E.
  replace ((- ln 10.0 +
            (1 + 1 + 1 + 1 + 1) * ((ln 10.0 - - ln 10.0) / (1 + 1 + 1 + 1 + 1)) +
            (- ln 10.0 + 0 * ((ln 10.0 - - ln 10.0) / (1 + 1 + 1 + 1 + 1)))) / 2)
    with 0 by field.
  rewrite exp_0. replace (1 / (1 / 1)) with 1 by field. rewrite ln_1.
  rewrite !Rleb_true by lra. reflexivity.
Qed.




(** C9 (as stated) fails: at k R = pi/2 the window that multiplies the
    integrand of h_g lies below the Fourier transform of a top-hat window
    of the same radius. *)
Lemma C9_window_is_not_the_top_hat_transform :
  let o := demo6.halo HaloExclusion_cls in
  let R := 2 * Halo.virial_radius o 1 in
  let ln_k := ln (PI / 2 / R) in
  exp ln_k * R = PI / 2 /\
  HaloExclusion._mass_window o 1 ln_k < top_hat_transform (exp ln_k * R).
Proof.
  intros o.
  assert (Ci : snd (sici (PI / 2)) <= 1 / 2) by (cbn [sici demo6.scipy snd]; lra).
  exact (mass_window_below_top_hat o 1 Ci).
Qed.

Lemma C9_witness :
  let o := demo6.halo HaloExclusion_cls in
  let k := 1 in
  (cls o = HaloExclusion_cls /\ terms_present o /\
   present _initialized_pp_gg _pp_gm_spline o /\
   snd (sici (PI / 2)) <= 1 / 2) /\
  power_mm k o = Halo.power_mm k o /\
  (exists hm ppmm hg pgg pgm,
     cached _initialized_h_m _h_m_spline h_m_table o = Some hm /\
     cached _initialized_pp_mm _pp_mm_spline pp_mm_table o = Some ppmm /\
     cached _initialized_h_g _h_g_spline exclusion_h_g_table o = Some hg /\
     cached _initialized_pp_gg _pp_gg_spline pp_gg_table o = Some pgg /\
     cached _initialized_pp_gg _pp_gm_spline pp_gm_table o = Some pgm /\
     let pmm :=
       Halo.linear_power o k * value_of o hm k * value_of o hm k +
       value_of o ppmm k in
     returned (power_mm k) o = Ok pmm /\
     returned (power_gg k) o =
       Ok (pmm * value_of o hg k * value_of o hg k + value_of o pgg k) /\
     returned (power_gm k) o =
       Ok (pmm * value_of o hg k * value_of o hm k + value_of o pgm k) /\
     returned (power_mg k) o = returned (power_gm k) o) /\
  _h_g_spline (after _initialize_h_g o) = Some (exclusion_h_g_table o) /\
  (forall ln_nu ln_k,
     _h_g_integrand o ln_nu ln_k =
     HaloExclusion._mass_window o (mass_function.mass (mass o) (exp ln_nu)) ln_k *
     Halo._h_g_integrand o ln_nu ln_k) /\
  (forall m,
     let R := 2 * Halo.virial_radius o m in
     let ln_k := ln (PI / 2 / R) in
     exp ln_k * R = PI / 2 /\
     HaloExclusion._mass_window o m ln_k < top_hat_transform (exp ln_k * R)).
Proof.
  intros o k.
  assert (C : cls o = HaloExclusion_cls) by apply demo6_config.
  assert (P : terms_present o) by apply demo6_present.
  assert (Q : present _initialized_pp_gg _pp_gm_spline o).
  { intros F. unfold o in F.
    rewrite (new_pp_gg _ (demo6_constructed HaloExclusion_cls)) in F.
    discriminate. }
  assert (Ci : snd (sici (PI / 2)) <= 1 / 2)
    by (cbn [sici demo6.scipy snd]; lra).
  split; [split; [exact C | split; [exact P | split; [exact Q | exact Ci]]]|].
  destruct (C9_exclusion_uses_power_mm_and_window o k C P Q)
    as (A & B & T & I & W).
  split; [exact A|]. split; [exact B|]. split; [exact T|].
  split; [exact I | exact (W Ci)].
Defined.

(** C10 (as stated) fails: the constructor has already computed the mean
    galaxy density and the geometry splines, over the six points of the
    mass grid. *)
Lemma C10_constructor_is_eager :
  let o := demo6.halo Halo_cls in
  built o = [N_BAR; GEOMETRY] /\
  List.length (sp_y (_ln_r_v_spline o)) = 6%nat.
Proof.
  intro o.
  destruct (demo6_constructed Halo_cls)
    as [_ _ _ _ _ _ _ _ _ _ B _ _ G1 _ _ _ _].
  destruct (new_config Halo_cls 0 None None None None) as (_ & Hm & _).
  fold o in B, G1. change (new Halo_cls 0 None None None None) with o in Hm.
  clearbody o.
  split; [exact B|].
  rewrite G1, geometry_r_v. cbn [sp_y]. rewrite !length_map, Hm. reflexivity.
Qed.

Lemma C10_witness :
  let o := demo6.halo HaloExclusion_cls in
  1 + 0 <> 0 /\
  built o = [N_BAR; GEOMETRY] /\
  built (after (power_mm 1) o) = [N_BAR; GEOMETRY] ++ [H_M; PP_MM] /\
  built (after (power_gg 1) o) = [N_BAR; GEOMETRY] ++ [H_G; PP_GG; H_M; PP_MM] /\
  built (after (power_gm 1) o) = [N_BAR; GEOMETRY] ++ [H_G; PP_GM; H_M; PP_MM] /\
  returned (power_gm 2) (after (power_gg 1) o) =
    Raise (AttributeError "_pp_gm_spline").
Proof.
  intro o.
  assert (Hz : 1 + 0 <> 0) by lra.
  split; [exact Hz|].
  destruct (C10_constructor_builds_n_bar_and_geometry HaloExclusion_cls 0 None
              None None None 1 2 Hz)
    as (_ & _ & B & _ & _ & _ & MM & GG & GM & _ & X).
  split; [exact B|]. split; [exact MM|]. split; [exact GG|]. split; [exact GM|].
  exact (proj2 (proj2 (X eq_refl))).
Defined.

Lemma X2_witness :
  let o := demo6.halo Halo_cls in
  (1 + 1 <> 0 /\ 1 + -1 = 0) /\
  (returned (Halo.set_cosmology [] (Some 1)) o = Ok tt /\
   built (after (Halo.set_cosmology [] (Some 1)) o) =
     built o ++ [N_BAR; GEOMETRY]) /\
  (returned (Halo.set_cosmology [] (Some (-1))) o = Raise ZeroDivisionError /\
   c0 (after (Halo.set_cosmology [] (Some (-1))) o) = c0 o).
Proof.
  intro o.
  assert (H1 : 1 + 1 <> 0) by lra.
  assert (H2 : 1 + -1 = 0) by lra.
  split; [now split|].
  pose proof (X2_set_cosmology_rebuilds_density_and_geometry o [] (Some 1)) as A.
  pose proof (X2_set_cosmology_rebuilds_density_and_geometry o [] (Some (-1))) as B.
  clearbody o. cbv beta iota zeta in A, B.
  destruct A as (_ & _ & A & _). destruct B as (_ & _ & _ & B).
  destruct (A H1) as (A1 & _ & _ & A2 & _).
  destruct (B H2) as (B1 & (B2 & _) & _).
  split; [split; [exact A1 | exact A2] | split; [exact B1 | exact B2]].
Defined.

Lemma X3_witness :
  let o := demo6.halo Halo_cls in
  (0 = _redshift o /\ 1 <> _redshift o /\ -1 <> _redshift o /\
   1 + 1 <> 0 /\ 1 + -1 = 0) /\
  after (Halo.set_redshift 0) o = o /\
  built (after (Halo.set_redshift 1) o) = built o ++ [N_BAR; GEOMETRY] /\
  returned (Halo.set_redshift (-1)) o = Raise ZeroDivisionError.
Proof.
  intro o.
  assert (Z : _redshift o = 0) by apply demo6_config.
  assert (H0 : 0 = _redshift o) by (now rewrite Z).
  assert (H1 : 1 <> _redshift o) by (rewrite Z; lra).
  assert (H2 : -1 <> _redshift o) by (rewrite Z; lra).
  assert (H3 : 1 + 1 <> 0) by lra.
  assert (H4 : 1 + -1 = 0) by lra.
  split; [repeat split; assumption|].
  pose proof (X3_set_redshift_acts_only_on_a_change o 0) as A.
  pose proof (X3_set_redshift_acts_only_on_a_change o 1) as B.
  pose proof (X3_set_redshift_acts_only_on_a_change o (-1)) as C.
  clearbody o. cbv zeta in A, B, C.
  destruct A as (_ & A & _). destruct B as (_ & _ & B). destruct C as (_ & _ & C).
  destruct (A H0) as (_ & A1).
  destruct (B H1) as (_ & B1 & _). destruct (B1 H3) as (_ & B2 & _).
  destruct (C H2) as (_ & _ & C1). destruct (C1 H4) as (C2 & _).
  split; [exact A1 | split; [exact B2 | exact C2]].
Defined.

Lemma X4_witness :
  let o := demo6.halo Halo_cls in
  (1 + _redshift o <> 0 /\ 1 <> _redshift o /\ -1 <> _redshift o /\
   1 + 1 <> 0 /\ 1 + -1 = 0) /\
  c0 (after (Halo.set_redshift 1) (after (Halo.set_halo demo.h_dict_2) o)) =
    dict_c0 (halo_dict o) / (1 + 1) /\
  c0 (after (Halo.set_redshift (-1)) (after (Halo.set_halo demo.h_dict_2) o)) =
    dict_c0 demo.h_dict_2 / (1 + _redshift o).
Proof.
  intro o.
  assert (Z : _redshift o = 0) by apply demo6_config.
  assert (H0 : 1 + _redshift o <> 0) by (rewrite Z; lra).
  assert (H1 : 1 <> _redshift o) by (rewrite Z; lra).
  assert (H2 : -1 <> _redshift o) by (rewrite Z; lra).
  assert (H3 : 1 + 1 <> 0) by lra.
  assert (H4 : 1 + -1 = 0) by lra.
  split; [repeat split; assumption|].
  pose proof (X4_change_of_redshift_undoes_c0_of_set_halo o demo.h_dict_2 1 H0 H1)
    as A.
  pose proof (X4_change_of_redshift_undoes_c0_of_set_halo o demo.h_dict_2 (-1) H0
                H2) as B.
  clearbody o. cbv zeta in A, B.
  destruct A as (_ & _ & _ & A & _). destruct B as (_ & _ & _ & _ & B).
  split; [exact (proj2 (A H3)) | exact (proj2 (B H4))].
Defined.

Lemma X21_witness :
  let o := demo6.halo HaloFit_cls in
  exists attrs,
    (terms_present o /\ fit o = Some attrs /\
     _initialized_sigma_spline attrs = false) /\
    (exists hg pp,
       returned (HaloFit.power_gg 1) o =
       match returned (HaloFit.power_mm 1) o with
       | Ok pmm => Ok (pmm * value_of o hg 1 * value_of o hg 1 + value_of o pp 1)
       | Raise e => Raise e
       end) /\
    exists pmm ggv gmv,
      returned (HaloFit.power_mm 1) o = Ok pmm /\
      returned (HaloFit.power_gg 1) o = Ok ggv /\
      returned (HaloFit.power_gm 1) o = Ok gmv.
Proof.
  intro o.
  assert (P : terms_present o) by apply demo6_present.
  destruct (new_fit 0 None None None None) as (attrs & Ef & Fl).
  change (new HaloFit_cls 0 None None None None) with o in Ef.
  exists attrs. split; [split; [exact P | split; [exact Ef | exact Fl]]|].
  pose proof (demo6_sigma_evaluates o) as Ev.
  pose proof (X21_halofit_galaxy_spectra_use_the_fitted_power_mm o attrs 1 P Ef Fl)
    as H.
  clearbody o.
  destruct H as ((hg & pp & _ & _ & G) & _ & H).
  rewrite Ev in H.
  split; [exists hg, pp; exact G | exact H].
Defined.

End FittedExamples.
